(** * The OpenAI Responses adapter of adk-go, embedded in Rocq

    A shallow embedding of package [model/openai]: the request builder with
    its call tracker (request.go), the tool and tool-choice converter
    (tools.go), the non-streaming response converter (response.go) and the
    streaming translator (stream.go), followed by the properties the design
    document states about them.

    Go values are modelled as follows.
    - [string] is [string]; a nilable pointer or interface is an [option];
      a slice is a [list] (a nil slice and an empty slice are both [[]],
      the code only ever takes [len] of them or tests a map or slice that
      the caller built for [nil], which is kept as an [option] where the
      code does so).
    - [map[string]T] is a [gmap string T].
    - A function returning [(T, error)] returns a [result T]; a method that
      mutates its receiver returns the new receiver next to its result.
    - [int] is a 64-bit two's-complement integer: a [Z] with the wrap-around
      of [++] written out.
    - [encoding/json] and the floating-point types are not part of the
      package; they are the fields of the class [Platform]. *)

From Stdlib Require Import ZArith Bool Ascii String DecimalZ DecimalString SpecFloat Lia.
From stdpp Require Import base option list gmap strings.

#[local] Set Warnings "-register-all".
#[local] Open Scope Z_scope.

(** ** Errors *)

(** The package-level error values of errors.go. Each is created by its own
    call of [errors.New], so each is a distinct value whatever its text. *)
Inductive sentinel : Set :=
| ErrModelNameRequired
| ErrClientRequired
| ErrRequestNil
| ErrStreamingUnavailable
| ErrNoContents
| ErrFunctionCallMissingName
| ErrTopKNotSupported
| ErrStopSequencesNotSupported
| ErrMultipleCandidatesNotSupported
| ErrPenaltiesNotSupported
| ErrLabelsNotSupported
| ErrSafetySettingsNotSupported
| ErrJSONResponseWithoutSchema
| ErrEmptyJSONSchema
| ErrEmptyResponse
| ErrNoOutputItems
| ErrNoTextOrToolContent.

(** The text given to [errors.New] for each of them. *)
Definition sentinel_text (s : sentinel) : string :=
  match s with
  | ErrModelNameRequired => "openai: model name is required"
  | ErrClientRequired => "openai: client is required"
  | ErrRequestNil => "openai: request is nil"
  | ErrStreamingUnavailable => "openai: streaming unavailable"
  | ErrNoContents => "openai: LLM request has no contents to convert"
  | ErrFunctionCallMissingName => "openai: function call missing name"
  | ErrTopKNotSupported => "openai: topK is not supported by the Responses API"
  | ErrStopSequencesNotSupported => "openai: stop sequences are not supported"
  | ErrMultipleCandidatesNotSupported =>
      "openai: multiple candidates per request are not supported"
  | ErrPenaltiesNotSupported => "openai: frequency/presence penalties are not supported"
  | ErrLabelsNotSupported => "openai: request labels are not supported"
  | ErrSafetySettingsNotSupported => "openai: gemini safety settings are not supported"
  | ErrJSONResponseWithoutSchema => "openai: json response requested without schema"
  | ErrEmptyJSONSchema => "openai: empty json schema"
  | ErrEmptyResponse => "openai: empty response"
  | ErrNoOutputItems => "openai: response included no output items"
  | ErrNoTextOrToolContent =>
      "openai: response output did not contain text or tool content"
  end.

(** An [error] is one of the values above, an error built on the spot by
    [fmt.Errorf] (kept as its format string and operands, unrendered), or an
    error handed back by a library ([encoding/json]). *)
Inductive error : Type :=
| Sentinel (s : sentinel)
| Errorf (format : string) (operands : list operand)
| LibraryError (text : string)
with operand : Type :=
| OpString (s : string)      (* operand of %s or %q *)
| OpInt (n : Z)              (* operand of %d *)
| OpType (name : string)     (* operand of %T: the name of its dynamic type *)
| OpError (e : error).       (* operand of %w *)

Coercion Sentinel : sentinel >-> error.

(** [(T, error)]: either a value or an error. *)
Inductive result (A : Type) : Type :=
| Ok (a : A)
| Err (e : error).
Arguments Ok {A} a.
Arguments Err {A} e.

Definition is_err {A} (r : result A) : bool :=
  match r with Ok _ => false | Err _ => true end.

(** ** Values held in [any] and in [map[string]any] *)

(** The Go values that travel through [any] in this package: what
    [encoding/json] decodes to, and anything else a caller may have stored
    (kept by the name of its type). [AnyNil] is the nil interface,
    [AnyNilMap] a nil [map[string]any]. Numbers decoded from JSON are kept
    as their literal. *)
Inductive any : Type :=
| AnyNil
| AnyBool (b : bool)
| AnyInt (n : Z)
| AnyNumber (literal : string)
| AnyString (s : string)
| AnySlice (l : list any)
| AnyMap (m : gmap string any)
| AnyNilMap
| AnyOther (type_name : string).

(** [map[string]any], which may be nil. *)
Definition GoMap : Type := option (gmap string any).

(** A [map[string]any] stored in an [any]. *)
Definition any_of_map (m : GoMap) : any :=
  match m with
  | Some m => AnyMap m
  | None => AnyNilMap
  end.

(** [genai.Schema]: the package reads [Title] and passes the whole value to
    [json.Marshal]; the other fields are kept together. *)
Record Schema : Type := {
  Title : string;
  SchemaFields : gmap string any
}.

(** What the package takes from outside: [encoding/json] and the float
    types. [json_Unmarshal data m] is [json.Unmarshal(data, &m)] for a
    variable [m] of type [map[string]any] holding [m] before the call; it
    gives the value of the variable after the call, or the error. *)
Class Platform : Type := {
  float32 : Type;
  float64 : Type;
  float64_of_float32 : float32 -> float64;
  json_Marshal : any -> result string;
  json_Marshal_Schema : Schema -> result string;
  json_Unmarshal : string -> GoMap -> result GoMap;
  (** The one fact about [encoding/json] that the properties below rely on:
      the text of the empty object decodes, into a nil map, to the empty
      map. *)
  json_Unmarshal_empty_object : json_Unmarshal "{}" None = Ok (Some ∅)
}.

(** ** [fmt.Sprintf] with the verb [%d] *)

(** The decimal rendering of an integer, as [%d] prints it. *)
Definition format_int (n : Z) : string :=
  NilEmpty.string_of_int (Z.to_int n).

(** [int]: 64 bits, two's complement. *)
Definition wrap_int (n : Z) : Z :=
  (n + 2 ^ 63) mod 2 ^ 64 - 2 ^ 63.

(** ** The canonical model (package genai) *)

Module FunctionCall.
Record t : Type := {
  ID : string;
  Name : string;
  Args : GoMap
}.
End FunctionCall.

Module FunctionResponse.
Record t : Type := {
  ID : string;
  Name : string;
  Response : GoMap
}.
End FunctionResponse.

Module Blob.
Record t : Type := {
  MIMEType : string;
  Data : list ascii
}.
End Blob.

Module FileData.
Record t : Type := {
  MIMEType : string;
  FileURI : string
}.
End FileData.

(** [genai.Part]: the fields this package reads, and two of the kinds it
    does not support. *)
Module Part.
Record t : Type := {
  Text : string;
  Thought : bool;
  InlineData : option Blob.t;
  FileData : option FileData.t;
  FunctionCall : option FunctionCall.t;
  FunctionResponse : option FunctionResponse.t
}.
End Part.

Module Content.
Record t : Type := {
  Role : string;
  Parts : list (option Part.t)
}.
End Content.

Definition RoleUser : string := "user".
Definition RoleModel : string := "model".

(** ** The vendor's request items (package responses) *)

Module ResponseFunctionToolCallParam.
Record t : Type := {
  Name : string;
  CallID : string;
  Arguments : string;
  Type_ : string
}.
End ResponseFunctionToolCallParam.

Module ResponseInputItemFunctionCallOutputParam.
Record t : Type := {
  CallID : string;
  Output : string;
  Type_ : string
}.
End ResponseInputItemFunctionCallOutputParam.

Module ResponseInputTextParam.
Record t : Type := {
  Text : string;
  Type_ : string
}.
End ResponseInputTextParam.

Inductive EasyInputMessageRole : Set :=
| EasyInputMessageRoleUser
| EasyInputMessageRoleAssistant
| EasyInputMessageRoleSystem
| EasyInputMessageRoleDeveloper.

Module EasyInputMessageParam.
Record t : Type := {
  Role : EasyInputMessageRole;
  Type_ : string;
  Content : list ResponseInputTextParam.t
}.
End EasyInputMessageParam.

(** [responses.ResponseInputItemUnionParam]: the package sets exactly one of
    its fields. *)
Inductive ResponseInputItemUnionParam : Type :=
| OfMessage (msg : EasyInputMessageParam.t)
| OfFunctionCall (call : ResponseFunctionToolCallParam.t)
| OfFunctionCallOutput (out : ResponseInputItemFunctionCallOutputParam.t).

(** ** request.go: roles, messages and the call tracker *)

(** [strings.TrimSpace(txt) == ""]: every rune of [txt] is white space.
    Go strings are byte strings read as UTF-8; the white-space runes are
    U+0009..U+000D, U+0020, U+0085, U+00A0, U+1680, U+2000..U+200A, U+2028,
    U+2029, U+202F, U+205F and U+3000, and a byte that starts no valid
    encoding is no white space. *)
Definition ascii_space (c : N) : bool :=
  ((9 <=? c) && (c <=? 13) || (c =? 32))%N.

Definition two_byte_space (c d : N) : bool :=
  ((c =? 194) && ((d =? 133) || (d =? 160)))%N.

Definition three_byte_space (c d e : N) : bool :=
  ((c =? 225) && (d =? 154) && (e =? 128)
   || (c =? 226) && (d =? 128)
      && ((128 <=? e) && (e <=? 138) || (e =? 168) || (e =? 169) || (e =? 175))
   || (c =? 226) && (d =? 129) && (e =? 159)
   || (c =? 227) && (d =? 128) && (e =? 128))%N.

Fixpoint TrimSpace_is_empty (txt : string) : bool :=
  match txt with
  | EmptyString => true
  | String a s1 =>
      if ascii_space (N_of_ascii a) then TrimSpace_is_empty s1
      else
        match s1 with
        | EmptyString => false
        | String b s2 =>
            if two_byte_space (N_of_ascii a) (N_of_ascii b)
            then TrimSpace_is_empty s2
            else
              match s2 with
              | EmptyString => false
              | String c s3 =>
                  if three_byte_space (N_of_ascii a) (N_of_ascii b) (N_of_ascii c)
                  then TrimSpace_is_empty s3
                  else false
              end
        end
  end.

Definition normalizeRole (role : string) : result EasyInputMessageRole :=
  if String.eqb role "" || String.eqb role RoleUser then Ok EasyInputMessageRoleUser
  else if String.eqb role RoleModel then Ok EasyInputMessageRoleAssistant
  else if String.eqb role "system" then Ok EasyInputMessageRoleSystem
  else if String.eqb role "developer" then Ok EasyInputMessageRoleDeveloper
  else Err (Errorf "openai: unsupported role %q" [OpString role]).

(** The loop of [newMessage]: one content entry per text that is not blank. *)
Fixpoint newMessage_contentList (texts : list string) : list ResponseInputTextParam.t :=
  match texts with
  | [] => []
  | txt :: rest =>
      if TrimSpace_is_empty txt then newMessage_contentList rest
      else {| ResponseInputTextParam.Text := txt;
              ResponseInputTextParam.Type_ := "input_text" |}
           :: newMessage_contentList rest
  end.

Definition newMessage (role : string) (texts : list string)
  : result (option EasyInputMessageParam.t) :=
  match texts with
  | [] => Ok None
  | _ :: _ =>
      match normalizeRole role with
      | Err e => Err e
      | Ok msgRole =>
          match newMessage_contentList texts with
          | [] => Ok None
          | contentList =>
              Ok (Some {| EasyInputMessageParam.Role := msgRole;
                          EasyInputMessageParam.Type_ := "message";
                          EasyInputMessageParam.Content := contentList |})
          end
      end
  end.

(** [callTracker]: the counter for generated identifiers and the identifiers
    of the calls not yet answered, oldest first. *)
Record callTracker : Type := {
  nextID : Z;
  pending : list string
}.

(** [fmt.Sprintf("adk-openai-call-%d", n)]. *)
Definition generated_call_id (n : Z) : string :=
  "adk-openai-call-" +:+ format_int n.

(** The loop of [newFunctionResponse]: the index of the first pending entry
    equal to [callID], counting from [i], if there is one. *)
Fixpoint find_pending (callID : string) (rest : list string) (i : nat) : option nat :=
  match rest with
  | [] => None
  | p :: rest' => if String.eqb p callID then Some i else find_pending callID rest' (S i)
  end.

Section Tracker.
Context `{Platform}.

Definition newFunctionCall (t : callTracker) (fc : FunctionCall.t)
  : callTracker * result ResponseFunctionToolCallParam.t :=
  if String.eqb (FunctionCall.Name fc) "" then (t, Err (Sentinel ErrFunctionCallMissingName))
  else
    let '(callID, t1) :=
      if String.eqb (FunctionCall.ID fc) ""
      then (generated_call_id (nextID t),
            {| nextID := wrap_int (nextID t + 1); pending := pending t |})
      else (FunctionCall.ID fc, t) in
    let t2 := {| nextID := nextID t1; pending := pending t1 ++ [callID] |} in
    let argsValue :=
      match FunctionCall.Args fc with
      | None => Some ∅
      | Some m => Some m
      end in
    match json_Marshal (any_of_map argsValue) with
    | Err e => (t2, Err (Errorf "openai: marshal function args: %w" [OpError e]))
    | Ok args =>
        (t2, Ok {| ResponseFunctionToolCallParam.Name := FunctionCall.Name fc;
                   ResponseFunctionToolCallParam.CallID := callID;
                   ResponseFunctionToolCallParam.Arguments := args;
                   ResponseFunctionToolCallParam.Type_ := "function_call" |})
    end.

(** The part of [newFunctionResponse] that settles the call identifier and
    updates the pending list (the [if callID == ""] statement). *)
Definition matchPending (t : callTracker) (fr : FunctionResponse.t)
  : callTracker * result string :=
  if String.eqb (FunctionResponse.ID fr) "" then
    match pending t with
    | [] =>
        (t, Err (Errorf "openai: response for %q missing call id"
                   [OpString (FunctionResponse.Name fr)]))
    | oldest :: rest => ({| nextID := nextID t; pending := rest |}, Ok oldest)
    end
  else
    let callID := FunctionResponse.ID fr in
    match find_pending callID (pending t) 0 with
    | Some i =>
        ({| nextID := nextID t;
            pending := take i (pending t) ++ drop (S i) (pending t) |},
         Ok callID)
    | None =>
        (t, Err (Errorf
                   "openai: received function response for unknown or already completed call id %q"
                   [OpString callID]))
    end.

Definition newFunctionResponse (t : callTracker) (fr : FunctionResponse.t)
  : callTracker * result ResponseInputItemFunctionCallOutputParam.t :=
  match matchPending t fr with
  | (t1, Err e) => (t1, Err e)
  | (t1, Ok callID) =>
      match json_Marshal (any_of_map (FunctionResponse.Response fr)) with
      | Err e => (t1, Err (Errorf "openai: marshal function response: %w" [OpError e]))
      | Ok payload =>
          (t1, Ok {| ResponseInputItemFunctionCallOutputParam.CallID := callID;
                     ResponseInputItemFunctionCallOutputParam.Output := payload;
                     ResponseInputItemFunctionCallOutputParam.Type_ :=
                       "function_call_output" |})
      end
  end.

End Tracker.

(** ** request.go: content conversion *)

(** Sequencing of fallible steps, [if err != nil { return ..., err }],
    written [x ← step; rest]. *)
#[global] Instance result_bind : MBind result :=
  fun A B (k : A -> result B) (r : result A) =>
    match r with
    | Ok a => k a
    | Err e => Err e
    end.

(** The local variables of [convertContents]. *)
Record convertState : Type := {
  items : list ResponseInputItemUnionParam;
  tracker : callTracker;
  textParts : list string;
  curRole : string
}.

(** The closure [flushText] of [convertContents]. *)
Definition flushText (st : convertState) : result convertState :=
  match textParts st with
  | [] => Ok st
  | _ :: _ =>
      msg ← newMessage (curRole st) (textParts st);
      Ok {| items := match msg with
                     | Some m => items st ++ [OfMessage m]
                     | None => items st
                     end;
            tracker := tracker st;
            textParts := [];
            curRole := curRole st |}
  end.

Definition unsupported_part : error :=
  Errorf "openai: unsupported content part %T" [OpType "*genai.Part"].

Section Contents.
Context `{Platform}.

(** The inner loop of [convertContents], over the parts of one content. *)
Fixpoint convertContents_parts (parts : list (option Part.t)) (st : convertState)
  : result convertState :=
  match parts with
  | [] => Ok st
  | None :: rest => convertContents_parts rest st
  | Some part :: rest =>
      if negb (String.eqb (Part.Text part) "") then
        convertContents_parts rest
          {| items := items st; tracker := tracker st;
             textParts := textParts st ++ [Part.Text part];
             curRole := curRole st |}
      else
        match Part.FunctionCall part, Part.FunctionResponse part with
        | Some fc, _ =>
            st1 ← flushText st;
            match newFunctionCall (tracker st1) fc with
            | (_, Err e) => Err e
            | (t, Ok callParam) =>
                convertContents_parts rest
                  {| items := items st1 ++ [OfFunctionCall callParam];
                     tracker := t;
                     textParts := textParts st1;
                     curRole := curRole st1 |}
            end
        | None, Some fr =>
            st1 ← flushText st;
            match newFunctionResponse (tracker st1) fr with
            | (_, Err e) => Err e
            | (t, Ok respParam) =>
                convertContents_parts rest
                  {| items := items st1 ++ [OfFunctionCallOutput respParam];
                     tracker := t;
                     textParts := textParts st1;
                     curRole := curRole st1 |}
            end
        | None, None => Err unsupported_part
        end
  end.

(** The outer loop of [convertContents]. *)
Fixpoint convertContents_loop (contents : list (option Content.t)) (st : convertState)
  : result convertState :=
  match contents with
  | [] => Ok st
  | None :: rest => convertContents_loop rest st
  | Some content :: rest =>
      match Content.Parts content with
      | [] => convertContents_loop rest st
      | _ :: _ =>
          st1 ← convertContents_parts (Content.Parts content)
                   {| items := items st; tracker := tracker st;
                      textParts := textParts st;
                      curRole := Content.Role content |};
          st2 ← flushText st1;
          convertContents_loop rest st2
      end
  end.

Definition convertContents (contents : list (option Content.t))
  : result (list ResponseInputItemUnionParam) :=
  st ← convertContents_loop contents
          {| items := [];
             tracker := {| nextID := 0; pending := [] |};
             textParts := [];
             curRole := RoleUser |};
  Ok (items st).

End Contents.

(** ** Generation configuration, tools and tool choice (package genai) *)

Definition FunctionCallingConfigModeUnspecified : string := "MODE_UNSPECIFIED".
Definition FunctionCallingConfigModeAuto : string := "AUTO".
Definition FunctionCallingConfigModeAny : string := "ANY".
Definition FunctionCallingConfigModeNone : string := "NONE".

Module FunctionCallingConfig.
Record t : Type := {
  Mode : string;
  AllowedFunctionNames : list string
}.
End FunctionCallingConfig.

Module ToolConfig.
Record t : Type := {
  FunctionCallingConfig : option FunctionCallingConfig.t
}.
End ToolConfig.

Module FunctionDeclaration.
Record t : Type := {
  Name : string;
  Description : string;
  Parameters : option Schema;
  ParametersJsonSchema : any
}.
End FunctionDeclaration.

(** [genai.Tool]: for each built-in capability, whether its pointer is set. *)
Module Tool.
Record t : Type := {
  Retrieval : bool;
  GoogleSearch : bool;
  GoogleSearchRetrieval : bool;
  GoogleMaps : bool;
  EnterpriseWebSearch : bool;
  URLContext : bool;
  ComputerUse : bool;
  CodeExecution : bool;
  FunctionDeclarations : list (option FunctionDeclaration.t)
}.
End Tool.

(** [genai.SafetySetting], by the names of its category and threshold. *)
Module SafetySetting.
Record t : Type := {
  Category : string;
  Threshold : string
}.
End SafetySetting.

(** [genai.GenerateContentConfig]. [Labels] and [SafetySettings] are tested
    for nil by the package, so nil ([None]) and empty are kept apart;
    [MaxOutputTokens], [CandidateCount] and [Logprobs] are [int32]. *)
Module GenerateContentConfig.
Record t `{Platform} : Type := {
  Temperature : option float32;
  TopP : option float32;
  TopK : option float32;
  MaxOutputTokens : Z;
  StopSequences : list string;
  CandidateCount : Z;
  FrequencyPenalty : option float32;
  PresencePenalty : option float32;
  ResponseLogprobs : bool;
  Logprobs : option Z;
  SystemInstruction : option Content.t;
  ResponseMIMEType : string;
  ResponseSchema : option Schema;
  ResponseJsonSchema : any;
  Labels : option (gmap string string);
  SafetySettings : option (list (option SafetySetting.t));
  Tools : list (option Tool.t);
  ToolConfig : option ToolConfig.t
}.
End GenerateContentConfig.

(** [model.LLMRequest]. *)
Module LLMRequest.
Record t `{Platform} : Type := {
  Model : string;
  Contents : list (option Content.t);
  Config : option GenerateContentConfig.t
}.
End LLMRequest.

(** ** The vendor's request parameters (package responses) *)

Module ResponseFormatTextJSONSchemaConfigParam.
Record t : Type := {
  Name : string;
  Schema_ : GoMap;
  Type_ : string
}.
End ResponseFormatTextJSONSchemaConfigParam.

Module FunctionToolParam.
Record t : Type := {
  Name : string;
  Type_ : string;
  Parameters : GoMap;
  Strict : option bool;
  Description : option string
}.
End FunctionToolParam.

Inductive ToolChoiceOptions : Set :=
| ToolChoiceOptionsNone
| ToolChoiceOptionsAuto
| ToolChoiceOptionsRequired.

Inductive ToolChoiceAllowedMode : Set :=
| ToolChoiceAllowedModeAuto
| ToolChoiceAllowedModeRequired.

Module ToolChoiceAllowedParam.
Record t : Type := {
  Mode : ToolChoiceAllowedMode;
  Type_ : string;
  Tools : list (gmap string any)
}.
End ToolChoiceAllowedParam.

(** [responses.ResponseNewParamsToolChoiceUnion]: the two fields the package
    sets; an omitted [param.Opt] and a nil pointer are both [None]. *)
Module ResponseNewParamsToolChoiceUnion.
Record t : Type := {
  OfToolChoiceMode : option ToolChoiceOptions;
  OfAllowedTools : option ToolChoiceAllowedParam.t
}.
End ResponseNewParamsToolChoiceUnion.

(** [responses.ResponseNewParams]: the fields the package sets. *)
Module ResponseNewParams.
Record t `{Platform} : Type := {
  Model : string;
  Input : list ResponseInputItemUnionParam;
  Temperature : option float64;
  TopP : option float64;
  MaxOutputTokens : option Z;
  TopLogprobs : option Z;
  Instructions : option string;
  Text : option ResponseFormatTextJSONSchemaConfigParam.t;
  Tools : list FunctionToolParam.t;
  ToolChoice : option ResponseNewParamsToolChoiceUnion.t
}.
End ResponseNewParams.

(** ** tools.go *)

Definition is_set {A} (p : option A) : bool :=
  match p with Some _ => true | None => false end.

Definition ensureFunctionToolOnly (idx : Z) (tool : option Tool.t) : option error :=
  match tool with
  | None => Some (Errorf "openai: tool %d is nil" [OpInt idx])
  | Some tool =>
      if Tool.Retrieval tool || Tool.GoogleSearch tool || Tool.GoogleSearchRetrieval tool
         || Tool.GoogleMaps tool || Tool.EnterpriseWebSearch tool
         || Tool.URLContext tool || Tool.ComputerUse tool || Tool.CodeExecution tool
      then Some (Errorf "openai: non-function tools are not supported (tool %d)" [OpInt idx])
      else
        match Tool.FunctionDeclarations tool with
        | [] => Some (Errorf "openai: tool %d does not declare any functions" [OpInt idx])
        | _ :: _ => None
        end
  end.

(** The loop of [allowedToolParam]: one entry per name that is not empty. *)
Fixpoint allowedToolParam_tools (names : list string) : list (gmap string any) :=
  match names with
  | [] => []
  | name :: rest =>
      if String.eqb name "" then allowedToolParam_tools rest
      else {[ "type" := AnyString "function"; "name" := AnyString name ]}
           :: allowedToolParam_tools rest
  end.

Definition allowedToolParam (names : list string) (mode : ToolChoiceAllowedMode)
  : option ToolChoiceAllowedParam.t :=
  match allowedToolParam_tools names with
  | [] => None
  | tools =>
      Some {| ToolChoiceAllowedParam.Mode := mode;
              ToolChoiceAllowedParam.Type_ := "allowed_tools";
              ToolChoiceAllowedParam.Tools := tools |}
  end.

Definition unsupported_mode (mode : string) : error :=
  Errorf "openai: unsupported tool calling mode %q" [OpString mode].

Definition convertToolChoice (toolCfg : option ToolConfig.t)
  : result (option ResponseNewParamsToolChoiceUnion.t) :=
  match toolCfg with
  | None => Ok None
  | Some toolCfg =>
      match ToolConfig.FunctionCallingConfig toolCfg with
      | None => Ok None
      | Some cfg =>
          let mode := FunctionCallingConfig.Mode cfg in
          let names := FunctionCallingConfig.AllowedFunctionNames cfg in
          let finish (choice : ResponseNewParamsToolChoiceUnion.t) :=
            if is_set (ResponseNewParamsToolChoiceUnion.OfToolChoiceMode choice)
               || is_set (ResponseNewParamsToolChoiceUnion.OfAllowedTools choice)
            then Ok (Some choice)
            else Ok None in
          if String.eqb mode "" || String.eqb mode FunctionCallingConfigModeUnspecified
             || String.eqb mode FunctionCallingConfigModeAuto
          then
            match names with
            | [] => Ok None
            | _ :: _ =>
                finish
                  {| ResponseNewParamsToolChoiceUnion.OfToolChoiceMode := None;
                     ResponseNewParamsToolChoiceUnion.OfAllowedTools :=
                       allowedToolParam names ToolChoiceAllowedModeAuto |}
            end
          else if String.eqb mode FunctionCallingConfigModeNone then
            finish
              {| ResponseNewParamsToolChoiceUnion.OfToolChoiceMode :=
                   Some ToolChoiceOptionsNone;
                 ResponseNewParamsToolChoiceUnion.OfAllowedTools := None |}
          else if String.eqb mode FunctionCallingConfigModeAny then
            match names with
            | [] =>
                finish
                  {| ResponseNewParamsToolChoiceUnion.OfToolChoiceMode :=
                       Some ToolChoiceOptionsRequired;
                     ResponseNewParamsToolChoiceUnion.OfAllowedTools := None |}
            | _ :: _ =>
                finish
                  {| ResponseNewParamsToolChoiceUnion.OfToolChoiceMode := None;
                     ResponseNewParamsToolChoiceUnion.OfAllowedTools :=
                       allowedToolParam names ToolChoiceAllowedModeRequired |}
            end
          else Err (unsupported_mode mode)
      end
  end.

Section Schemas.
Context `{Platform}.

Definition schemaToMap (schema : option Schema) : result GoMap :=
  match schema with
  | None => Ok None
  | Some schema =>
      match json_Marshal_Schema schema with
      | Err e => Err (Errorf "openai: marshal schema: %w" [OpError e])
      | Ok bytes =>
          match json_Unmarshal bytes None with
          | Err e => Err (Errorf "openai: unmarshal schema: %w" [OpError e])
          | Ok result => Ok result
          end
      end
  end.

(** request.go. The type switch of the source: a [map[string]any] is
    returned as it is, the nil interface is an error, any other value goes
    through [encoding/json]. *)
Definition normalizeSchema (schema : any) : result GoMap :=
  match schema with
  | AnyMap s => Ok (Some s)
  | AnyNilMap => Ok None
  | AnyNil => Err (Sentinel ErrEmptyJSONSchema)
  | s =>
      match json_Marshal s with
      | Err e => Err (Errorf "openai: marshal json schema: %w" [OpError e])
      | Ok bytes =>
          match json_Unmarshal bytes None with
          | Err e => Err (Errorf "openai: unmarshal json schema: %w" [OpError e])
          | Ok result => Ok result
          end
      end
  end.

Definition is_nil (v : any) : bool :=
  match v with AnyNil => true | _ => false end.

Definition is_nil_map (m : GoMap) : bool :=
  match m with None => true | Some _ => false end.

Definition convertFunctionDeclaration (fn : option FunctionDeclaration.t)
  : result FunctionToolParam.t :=
  match fn with
  | None => Err (Errorf "openai: nil function declaration" [])
  | Some fn =>
      if String.eqb (FunctionDeclaration.Name fn) ""
      then Err (Errorf "openai: function declaration missing name" [])
      else
        paramsMap ← schemaToMap (FunctionDeclaration.Parameters fn);
        paramsMap ←
          (if is_nil_map paramsMap && negb (is_nil (FunctionDeclaration.ParametersJsonSchema fn))
           then normalizeSchema (FunctionDeclaration.ParametersJsonSchema fn)
           else Ok paramsMap);
        let paramsMap :=
          match paramsMap with
          | None => Some {[ "type" := AnyString "object"; "properties" := AnyMap ∅ ]}
          | Some m => Some m
          end in
        Ok {| FunctionToolParam.Name := FunctionDeclaration.Name fn;
              FunctionToolParam.Type_ := "function";
              FunctionToolParam.Parameters := paramsMap;
              FunctionToolParam.Strict := Some true;
              FunctionToolParam.Description :=
                if String.eqb (FunctionDeclaration.Description fn) "" then None
                else Some (FunctionDeclaration.Description fn) |}
  end.

(** The inner loop of [convertTools], over the declarations of one tool. *)
Fixpoint convertTools_decls (decls : list (option FunctionDeclaration.t))
  (tools : list FunctionToolParam.t) : result (list FunctionToolParam.t) :=
  match decls with
  | [] => Ok tools
  | decl :: rest =>
      fn ← convertFunctionDeclaration decl;
      convertTools_decls rest (tools ++ [fn])
  end.

(** The outer loop of [convertTools]; [i] is the index of the first tool of
    [rest]. A nil tool never reaches the inner loop: [ensureFunctionToolOnly]
    rejects it. *)
Fixpoint convertTools_loop (rest : list (option Tool.t)) (i : Z)
  (tools : list FunctionToolParam.t) : result (list FunctionToolParam.t) :=
  match rest with
  | [] => Ok tools
  | tool :: rest' =>
      match ensureFunctionToolOnly i tool with
      | Some e => Err e
      | None =>
          tools1 ← convertTools_decls
                     (from_option Tool.FunctionDeclarations [] tool) tools;
          convertTools_loop rest' (i + 1) tools1
      end
  end.

Definition convertTools (cfg : option GenerateContentConfig.t)
  : result (list FunctionToolParam.t) :=
  match cfg with
  | None => Ok []
  | Some cfg => convertTools_loop (GenerateContentConfig.Tools cfg) 0 []
  end.

End Schemas.

(** ** request.go: generation configuration *)

Definition newline : string := String (ascii_of_N 10) EmptyString.

Definition non_text_part : error :=
  Errorf "non-text system instruction part %T" [OpType "*genai.Part"].

(** The loop of [flattenContentText]; [b] is the text built so far. *)
Fixpoint flattenContentText_loop (parts : list (option Part.t)) (b : string)
  : result string :=
  match parts with
  | [] => Ok b
  | None :: rest => flattenContentText_loop rest b
  | Some part :: rest =>
      if String.eqb (Part.Text part) "" then Err non_text_part
      else
        let b1 := if negb (String.eqb b "") then b +:+ newline else b in
        flattenContentText_loop rest (b1 +:+ Part.Text part)
  end.

Definition flattenContentText (content : option Content.t) : result string :=
  match content with
  | None => Ok ""
  | Some content => flattenContentText_loop (Content.Parts content) ""
  end.

Section Config.
Context `{Platform}.

Definition newJSONSchemaFormat (cfg : GenerateContentConfig.t)
  : result ResponseFormatTextJSONSchemaConfigParam.t :=
  schema ←
    (if negb (is_nil (GenerateContentConfig.ResponseJsonSchema cfg))
     then normalizeSchema (GenerateContentConfig.ResponseJsonSchema cfg)
     else if is_set (GenerateContentConfig.ResponseSchema cfg)
     then schemaToMap (GenerateContentConfig.ResponseSchema cfg)
     else Err (Sentinel ErrJSONResponseWithoutSchema));
  let name :=
    match GenerateContentConfig.ResponseSchema cfg with
    | Some s => if negb (String.eqb (Title s) "") then Title s else "adk_response"
    | None => "adk_response"
    end in
  Ok {| ResponseFormatTextJSONSchemaConfigParam.Name := name;
        ResponseFormatTextJSONSchemaConfigParam.Schema_ := schema;
        ResponseFormatTextJSONSchemaConfigParam.Type_ := "json_schema" |}.

Definition set_Temperature (v : option float64) (p : ResponseNewParams.t)
  : ResponseNewParams.t :=
  {| ResponseNewParams.Model := ResponseNewParams.Model p;
     ResponseNewParams.Input := ResponseNewParams.Input p;
     ResponseNewParams.Temperature := v;
     ResponseNewParams.TopP := ResponseNewParams.TopP p;
     ResponseNewParams.MaxOutputTokens := ResponseNewParams.MaxOutputTokens p;
     ResponseNewParams.TopLogprobs := ResponseNewParams.TopLogprobs p;
     ResponseNewParams.Instructions := ResponseNewParams.Instructions p;
     ResponseNewParams.Text := ResponseNewParams.Text p;
     ResponseNewParams.Tools := ResponseNewParams.Tools p;
     ResponseNewParams.ToolChoice := ResponseNewParams.ToolChoice p |}.

Definition set_TopP (v : option float64) (p : ResponseNewParams.t)
  : ResponseNewParams.t :=
  {| ResponseNewParams.Model := ResponseNewParams.Model p;
     ResponseNewParams.Input := ResponseNewParams.Input p;
     ResponseNewParams.Temperature := ResponseNewParams.Temperature p;
     ResponseNewParams.TopP := v;
     ResponseNewParams.MaxOutputTokens := ResponseNewParams.MaxOutputTokens p;
     ResponseNewParams.TopLogprobs := ResponseNewParams.TopLogprobs p;
     ResponseNewParams.Instructions := ResponseNewParams.Instructions p;
     ResponseNewParams.Text := ResponseNewParams.Text p;
     ResponseNewParams.Tools := ResponseNewParams.Tools p;
     ResponseNewParams.ToolChoice := ResponseNewParams.ToolChoice p |}.

Definition set_MaxOutputTokens (v : option Z) (p : ResponseNewParams.t)
  : ResponseNewParams.t :=
  {| ResponseNewParams.Model := ResponseNewParams.Model p;
     ResponseNewParams.Input := ResponseNewParams.Input p;
     ResponseNewParams.Temperature := ResponseNewParams.Temperature p;
     ResponseNewParams.TopP := ResponseNewParams.TopP p;
     ResponseNewParams.MaxOutputTokens := v;
     ResponseNewParams.TopLogprobs := ResponseNewParams.TopLogprobs p;
     ResponseNewParams.Instructions := ResponseNewParams.Instructions p;
     ResponseNewParams.Text := ResponseNewParams.Text p;
     ResponseNewParams.Tools := ResponseNewParams.Tools p;
     ResponseNewParams.ToolChoice := ResponseNewParams.ToolChoice p |}.

Definition set_TopLogprobs (v : option Z) (p : ResponseNewParams.t)
  : ResponseNewParams.t :=
  {| ResponseNewParams.Model := ResponseNewParams.Model p;
     ResponseNewParams.Input := ResponseNewParams.Input p;
     ResponseNewParams.Temperature := ResponseNewParams.Temperature p;
     ResponseNewParams.TopP := ResponseNewParams.TopP p;
     ResponseNewParams.MaxOutputTokens := ResponseNewParams.MaxOutputTokens p;
     ResponseNewParams.TopLogprobs := v;
     ResponseNewParams.Instructions := ResponseNewParams.Instructions p;
     ResponseNewParams.Text := ResponseNewParams.Text p;
     ResponseNewParams.Tools := ResponseNewParams.Tools p;
     ResponseNewParams.ToolChoice := ResponseNewParams.ToolChoice p |}.

Definition set_Instructions (v : option string) (p : ResponseNewParams.t)
  : ResponseNewParams.t :=
  {| ResponseNewParams.Model := ResponseNewParams.Model p;
     ResponseNewParams.Input := ResponseNewParams.Input p;
     ResponseNewParams.Temperature := ResponseNewParams.Temperature p;
     ResponseNewParams.TopP := ResponseNewParams.TopP p;
     ResponseNewParams.MaxOutputTokens := ResponseNewParams.MaxOutputTokens p;
     ResponseNewParams.TopLogprobs := ResponseNewParams.TopLogprobs p;
     ResponseNewParams.Instructions := v;
     ResponseNewParams.Text := ResponseNewParams.Text p;
     ResponseNewParams.Tools := ResponseNewParams.Tools p;
     ResponseNewParams.ToolChoice := ResponseNewParams.ToolChoice p |}.

Definition set_Text (v : option ResponseFormatTextJSONSchemaConfigParam.t)
  (p : ResponseNewParams.t) : ResponseNewParams.t :=
  {| ResponseNewParams.Model := ResponseNewParams.Model p;
     ResponseNewParams.Input := ResponseNewParams.Input p;
     ResponseNewParams.Temperature := ResponseNewParams.Temperature p;
     ResponseNewParams.TopP := ResponseNewParams.TopP p;
     ResponseNewParams.MaxOutputTokens := ResponseNewParams.MaxOutputTokens p;
     ResponseNewParams.TopLogprobs := ResponseNewParams.TopLogprobs p;
     ResponseNewParams.Instructions := ResponseNewParams.Instructions p;
     ResponseNewParams.Text := v;
     ResponseNewParams.Tools := ResponseNewParams.Tools p;
     ResponseNewParams.ToolChoice := ResponseNewParams.ToolChoice p |}.

Definition set_Tools (v : list FunctionToolParam.t) (p : ResponseNewParams.t)
  : ResponseNewParams.t :=
  {| ResponseNewParams.Model := ResponseNewParams.Model p;
     ResponseNewParams.Input := ResponseNewParams.Input p;
     ResponseNewParams.Temperature := ResponseNewParams.Temperature p;
     ResponseNewParams.TopP := ResponseNewParams.TopP p;
     ResponseNewParams.MaxOutputTokens := ResponseNewParams.MaxOutputTokens p;
     ResponseNewParams.TopLogprobs := ResponseNewParams.TopLogprobs p;
     ResponseNewParams.Instructions := ResponseNewParams.Instructions p;
     ResponseNewParams.Text := ResponseNewParams.Text p;
     ResponseNewParams.Tools := v;
     ResponseNewParams.ToolChoice := ResponseNewParams.ToolChoice p |}.

Definition set_ToolChoice (v : option ResponseNewParamsToolChoiceUnion.t)
  (p : ResponseNewParams.t) : ResponseNewParams.t :=
  {| ResponseNewParams.Model := ResponseNewParams.Model p;
     ResponseNewParams.Input := ResponseNewParams.Input p;
     ResponseNewParams.Temperature := ResponseNewParams.Temperature p;
     ResponseNewParams.TopP := ResponseNewParams.TopP p;
     ResponseNewParams.MaxOutputTokens := ResponseNewParams.MaxOutputTokens p;
     ResponseNewParams.TopLogprobs := ResponseNewParams.TopLogprobs p;
     ResponseNewParams.Instructions := ResponseNewParams.Instructions p;
     ResponseNewParams.Text := ResponseNewParams.Text p;
     ResponseNewParams.Tools := ResponseNewParams.Tools p;
     ResponseNewParams.ToolChoice := v |}.

End Config.

Section Builder.
Context `{Platform}.

Definition unsupported_mime_type (mime : string) : error :=
  Errorf "openai: response mime type %q is not supported" [OpString mime].

(** [applyGenerationConfig] writes through the pointer [params] and returns
    an [error]: the model returns the parameters as written so far next to
    the error, [None] standing for nil. *)
Definition applyGenerationConfig (params : ResponseNewParams.t)
  (cfg : option GenerateContentConfig.t) : ResponseNewParams.t * option error :=
  match cfg with
  | None => (params, None)
  | Some cfg =>
      let params :=
        match GenerateContentConfig.Temperature cfg with
        | Some v => set_Temperature (Some (float64_of_float32 v)) params
        | None => params
        end in
      let params :=
        match GenerateContentConfig.TopP cfg with
        | Some v => set_TopP (Some (float64_of_float32 v)) params
        | None => params
        end in
      if is_set (GenerateContentConfig.TopK cfg)
      then (params, Some (Sentinel ErrTopKNotSupported))
      else
      let params :=
        if 0 <? GenerateContentConfig.MaxOutputTokens cfg
        then set_MaxOutputTokens (Some (GenerateContentConfig.MaxOutputTokens cfg)) params
        else params in
      if (0 <? length (GenerateContentConfig.StopSequences cfg))%nat
      then (params, Some (Sentinel ErrStopSequencesNotSupported))
      else
      if 1 <? GenerateContentConfig.CandidateCount cfg
      then (params, Some (Sentinel ErrMultipleCandidatesNotSupported))
      else
      if is_set (GenerateContentConfig.FrequencyPenalty cfg)
         || is_set (GenerateContentConfig.PresencePenalty cfg)
      then (params, Some (Sentinel ErrPenaltiesNotSupported))
      else
      let params :=
        if GenerateContentConfig.ResponseLogprobs cfg then
          match GenerateContentConfig.Logprobs cfg with
          | Some n => set_TopLogprobs (Some n) params
          | None => set_TopLogprobs (Some 1) params
          end
        else params in
      match
        match GenerateContentConfig.SystemInstruction cfg with
        | None => Ok params
        | Some _ =>
            match flattenContentText (GenerateContentConfig.SystemInstruction cfg) with
            | Err e => Err (Errorf "openai: system instruction: %w" [OpError e])
            | Ok inst =>
                if negb (String.eqb inst "")
                then Ok (set_Instructions (Some inst) params)
                else Ok params
            end
        end
      with
      | Err e => (params, Some e)
      | Ok params =>
          let mime := GenerateContentConfig.ResponseMIMEType cfg in
          if negb (String.eqb mime "") && negb (String.eqb mime "text/plain")
             && negb (String.eqb mime "application/json")
          then (params, Some (unsupported_mime_type mime))
          else
          match
            if String.eqb mime "application/json"
               || is_set (GenerateContentConfig.ResponseSchema cfg)
               || negb (is_nil (GenerateContentConfig.ResponseJsonSchema cfg))
            then
              match newJSONSchemaFormat cfg with
              | Err e => Err e
              | Ok format => Ok (set_Text (Some format) params)
              end
            else Ok params
          with
          | Err e => (params, Some e)
          | Ok params =>
              if is_set (GenerateContentConfig.Labels cfg)
              then (params, Some (Sentinel ErrLabelsNotSupported))
              else if is_set (GenerateContentConfig.SafetySettings cfg)
              then (params, Some (Sentinel ErrSafetySettingsNotSupported))
              else (params, None)
          end
      end
  end.

(** [responses.ResponseNewParams{Model: model}] with its [Input] set: every
    other field is omitted. *)
Definition initial_params (model : string) (input : list ResponseInputItemUnionParam)
  : ResponseNewParams.t :=
  {| ResponseNewParams.Model := model;
     ResponseNewParams.Input := input;
     ResponseNewParams.Temperature := None;
     ResponseNewParams.TopP := None;
     ResponseNewParams.MaxOutputTokens := None;
     ResponseNewParams.TopLogprobs := None;
     ResponseNewParams.Instructions := None;
     ResponseNewParams.Text := None;
     ResponseNewParams.Tools := [];
     ResponseNewParams.ToolChoice := None |}.

Definition buildOpenAIParams (modelName : string) (req : option LLMRequest.t)
  : result ResponseNewParams.t :=
  match req with
  | None => Err (Sentinel ErrRequestNil)
  | Some req =>
      let model :=
        if negb (String.eqb (LLMRequest.Model req) "") then LLMRequest.Model req
        else modelName in
      input ← convertContents (LLMRequest.Contents req);
      match input with
      | [] => Err (Sentinel ErrNoContents)
      | _ :: _ =>
          let params := initial_params model input in
          match applyGenerationConfig params (LLMRequest.Config req) with
          | (_, Some e) => Err e
          | (params, None) =>
              tools ← convertTools (LLMRequest.Config req);
              let params :=
                match tools with
                | [] => params
                | _ :: _ => set_Tools tools params
                end in
              match LLMRequest.Config req with
              | None => Ok params
              | Some cfg =>
                  match GenerateContentConfig.ToolConfig cfg with
                  | None => Ok params
                  | Some _ =>
                      choice ← convertToolChoice (GenerateContentConfig.ToolConfig cfg);
                      match choice with
                      | Some c => Ok (set_ToolChoice (Some c) params)
                      | None => Ok params
                      end
                  end
              end
          end
      end
  end.

End Builder.

(** ** The vendor's response and the canonical response *)

Module ResponseOutputMessageContentUnion.
Record t : Type := {
  Type_ : string;
  Text : string;
  Refusal : string
}.
End ResponseOutputMessageContentUnion.

Module Summary.
Record t : Type := {
  Text : string
}.
End Summary.

Module ResponseOutputItemUnion.
Record t : Type := {
  Type_ : string;
  Content : list ResponseOutputMessageContentUnion.t;
  Summary : list Summary.t;
  Arguments : string;
  Name : string;
  CallID : string
}.
End ResponseOutputItemUnion.

(** [responses.ResponseUsage]; the counts are [int64]. *)
Module ResponseUsage.
Record t : Type := {
  InputTokens : Z;
  OutputTokens : Z;
  TotalTokens : Z;
  CachedTokens : Z;        (* InputTokensDetails.CachedTokens *)
  ReasoningTokens : Z      (* OutputTokensDetails.ReasoningTokens *)
}.
End ResponseUsage.

Module Response.
Record t : Type := {
  ID : string;
  Model : string;
  Output : list ResponseOutputItemUnion.t;
  Usage : ResponseUsage.t;
  IncompleteReason : string;   (* IncompleteDetails.Reason *)
  ErrorMessage : string        (* Error.Message *)
}.
End Response.

Inductive FinishReason : Set :=
| FinishReasonUnspecified
| FinishReasonStop
| FinishReasonMaxTokens
| FinishReasonSafety
| FinishReasonOther.

Definition MediaModalityText : string := "TEXT".

Module ModalityTokenCount.
Record t : Type := {
  Modality : string;
  TokenCount : Z
}.
End ModalityTokenCount.

Module UsageMetadata.
Record t : Type := {
  PromptTokenCount : Z;
  CandidatesTokenCount : Z;
  TotalTokenCount : Z;
  CachedContentTokenCount : Z;
  PromptTokensDetails : list ModalityTokenCount.t;
  CandidatesTokensDetails : list ModalityTokenCount.t;
  ThoughtsTokenCount : Z
}.
End UsageMetadata.

Module PromptFeedback.
Record t : Type := {
  BlockReason : string;
  BlockReasonMessage : string
}.
End PromptFeedback.

Module Candidate.
Record t : Type := {
  Content : Content.t;
  FinishReason_ : FinishReason
}.
End Candidate.

Module GenerateContentResponse.
Record t : Type := {
  Candidates : list Candidate.t;
  ModelVersion : string;
  ResponseID : string;
  UsageMetadata : option UsageMetadata.t;
  PromptFeedback : option PromptFeedback.t
}.
End GenerateContentResponse.

(** The part literals of the source: [&genai.Part{Text: ...}],
    [&genai.Part{Text: ..., Thought: true}] and
    [&genai.Part{FunctionCall: ...}]. *)
Definition text_part (text : string) (thought : bool) : Part.t :=
  {| Part.Text := text; Part.Thought := thought;
     Part.InlineData := None; Part.FileData := None;
     Part.FunctionCall := None; Part.FunctionResponse := None |}.

Definition function_call_part (fc : FunctionCall.t) : Part.t :=
  {| Part.Text := ""; Part.Thought := false;
     Part.InlineData := None; Part.FileData := None;
     Part.FunctionCall := Some fc; Part.FunctionResponse := None |}.

(** ** response.go *)

(** [int32(n)] for an [int64] [n]. *)
Definition int32 (n : Z) : Z :=
  (n + 2 ^ 31) mod 2 ^ 32 - 2 ^ 31.

Definition unsupported_content_type (ty : string) : error :=
  Errorf "openai: unsupported message content type %q" [OpString ty].

Definition unsupported_item_type (ty : string) : error :=
  Errorf "openai: unsupported output item type %q" [OpString ty].

(** The loop over the content of a "message" item. *)
Fixpoint convertOutputItems_message (content : list ResponseOutputMessageContentUnion.t)
  (parts : list Part.t) : result (list Part.t) :=
  match content with
  | [] => Ok parts
  | c :: rest =>
      if String.eqb (ResponseOutputMessageContentUnion.Type_ c) "output_text" then
        if negb (String.eqb (ResponseOutputMessageContentUnion.Text c) "")
        then convertOutputItems_message rest
               (parts ++ [text_part (ResponseOutputMessageContentUnion.Text c) false])
        else convertOutputItems_message rest parts
      else if String.eqb (ResponseOutputMessageContentUnion.Type_ c) "refusal" then
        convertOutputItems_message rest
          (parts ++ [text_part (ResponseOutputMessageContentUnion.Refusal c) false])
      else Err (unsupported_content_type (ResponseOutputMessageContentUnion.Type_ c))
  end.

(** The two loops over a "reasoning" item: its content, then its summary. *)
Fixpoint convertOutputItems_reasoning (content : list ResponseOutputMessageContentUnion.t)
  (parts : list Part.t) : list Part.t :=
  match content with
  | [] => parts
  | chunk :: rest =>
      if negb (String.eqb (ResponseOutputMessageContentUnion.Text chunk) "")
      then convertOutputItems_reasoning rest
             (parts ++ [text_part (ResponseOutputMessageContentUnion.Text chunk) true])
      else convertOutputItems_reasoning rest parts
  end.

Fixpoint convertOutputItems_summary (summaries : list Summary.t) (parts : list Part.t)
  : list Part.t :=
  match summaries with
  | [] => parts
  | summary :: rest =>
      if negb (String.eqb (Summary.Text summary) "")
      then convertOutputItems_summary rest (parts ++ [text_part (Summary.Text summary) true])
      else convertOutputItems_summary rest parts
  end.

Section ResponseConverter.
Context `{Platform}.

Definition convertFunctionCall (item : ResponseOutputItemUnion.t) : result Part.t :=
  args ←
    (if negb (String.eqb (ResponseOutputItemUnion.Arguments item) "") then
       match json_Unmarshal (ResponseOutputItemUnion.Arguments item) (Some ∅) with
       | Err e => Err (Errorf "openai: parse function call args: %w" [OpError e])
       | Ok args => Ok args
       end
     else Ok (Some ∅));
  Ok (function_call_part
        {| FunctionCall.Name := ResponseOutputItemUnion.Name item;
           FunctionCall.ID := ResponseOutputItemUnion.CallID item;
           FunctionCall.Args := args |}).

(** The loop of [convertOutputItems] over the items. *)
Fixpoint convertOutputItems_loop (items : list ResponseOutputItemUnion.t)
  (parts : list Part.t) : result (list Part.t) :=
  match items with
  | [] => Ok parts
  | item :: rest =>
      let ty := ResponseOutputItemUnion.Type_ item in
      if String.eqb ty "message" then
        parts1 ← convertOutputItems_message (ResponseOutputItemUnion.Content item) parts;
        convertOutputItems_loop rest parts1
      else if String.eqb ty "function_call" then
        part ← convertFunctionCall item;
        convertOutputItems_loop rest (parts ++ [part])
      else if String.eqb ty "reasoning" then
        convertOutputItems_loop rest
          (convertOutputItems_summary (ResponseOutputItemUnion.Summary item)
             (convertOutputItems_reasoning (ResponseOutputItemUnion.Content item) parts))
      else Err (unsupported_item_type ty)
  end.

Definition convertOutputItems (items : list ResponseOutputItemUnion.t)
  : result (list Part.t) :=
  match items with
  | [] => Err (Sentinel ErrNoOutputItems)
  | _ :: _ =>
      parts ← convertOutputItems_loop items [];
      match parts with
      | [] => Err (Sentinel ErrNoTextOrToolContent)
      | _ :: _ => Ok parts
      end
  end.

Definition finishReason (resp : option Response.t) : FinishReason :=
  match resp with
  | None => FinishReasonUnspecified
  | Some resp =>
      let reason := Response.IncompleteReason resp in
      if String.eqb reason "max_output_tokens" then FinishReasonMaxTokens
      else if String.eqb reason "content_filter" then FinishReasonSafety
      else if String.eqb reason "tool_calls_exhausted" then FinishReasonOther
      else if String.eqb reason "" then FinishReasonStop
      else if negb (String.eqb reason "") then FinishReasonOther
      else FinishReasonStop
  end.

Definition convertUsage (usage : ResponseUsage.t) : UsageMetadata.t :=
  {| UsageMetadata.PromptTokenCount := int32 (ResponseUsage.InputTokens usage);
     UsageMetadata.CandidatesTokenCount := int32 (ResponseUsage.OutputTokens usage);
     UsageMetadata.TotalTokenCount := int32 (ResponseUsage.TotalTokens usage);
     UsageMetadata.CachedContentTokenCount := int32 (ResponseUsage.CachedTokens usage);
     UsageMetadata.PromptTokensDetails :=
       [ {| ModalityTokenCount.Modality := MediaModalityText;
            ModalityTokenCount.TokenCount := int32 (ResponseUsage.InputTokens usage) |} ];
     UsageMetadata.CandidatesTokensDetails :=
       [ {| ModalityTokenCount.Modality := MediaModalityText;
            ModalityTokenCount.TokenCount := int32 (ResponseUsage.OutputTokens usage) |} ];
     UsageMetadata.ThoughtsTokenCount := int32 (ResponseUsage.ReasoningTokens usage) |}.

Definition promptFeedback (resp : option Response.t) : option PromptFeedback.t :=
  match resp with
  | None => None
  | Some resp =>
      if String.eqb (Response.IncompleteReason resp) "" then None
      else Some {| PromptFeedback.BlockReason := Response.IncompleteReason resp;
                   PromptFeedback.BlockReasonMessage := Response.IncompleteReason resp |}
  end.

Definition buildCandidate (resp : Response.t) : result Candidate.t :=
  parts ← convertOutputItems (Response.Output resp);
  Ok {| Candidate.Content :=
          {| Content.Role := RoleModel; Content.Parts := map Some parts |};
        Candidate.FinishReason_ := finishReason (Some resp) |}.

Definition convertResponse (resp : option Response.t)
  : result GenerateContentResponse.t :=
  match resp with
  | None => Err (Sentinel ErrEmptyResponse)
  | Some resp =>
      candidate ← buildCandidate resp;
      Ok {| GenerateContentResponse.Candidates := [candidate];
            GenerateContentResponse.ModelVersion := Response.Model resp;
            GenerateContentResponse.ResponseID := Response.ID resp;
            GenerateContentResponse.UsageMetadata :=
              Some (convertUsage (Response.Usage resp));
            GenerateContentResponse.PromptFeedback := promptFeedback (Some resp) |}
  end.

End ResponseConverter.

(** ** consts.go and stream.go *)

Definition responseOutputTextDelta : string := "response.output_text.delta".
Definition responseReasoningTextDelta : string := "response.reasoning_text.delta".
Definition responseReasoningSummaryTextDelta : string :=
  "response.reasoning_summary_text.delta".
Definition responseFunctionCallArgumentsDelta : string :=
  "response.function_call_arguments.delta".
Definition responseFunctionCallArgumentsDone : string :=
  "response.function_call_arguments.done".
Definition responseOutputTextDone : string := "response.output_text.done".
Definition responseReasoningTextDone : string := "response.reasoning_text.done".
Definition responseReasoningSummaryTextDone : string :=
  "response.reasoning_summary_text.done".
Definition responseCompleted : string := "response.completed".
Definition responseInProgress : string := "response.in_progress".
Definition responseOutputItemAdded : string := "response.output_item.added".
Definition responseOutputItemDone : string := "response.output_item.done".

(** [responses.ResponseStreamEventUnion]: the fields the translator reads,
    whichever variant it views the event as. *)
Module ResponseStreamEventUnion.
Record t : Type := {
  Type_ : string;
  Delta : string;
  ItemID : string;
  Arguments : string;
  Name : string;
  Message : string;
  ResponseErrorMessage : string    (* Response.Error.Message *)
}.
End ResponseStreamEventUnion.

(** [streamTranslator]: each [*strings.Builder] of [functionArgs] is held by
    the map alone, so the map is kept as one from item identifiers to the
    text built so far. *)
Record streamTranslator : Type := {
  functionArgs : gmap string string
}.

Definition newStreamTranslator : streamTranslator :=
  {| functionArgs := ∅ |}.

(** [buffer]: the builder is named by the key it is stored under; the map
    gains an empty builder when the key was absent. *)
Definition buffer (t : streamTranslator) (id : string) : streamTranslator * string :=
  let id := if String.eqb id "" then "default" else id in
  match functionArgs t !! id with
  | Some _ => (t, id)
  | None => ({| functionArgs := <[id := ""]> (functionArgs t) |}, id)
  end.

(** [buf.WriteString(s)] for the builder stored under [buf]. *)
Definition WriteString (t : streamTranslator) (buf : string) (s : string)
  : streamTranslator :=
  {| functionArgs := alter (fun b => b +:+ s) buf (functionArgs t) |}.

Definition singlePartResponse (part : option Part.t) : option GenerateContentResponse.t :=
  match part with
  | None => None
  | Some part =>
      Some {| GenerateContentResponse.Candidates :=
                [ {| Candidate.Content :=
                       {| Content.Role := RoleModel; Content.Parts := [Some part] |};
                     Candidate.FinishReason_ := FinishReasonUnspecified |} ];
              GenerateContentResponse.ModelVersion := "";
              GenerateContentResponse.ResponseID := "";
              GenerateContentResponse.UsageMetadata := None;
              GenerateContentResponse.PromptFeedback := None |}
  end.

Section Stream.
Context `{Platform}.

Definition emitFunctionCall (t : streamTranslator) (done : ResponseStreamEventUnion.t)
  : streamTranslator * result Part.t :=
  let payload := ResponseStreamEventUnion.Arguments done in
  let payload :=
    if String.eqb payload "" then
      match functionArgs t !! ResponseStreamEventUnion.ItemID done with
      | Some b => b
      | None => payload
      end
    else payload in
  let t1 := {| functionArgs := delete (ResponseStreamEventUnion.ItemID done) (functionArgs t) |} in
  let payload := if String.eqb payload "" then "{}" else payload in
  match json_Unmarshal payload None with
  | Err e => (t1, Err (Errorf "openai: parse streamed function args: %w" [OpError e]))
  | Ok args =>
      (t1, Ok (function_call_part
                 {| FunctionCall.Name := ResponseStreamEventUnion.Name done;
                    FunctionCall.ID := ResponseStreamEventUnion.ItemID done;
                    FunctionCall.Args := args |}))
  end.

Definition process (t : streamTranslator) (evt : ResponseStreamEventUnion.t)
  : streamTranslator * result (option GenerateContentResponse.t) :=
  let ty := ResponseStreamEventUnion.Type_ evt in
  let delta := ResponseStreamEventUnion.Delta evt in
  if String.eqb ty responseOutputTextDelta then
    if String.eqb delta "" then (t, Ok None)
    else (t, Ok (singlePartResponse (Some (text_part delta false))))
  else if String.eqb ty responseReasoningTextDelta then
    if String.eqb delta "" then (t, Ok None)
    else (t, Ok (singlePartResponse (Some (text_part delta true))))
  else if String.eqb ty responseReasoningSummaryTextDelta then
    if String.eqb delta "" then (t, Ok None)
    else (t, Ok (singlePartResponse (Some (text_part delta true))))
  else if String.eqb ty responseFunctionCallArgumentsDelta then
    if negb (String.eqb delta "") then
      let '(t1, buf) := buffer t (ResponseStreamEventUnion.ItemID evt) in
      (WriteString t1 buf delta, Ok None)
    else (t, Ok None)
  else if String.eqb ty responseFunctionCallArgumentsDone then
    match emitFunctionCall t evt with
    | (t1, Err e) => (t1, Err e)
    | (t1, Ok part) => (t1, Ok (singlePartResponse (Some part)))
    end
  else if String.eqb ty "response.failed" then
    (t, Err (Errorf "openai response failed: %s"
               [OpString (ResponseStreamEventUnion.ResponseErrorMessage evt)]))
  else if String.eqb ty "error" then
    if negb (String.eqb (ResponseStreamEventUnion.Message evt) "")
    then (t, Err (Errorf "openai stream error: %s"
                    [OpString (ResponseStreamEventUnion.Message evt)]))
    else (t, Err (Errorf "openai stream error" []))
  else if String.eqb ty responseOutputTextDone
          || String.eqb ty responseReasoningTextDone
          || String.eqb ty responseReasoningSummaryTextDone
          || String.eqb ty responseCompleted
          || String.eqb ty responseInProgress
          || String.eqb ty responseOutputItemAdded
          || String.eqb ty responseOutputItemDone
  then (t, Ok None)
  else (t, Ok None).

(** The loop of [generateStream] as far as the translator goes: the events
    are processed in arrival order, and the first error ends the stream. The
    result is the translator when the loop ends. *)
Fixpoint process_all (t : streamTranslator) (events : list ResponseStreamEventUnion.t)
  : streamTranslator :=
  match events with
  | [] => t
  | evt :: rest =>
      match process t evt with
      | (t1, Err _) => t1
      | (t1, Ok _) => process_all t1 rest
      end
  end.

End Stream.

(** ** A platform to run the definitions on

    The properties below hold for every [Platform]. To evaluate the
    definitions on concrete requests, responses and streams, here is one
    platform: a JSON codec for the values of [any], covering the part of
    [encoding/json] the examples need (objects, arrays, strings with the
    two-character escapes, numbers kept as their literal, [true], [false],
    [null]; a [\u] escape is declined), and floats as their IEEE
    specification values. *)
Module SampleJSON.

Definition is_ws (c : ascii) : bool :=
  let n := N_of_ascii c in ((n =? 32) || (n =? 9) || (n =? 10) || (n =? 13))%N.

Fixpoint skip_ws (s : string) : string :=
  match s with
  | String c r => if is_ws c then skip_ws r else s
  | EmptyString => EmptyString
  end.

Definition is_digit (c : ascii) : bool :=
  let n := N_of_ascii c in ((48 <=? n) && (n <=? 57))%N.

Fixpoint span_digits (s : string) : string * string :=
  match s with
  | String c r =>
      if is_digit c then let '(d, r') := span_digits r in (String c d, r')
      else ("", s)
  | EmptyString => ("", "")
  end.

(** [strip p s]: [s] without its prefix [p], when it has it. *)
Fixpoint strip (p s : string) : option string :=
  match p, s with
  | EmptyString, _ => Some s
  | String a p', String b s' => if Ascii.eqb a b then strip p' s' else None
  | String _ _, EmptyString => None
  end.

(** number = [ "-" ] int [ "." digits ] [ ("e" | "E") [ "+" | "-" ] digits ] *)
Definition parse_number (s : string) : option (string * string) :=
  let '(sign, s1) :=
    match strip "-" s with Some r => ("-", r) | None => ("", s) end in
  let '(int, s2) := span_digits s1 in
  if String.eqb int "" || (String.prefix "0" int && negb (String.eqb int "0")) then None
  else
    frac ←
      match strip "." s2 with
      | Some r =>
          let '(d, r') := span_digits r in
          if String.eqb d "" then None else Some ("." +:+ d, r')
      | None => Some ("", s2)
      end;
    let '(frac, s3) := frac in
    exp ←
      match s3 with
      | String c r =>
          if Ascii.eqb c "e" || Ascii.eqb c "E" then
            let '(esign, r1) :=
              match r with
              | String c' r' =>
                  if Ascii.eqb c' "+" || Ascii.eqb c' "-"
                  then (String c' "", r') else ("", r)
              | EmptyString => ("", r)
              end in
            let '(d, r2) := span_digits r1 in
            if String.eqb d "" then None else Some (String c esign +:+ d, r2)
          else Some ("", s3)
      | EmptyString => Some ("", s3)
      end;
    let '(exp, s4) := exp in
    Some (sign +:+ int +:+ frac +:+ exp, s4).

Definition quote : ascii := ascii_of_N 34.

Definition unescape (c : ascii) : option ascii :=
  if Ascii.eqb c quote then Some quote
  else if Ascii.eqb c "\" then Some "\"%char
  else if Ascii.eqb c "/" then Some "/"%char
  else if Ascii.eqb c "b" then Some (ascii_of_N 8)
  else if Ascii.eqb c "f" then Some (ascii_of_N 12)
  else if Ascii.eqb c "n" then Some (ascii_of_N 10)
  else if Ascii.eqb c "r" then Some (ascii_of_N 13)
  else if Ascii.eqb c "t" then Some (ascii_of_N 9)
  else None.

(** The characters of a string after its opening quote, up to the closing
    one. *)
Fixpoint parse_chars (s : string) : option (string * string) :=
  match s with
  | EmptyString => None
  | String c r =>
      if Ascii.eqb c quote then Some ("", r)
      else if Ascii.eqb c "\" then
        match r with
        | String e r' =>
            c' ← unescape e;
            '(t, rest) ← parse_chars r';
            Some (String c' t, rest)
        | EmptyString => None
        end
      else if (N_of_ascii c <? 32)%N then None
      else
        '(t, rest) ← parse_chars r;
        Some (String c t, rest)
  end.

Fixpoint parse_value (fuel : nat) (s : string) {struct fuel} : option (any * string) :=
  match fuel with
  | O => None
  | S fuel =>
      match skip_ws s with
      | EmptyString => None
      | String c r =>
          if Ascii.eqb c "{" then
            match strip "}" (skip_ws r) with
            | Some r' => Some (AnyMap ∅, r')
            | None => parse_members fuel ∅ r
            end
          else if Ascii.eqb c "[" then
            match strip "]" (skip_ws r) with
            | Some r' => Some (AnySlice [], r')
            | None => parse_elements fuel [] r
            end
          else if Ascii.eqb c quote then
            '(t, rest) ← parse_chars r;
            Some (AnyString t, rest)
          else
            match strip "true" (String c r), strip "false" (String c r),
                  strip "null" (String c r) with
            | Some rest, _, _ => Some (AnyBool true, rest)
            | _, Some rest, _ => Some (AnyBool false, rest)
            | _, _, Some rest => Some (AnyNil, rest)
            | None, None, None =>
                '(lit, rest) ← parse_number (String c r);
                Some (AnyNumber lit, rest)
            end
      end
  end
with parse_members (fuel : nat) (m : gmap string any) (s : string) {struct fuel}
  : option (any * string) :=
  match fuel with
  | O => None
  | S fuel =>
      r ← strip (String quote "") (skip_ws s);
      '(k, r1) ← parse_chars r;
      r2 ← strip ":" (skip_ws r1);
      '(v, r3) ← parse_value fuel r2;
      match strip "," (skip_ws r3), strip "}" (skip_ws r3) with
      | Some r4, _ => parse_members fuel (<[k := v]> m) r4
      | None, Some r4 => Some (AnyMap (<[k := v]> m), r4)
      | None, None => None
      end
  end
with parse_elements (fuel : nat) (l : list any) (s : string) {struct fuel}
  : option (any * string) :=
  match fuel with
  | O => None
  | S fuel =>
      '(v, r1) ← parse_value fuel s;
      match strip "," (skip_ws r1), strip "]" (skip_ws r1) with
      | Some r2, _ => parse_elements fuel (l ++ [v]) r2
      | None, Some r2 => Some (AnySlice (l ++ [v]), r2)
      | None, None => None
      end
  end.

(** [json.Unmarshal(data, &m)]: an object is decoded into [m] (a new map
    when [m] is nil, the keys added to it otherwise), [null] leaves [m] as
    it is, anything else is an error. *)
Definition Unmarshal (data : string) (m : GoMap) : result GoMap :=
  match parse_value (2 * String.length data + 2) data with
  | None => Err (LibraryError "json: syntax error")
  | Some (v, rest) =>
      if negb (String.eqb (skip_ws rest) "")
      then Err (LibraryError "json: invalid character after top-level value")
      else
        match v with
        | AnyMap obj => Ok (Some (obj ∪ default ∅ m))
        | AnyNil => Ok m
        | _ => Err (LibraryError
                      "json: cannot unmarshal into Go value of type map[string]interface {}")
        end
  end.

(** The text of a string: quoted, with the escapes [json.Marshal] writes
    (it also escapes the characters <, > and &). *)
Definition hex_digit (n : N) : ascii :=
  if (n <? 10)%N then ascii_of_N (48 + n) else ascii_of_N (87 + n).

Definition escape (c : ascii) : string :=
  let n := N_of_ascii c in
  if Ascii.eqb c quote then String "\" (String quote "")
  else if Ascii.eqb c "\" then "\\"
  else if (n =? 10)%N then "\n"
  else if (n =? 13)%N then "\r"
  else if (n =? 9)%N then "\t"
  else if ((n <? 32) || (n =? 60) || (n =? 62) || (n =? 38))%N
  then "\u00" +:+ String (hex_digit (n / 16)) (String (hex_digit (n mod 16)) "")
  else String c "".

Fixpoint escape_all (s : string) : string :=
  match s with
  | EmptyString => EmptyString
  | String c r => escape c +:+ escape_all r
  end.

Definition quoted (s : string) : string :=
  String quote (escape_all s) +:+ String quote "".

(** The entries of a map in the order of their keys, as [json.Marshal]
    writes them. *)
Fixpoint insert_sorted {A} (kv : string * A) (l : list (string * A)) : list (string * A) :=
  match l with
  | [] => [kv]
  | kv' :: rest =>
      if String.leb kv.1 kv'.1 then kv :: l else kv' :: insert_sorted kv rest
  end.

Definition sorted_entries {A} (m : gmap string A) : list (string * A) :=
  foldr insert_sorted [] (map_to_list m).

Fixpoint join (sep : string) (l : list string) : string :=
  match l with
  | [] => ""
  | [x] => x
  | x :: rest => x +:+ sep +:+ join sep rest
  end.

(** All results, or the first error. *)
Fixpoint sequence {A} (l : list (result A)) : result (list A) :=
  match l with
  | [] => Ok []
  | r :: rest => a ← r; l' ← sequence rest; Ok (a :: l')
  end.

(** [json.Marshal(v)], for values nested less than [fuel] deep. *)
Fixpoint marshal (fuel : nat) (v : any) : result string :=
  match fuel with
  | O => Err (LibraryError "json: value nested too deeply")
  | S fuel =>
      match v with
      | AnyNil | AnyNilMap => Ok "null"
      | AnyBool true => Ok "true"
      | AnyBool false => Ok "false"
      | AnyInt n => Ok (format_int n)
      | AnyNumber literal => Ok literal
      | AnyString s => Ok (quoted s)
      | AnySlice l =>
          texts ← sequence (map (marshal fuel) l);
          Ok ("[" +:+ join "," texts +:+ "]")
      | AnyMap m =>
          texts ← sequence
                    (map (fun kv : string * any =>
                            text ← marshal fuel kv.2;
                            Ok (quoted kv.1 +:+ ":" +:+ text))
                       (sorted_entries m));
          Ok ("{" +:+ join "," texts +:+ "}")
      | AnyOther type_name =>
          Err (LibraryError ("json: unsupported type: " +:+ type_name))
      end
  end.

Definition Marshal (v : any) : result string := marshal 64 v.

(** [genai.Schema] is written as an object: its title, when not empty,
    next to its other fields. *)
Definition Marshal_Schema (schema : Schema) : result string :=
  Marshal (AnyMap (if String.eqb (Title schema) "" then SchemaFields schema
                   else <["title" := AnyString (Title schema)]> (SchemaFields schema))).

End SampleJSON.

Definition sample_platform : Platform := {|
  float32 := spec_float;
  float64 := spec_float;
  float64_of_float32 := fun x => x;
  json_Marshal := SampleJSON.Marshal;
  json_Marshal_Schema := SampleJSON.Marshal_Schema;
  json_Unmarshal := SampleJSON.Unmarshal;
  json_Unmarshal_empty_object := eq_refl
|}.

(** * The vocabulary of the properties *)

(** ** Runs of the call tracker *)

(** The two operations [convertContents] performs on its tracker. *)
Inductive trackerOp : Type :=
| OpCall (fc : FunctionCall.t)
| OpResponse (fr : FunctionResponse.t).

Section TrackerRuns.
Context `{Platform}.

(** The tracker after one operation, whatever the operation returned. *)
Definition apply_op (t : callTracker) (op : trackerOp) : callTracker :=
  match op with
  | OpCall fc => (newFunctionCall t fc).1
  | OpResponse fr => (newFunctionResponse t fr).1
  end.

Fixpoint run_ops (t : callTracker) (ops : list trackerOp) : callTracker :=
  match ops with
  | [] => t
  | op :: rest => run_ops (apply_op t op) rest
  end.

(** A call that brings its own identifier brings a new one: it is not
    pending, and it is not one the tracker generates. *)
Definition fresh_explicit_id (t : callTracker) (op : trackerOp) : Prop :=
  match op with
  | OpCall fc =>
      FunctionCall.ID fc ≠ "" ->
      (FunctionCall.ID fc ∉ pending t)
      ∧ ∀ n, FunctionCall.ID fc ≠ generated_call_id n
  | OpResponse _ => True
  end.

(** Every call of the run that brings its own identifier brings a new one,
    at the moment it is registered. *)
Fixpoint explicit_ids_fresh (t : callTracker) (ops : list trackerOp) : Prop :=
  match ops with
  | [] => True
  | op :: rest => fresh_explicit_id t op ∧ explicit_ids_fresh (apply_op t op) rest
  end.

End TrackerRuns.

(** The state the registry is meant to be in: no identifier twice, and none
    of the identifiers still to be generated. *)
Definition registry_ok (t : callTracker) : Prop :=
  NoDup (pending t)
  ∧ 0 <= nextID t
  ∧ ∀ n, nextID t <= n -> generated_call_id n ∉ pending t.

(** ** Parts the request builder does not support *)

(** A part that is neither a text part, nor a function call, nor a function
    response: inline data, file data, a bare thought, an empty part. *)
Definition unsupported_kind (part : Part.t) : Prop :=
  Part.Text part = ""
  ∧ Part.FunctionCall part = None
  ∧ Part.FunctionResponse part = None.

(** ** Output items that carry content *)

(** An output item with something to convert: a message with a non-empty
    text or with a refusal, a function call, a reasoning item with a
    non-empty text in its content or its summary. *)
Definition carries_content (item : ResponseOutputItemUnion.t) : bool :=
  let ty := ResponseOutputItemUnion.Type_ item in
  if String.eqb ty "message" then
    existsb (fun c =>
               String.eqb (ResponseOutputMessageContentUnion.Type_ c) "output_text"
               && negb (String.eqb (ResponseOutputMessageContentUnion.Text c) "")
               || String.eqb (ResponseOutputMessageContentUnion.Type_ c) "refusal")
      (ResponseOutputItemUnion.Content item)
  else if String.eqb ty "function_call" then true
  else if String.eqb ty "reasoning" then
    existsb (fun c => negb (String.eqb (ResponseOutputMessageContentUnion.Text c) ""))
      (ResponseOutputItemUnion.Content item)
    || existsb (fun s => negb (String.eqb (Summary.Text s) ""))
         (ResponseOutputItemUnion.Summary item)
  else false.

(** ** Tool choices *)

(** The modes in which the vendor's default, automatic choice applies. *)
Definition is_auto_mode (mode : string) : Prop :=
  mode = ""
  ∨ mode = FunctionCallingConfigModeUnspecified
  ∨ mode = FunctionCallingConfigModeAuto.

(** The allowed names that are names: the non-empty ones, in order. *)
Definition named (names : list string) : list string :=
  filter (fun name => name ≠ "") names.

(** The entry of the allowed-tools list for one function. *)
Definition allowed_tool (name : string) : gmap string any :=
  {[ "type" := AnyString "function"; "name" := AnyString name ]}.

(** The allowed-tools constraint over the names of [names], in mode [mode]. *)
Definition allowed_tools_choice (mode : ToolChoiceAllowedMode) (names : list string)
  : ResponseNewParamsToolChoiceUnion.t :=
  {| ResponseNewParamsToolChoiceUnion.OfToolChoiceMode := None;
     ResponseNewParamsToolChoiceUnion.OfAllowedTools :=
       Some {| ToolChoiceAllowedParam.Mode := mode;
               ToolChoiceAllowedParam.Type_ := "allowed_tools";
               ToolChoiceAllowedParam.Tools := allowed_tool <$> named names |} |}.

(** The choice that is one of the vendor's options. *)
Definition option_choice (opt : ToolChoiceOptions) : ResponseNewParamsToolChoiceUnion.t :=
  {| ResponseNewParamsToolChoiceUnion.OfToolChoiceMode := Some opt;
     ResponseNewParamsToolChoiceUnion.OfAllowedTools := None |}.

(** A tool configuration with a function-calling configuration. *)
Definition tool_config (mode : string) (names : list string) : option ToolConfig.t :=
  Some {| ToolConfig.FunctionCallingConfig :=
            Some {| FunctionCallingConfig.Mode := mode;
                    FunctionCallingConfig.AllowedFunctionNames := names |} |}.

(** ** Settings the vendor does not support *)

Section Gaps.
Context `{Platform}.

(** The configuration sets one of the unsupported settings: top-k, stop
    sequences, more than one candidate, a penalty, labels, safety
    settings. *)
Definition sets_unsupported (cfg : GenerateContentConfig.t) : Prop :=
  is_Some (GenerateContentConfig.TopK cfg)
  ∨ GenerateContentConfig.StopSequences cfg ≠ []
  ∨ 1 < GenerateContentConfig.CandidateCount cfg
  ∨ is_Some (GenerateContentConfig.FrequencyPenalty cfg)
  ∨ is_Some (GenerateContentConfig.PresencePenalty cfg)
  ∨ is_Some (GenerateContentConfig.Labels cfg)
  ∨ is_Some (GenerateContentConfig.SafetySettings cfg).

(** None of the settings checked first is set: top-k, stop sequences,
    candidate count, penalties. *)
Definition sampling_supported (cfg : GenerateContentConfig.t) : Prop :=
  GenerateContentConfig.TopK cfg = None
  ∧ GenerateContentConfig.StopSequences cfg = []
  ∧ GenerateContentConfig.CandidateCount cfg <= 1
  ∧ GenerateContentConfig.FrequencyPenalty cfg = None
  ∧ GenerateContentConfig.PresencePenalty cfg = None.

(** What the checks made between the penalties and the labels report: the
    system instruction, the response MIME type, the response schema. *)
Definition output_error (cfg : GenerateContentConfig.t) : option error :=
  match flattenContentText (GenerateContentConfig.SystemInstruction cfg) with
  | Err e => Some (Errorf "openai: system instruction: %w" [OpError e])
  | Ok _ =>
      let mime := GenerateContentConfig.ResponseMIMEType cfg in
      if negb (String.eqb mime "") && negb (String.eqb mime "text/plain")
         && negb (String.eqb mime "application/json")
      then Some (unsupported_mime_type mime)
      else if String.eqb mime "application/json"
              || is_set (GenerateContentConfig.ResponseSchema cfg)
              || negb (is_nil (GenerateContentConfig.ResponseJsonSchema cfg))
      then match newJSONSchemaFormat cfg with
           | Err e => Some e
           | Ok _ => None
           end
      else None
  end.

End Gaps.

(** The error values of the unsupported settings. *)
Definition gap_errors : list sentinel :=
  [ ErrTopKNotSupported; ErrStopSequencesNotSupported;
    ErrMultipleCandidatesNotSupported; ErrPenaltiesNotSupported;
    ErrLabelsNotSupported; ErrSafetySettingsNotSupported ].

#[global] Instance sentinel_eq_dec : EqDecision sentinel.
Proof. solve_decision. Defined.

(** ** Stream events *)

(** The event kinds the translator names: the text, reasoning and summary
    deltas and their done events, the function-call-arguments delta and
    done, failure, error, and the lifecycle and progress markers. *)
Definition recognized_event_kinds : list string :=
  [ responseOutputTextDelta; responseReasoningTextDelta;
    responseReasoningSummaryTextDelta; responseFunctionCallArgumentsDelta;
    responseFunctionCallArgumentsDone; "response.failed"; "error";
    responseOutputTextDone; responseReasoningTextDone;
    responseReasoningSummaryTextDone; responseCompleted; responseInProgress;
    responseOutputItemAdded; responseOutputItemDone ].

(** The argument payload of a done event, in the words of the design: the
    arguments the event brings when it brings any, else the text buffered
    for its item identifier, else the empty object. *)
Definition done_payload (t : streamTranslator) (evt : ResponseStreamEventUnion.t)
  : string :=
  if negb (String.eqb (ResponseStreamEventUnion.Arguments evt) "")
  then ResponseStreamEventUnion.Arguments evt
  else
    match functionArgs t !! ResponseStreamEventUnion.ItemID evt with
    | Some text => if negb (String.eqb text "") then text else "{}"
    | None => "{}"
    end.

(** A micro-response: one candidate, of the model's role, with one part. *)
Definition micro_response (part : Part.t) : GenerateContentResponse.t :=
  {| GenerateContentResponse.Candidates :=
       [ {| Candidate.Content :=
              {| Content.Role := RoleModel; Content.Parts := [Some part] |};
            Candidate.FinishReason_ := FinishReasonUnspecified |} ];
     GenerateContentResponse.ModelVersion := "";
     GenerateContentResponse.ResponseID := "";
     GenerateContentResponse.UsageMetadata := None;
     GenerateContentResponse.PromptFeedback := None |}.

(** The response a function-call-arguments done event is to yield, written
    out in full: one candidate of the model's role, finish reason
    unspecified, whose one part is a function call with the identifier
    [id], the name [name] and the arguments [args], and nothing else (no
    text, no data, no function response). *)
Definition function_call_response (id name : string) (args : GoMap)
  : GenerateContentResponse.t :=
  {| GenerateContentResponse.Candidates :=
       [ {| Candidate.Content :=
              {| Content.Role := RoleModel;
                 Content.Parts :=
                   [ Some {| Part.Text := ""; Part.Thought := false;
                             Part.InlineData := None; Part.FileData := None;
                             Part.FunctionCall :=
                               Some {| FunctionCall.ID := id;
                                       FunctionCall.Name := name;
                                       FunctionCall.Args := args |};
                             Part.FunctionResponse := None |} ] |};
            Candidate.FinishReason_ := FinishReasonUnspecified |} ];
     GenerateContentResponse.ModelVersion := "";
     GenerateContentResponse.ResponseID := "";
     GenerateContentResponse.UsageMetadata := None;
     GenerateContentResponse.PromptFeedback := None |}.


Section StreamRuns.
Context `{Platform}.

(** The translator of a stream after its first events. *)
Definition after_events (events : list ResponseStreamEventUnion.t) : streamTranslator :=
  process_all newStreamTranslator events.

End StreamRuns.

(** An event of a function-call-arguments kind: its other fields are
    empty. *)
Definition arguments_event (kind itemID delta arguments name : string)
  : ResponseStreamEventUnion.t :=
  {| ResponseStreamEventUnion.Type_ := kind;
     ResponseStreamEventUnion.Delta := delta;
     ResponseStreamEventUnion.ItemID := itemID;
     ResponseStreamEventUnion.Arguments := arguments;
     ResponseStreamEventUnion.Name := name;
     ResponseStreamEventUnion.Message := "";
     ResponseStreamEventUnion.ResponseErrorMessage := "" |}.

(** ** Sample values *)

Section Samples.
Context `{Platform}.

(** A configuration that sets nothing but what it is given: the response
    MIME type, the two forms of the response schema, and the labels. *)
Definition output_config (mime : string) (schema : option Schema) (jsonSchema : any)
  (labels : option (gmap string string)) : GenerateContentConfig.t :=
  {| GenerateContentConfig.Temperature := None;
     GenerateContentConfig.TopP := None;
     GenerateContentConfig.TopK := None;
     GenerateContentConfig.MaxOutputTokens := 0;
     GenerateContentConfig.StopSequences := [];
     GenerateContentConfig.CandidateCount := 0;
     GenerateContentConfig.FrequencyPenalty := None;
     GenerateContentConfig.PresencePenalty := None;
     GenerateContentConfig.ResponseLogprobs := false;
     GenerateContentConfig.Logprobs := None;
     GenerateContentConfig.SystemInstruction := None;
     GenerateContentConfig.ResponseMIMEType := mime;
     GenerateContentConfig.ResponseSchema := schema;
     GenerateContentConfig.ResponseJsonSchema := jsonSchema;
     GenerateContentConfig.Labels := labels;
     GenerateContentConfig.SafetySettings := None;
     GenerateContentConfig.Tools := [];
     GenerateContentConfig.ToolConfig := None |}.

(** A request with one text content of the user and a configuration. *)
Definition text_request (text : string) (cfg : GenerateContentConfig.t) : LLMRequest.t :=
  {| LLMRequest.Model := "";
     LLMRequest.Contents :=
       [ Some {| Content.Role := RoleUser;
                 Content.Parts := [Some (text_part text false)] |} ];
     LLMRequest.Config := Some cfg |}.

End Samples.

(** A part that holds inline data and nothing else. *)
Definition inline_data_part : Part.t :=
  {| Part.Text := ""; Part.Thought := false;
     Part.InlineData := Some {| Blob.MIMEType := ""; Blob.Data := [ascii_of_N 1] |};
     Part.FileData := None;
     Part.FunctionCall := None; Part.FunctionResponse := None |}.

(** The text [{"city":"Paris"}] in two pieces, as a stream delivers it. *)
Definition city_head : string :=
  "{" +:+ String SampleJSON.quote "city" +:+ String SampleJSON.quote ":"
  +:+ String SampleJSON.quote "".

Definition city_tail : string :=
  "Paris" +:+ String SampleJSON.quote "}".

(** ** Sample requests, responses and streams *)

(** Closes a goal [x ∉ [a; b; ...]] between distinct closed values. *)
Ltac absent :=
  let Hin := fresh "Hin" in
  intros Hin;
  repeat (apply elem_of_cons in Hin as [Hin|Hin]; [discriminate Hin|]);
  exact (proj1 (elem_of_nil _) Hin).

(** A tracker with two calls pending. *)
Definition two_pending : callTracker :=
  {| nextID := 0; pending := ["call-1"; "call-2"] |}.

(** A call of the function lookup, with the identifier [id]. *)
Definition lookup_call (id : string) : FunctionCall.t :=
  {| FunctionCall.ID := id; FunctionCall.Name := "lookup";
     FunctionCall.Args := Some {[ "city" := AnyString "Paris" ]} |}.

(** A response of the function lookup, with the identifier [id]. *)
Definition lookup_response (id : string) : FunctionResponse.t :=
  {| FunctionResponse.ID := id; FunctionResponse.Name := "lookup";
     FunctionResponse.Response := Some {[ "ok" := AnyBool true ]} |}.

(** The tracker [convertContents] starts with. *)
Definition fresh_tracker : callTracker := {| nextID := 0; pending := [] |}.

(** The contents of a request whose only part holds inline data. *)
Definition inline_data_contents : list (option Content.t) :=
  [ Some {| Content.Role := RoleUser; Content.Parts := [Some inline_data_part] |} ].

Definition empty_usage : ResponseUsage.t :=
  {| ResponseUsage.InputTokens := 0; ResponseUsage.OutputTokens := 0;
     ResponseUsage.TotalTokens := 0; ResponseUsage.CachedTokens := 0;
     ResponseUsage.ReasoningTokens := 0 |}.

(** A vendor response with the output items [output]. *)
Definition response_with (output : list ResponseOutputItemUnion.t) : Response.t :=
  {| Response.ID := "resp-1"; Response.Model := "gpt-test"; Response.Output := output;
     Response.Usage := empty_usage; Response.IncompleteReason := "";
     Response.ErrorMessage := "" |}.

(** A message item whose only content is an empty text. *)
Definition empty_message : ResponseOutputItemUnion.t :=
  {| ResponseOutputItemUnion.Type_ := "message";
     ResponseOutputItemUnion.Content :=
       [ {| ResponseOutputMessageContentUnion.Type_ := "output_text";
            ResponseOutputMessageContentUnion.Text := "";
            ResponseOutputMessageContentUnion.Refusal := "" |} ];
     ResponseOutputItemUnion.Summary := [];
     ResponseOutputItemUnion.Arguments := "";
     ResponseOutputItemUnion.Name := "";
     ResponseOutputItemUnion.CallID := "" |}.

(** A raw JSON schema that declares a title. *)
Definition titled_raw_schema : gmap string any :=
  {[ "title" := AnyString "Report"; "type" := AnyString "object" ]}.

(** A native schema with a title. *)
Definition answer_schema : Schema :=
  {| Title := "Answer"; SchemaFields := {[ "type" := AnyString "OBJECT" ]} |}.

(** A configuration with labels and a MIME type the package does not
    support. *)
Definition labelled_png_config : @GenerateContentConfig.t sample_platform :=
  @output_config sample_platform "image/png" None AnyNil (Some {[ "team" := "search" ]}).

(** A configuration with labels and nothing else of note. *)
Definition labelled_config : @GenerateContentConfig.t sample_platform :=
  @output_config sample_platform "text/plain" None AnyNil (Some {[ "team" := "search" ]}).

(** An event of a kind the translator does not name. *)
Definition created_event : ResponseStreamEventUnion.t :=
  {| ResponseStreamEventUnion.Type_ := "response.created";
     ResponseStreamEventUnion.Delta := "";
     ResponseStreamEventUnion.ItemID := "";
     ResponseStreamEventUnion.Arguments := "";
     ResponseStreamEventUnion.Name := "";
     ResponseStreamEventUnion.Message := "";
     ResponseStreamEventUnion.ResponseErrorMessage := "" |}.

(** The two deltas of the item call-1. *)
Definition city_deltas : list ResponseStreamEventUnion.t :=
  [ arguments_event responseFunctionCallArgumentsDelta "call-1" city_head "" "";
    arguments_event responseFunctionCallArgumentsDelta "call-1" city_tail "" "" ].

(** The same two deltas, without item identifier. *)
Definition anonymous_deltas : list ResponseStreamEventUnion.t :=
  [ arguments_event responseFunctionCallArgumentsDelta "" city_head "" "";
    arguments_event responseFunctionCallArgumentsDelta "" city_tail "" "" ].

(** A done event without item identifier and without arguments. *)
Definition anonymous_done : ResponseStreamEventUnion.t :=
  arguments_event responseFunctionCallArgumentsDone "" "" "" "lookup".

(** A done event whose item identifier is the text default. *)
Definition default_done : ResponseStreamEventUnion.t :=
  arguments_event responseFunctionCallArgumentsDone "default" "" "" "lookup".

(** ** Call identifiers in the vendor's items *)

(** The call identifiers of the function-call items of a list of items, in
    order. *)
Definition issued_call_ids (items : list ResponseInputItemUnionParam) : list string :=
  omap (fun item =>
          match item with
          | OfFunctionCall call => Some (ResponseFunctionToolCallParam.CallID call)
          | _ => None
          end) items.

(** Every function-call output of the list answers a function call that
    stands before it in the list. *)
Definition outputs_answer_calls (items : list ResponseInputItemUnionParam) : Prop :=
  ∀ i out,
    items !! i = Some (OfFunctionCallOutput out) ->
    ResponseInputItemFunctionCallOutputParam.CallID out ∈ issued_call_ids (take i items).

(** The state [convertContents] keeps between two parts: the outputs so far
    answer calls so far, and what is pending was issued. *)
Definition answers_so_far (st : convertState) : Prop :=
  outputs_answer_calls (items st)
  ∧ ∀ id, id ∈ pending (tracker st) -> id ∈ issued_call_ids (items st).

(** ** Text-only contents *)

(** The texts of the parts of a content, nil parts left out. *)
Definition part_texts (parts : list (option Part.t)) : list string :=
  omap (fmap Part.Text) parts.

(** The texts that are not blank, each as an input-text entry. *)
Definition input_texts (texts : list string) : list ResponseInputTextParam.t :=
  (fun txt => {| ResponseInputTextParam.Text := txt;
                 ResponseInputTextParam.Type_ := "input_text" |})
  <$> filter (fun txt => TrimSpace_is_empty txt = false) texts.

(** The message a text-only content becomes: none when it has no text that
    is not blank. *)
Definition text_message (content : Content.t) : option ResponseInputItemUnionParam :=
  match normalizeRole (Content.Role content),
        input_texts (part_texts (Content.Parts content)) with
  | Ok role, entry :: entries =>
      Some (OfMessage {| EasyInputMessageParam.Role := role;
                         EasyInputMessageParam.Type_ := "message";
                         EasyInputMessageParam.Content := entry :: entries |})
  | _, _ => None
  end.

(** The parts of a content are text parts (or nil). *)
Definition text_only (content : Content.t) : Prop :=
  ∀ part, Some part ∈ Content.Parts content -> Part.Text part ≠ "".

(** The texts [l], one per line. *)
Fixpoint join_lines (l : list string) : string :=
  match l with
  | [] => ""
  | [x] => x
  | x :: rest => x +:+ newline +:+ join_lines rest
  end.

(** ** Accepted configurations *)

Section FormatRequest.
Context `{Platform}.

(** The configuration asks for a structured output: the MIME type
    application/json, or a response schema of either form. *)
Definition wants_format (cfg : GenerateContentConfig.t) : bool :=
  String.eqb (GenerateContentConfig.ResponseMIMEType cfg) "application/json"
  || is_set (GenerateContentConfig.ResponseSchema cfg)
  || negb (is_nil (GenerateContentConfig.ResponseJsonSchema cfg)).

End FormatRequest.

(** ** Tools *)

(** The function declarations of a list of tools, in order. *)
Definition all_declarations (tools : list (option Tool.t))
  : list (option FunctionDeclaration.t) :=
  tools ≫= from_option Tool.FunctionDeclarations [].

(** The tool carries a built-in capability. *)
Definition has_builtin (tool : Tool.t) : bool :=
  Tool.Retrieval tool || Tool.GoogleSearch tool || Tool.GoogleSearchRetrieval tool
  || Tool.GoogleMaps tool || Tool.EnterpriseWebSearch tool
  || Tool.URLContext tool || Tool.ComputerUse tool || Tool.CodeExecution tool.

(** The function tool [fn] is what the declaration [decl] converts to, its
    parameter schema apart: the declaration is there and named, the tool
    has its name and its description (when it has one), is strict, and has
    a parameter schema. *)
Definition converts_declaration (fn : FunctionToolParam.t)
  (decl : option FunctionDeclaration.t) : Prop :=
  ∃ d, decl = Some d
       ∧ FunctionDeclaration.Name d ≠ ""
       ∧ FunctionToolParam.Name fn = FunctionDeclaration.Name d
       ∧ FunctionToolParam.Type_ fn = "function"
       ∧ FunctionToolParam.Strict fn = Some true
       ∧ FunctionToolParam.Parameters fn ≠ None
       ∧ FunctionToolParam.Description fn
         = (if String.eqb (FunctionDeclaration.Description d) "" then None
            else Some (FunctionDeclaration.Description d)).

(** ** Parts of a converted response *)

(** A part the response converter builds: a text part, thought or not, or
    a function-call part. *)
Definition output_part (part : Part.t) : Prop :=
  (∃ text thought, part = text_part text thought)
  ∨ ∃ fc, part = function_call_part fc.

(** A message item all of whose content entries are output texts or
    refusals. *)
Definition plain_message (item : ResponseOutputItemUnion.t) : Prop :=
  ResponseOutputItemUnion.Type_ item = "message"
  ∧ Forall (fun c => ResponseOutputMessageContentUnion.Type_ c = "output_text"
                     ∨ ResponseOutputMessageContentUnion.Type_ c = "refusal")
      (ResponseOutputItemUnion.Content item).

(** The texts a message contributes: its output texts that are not empty
    and its refusals, in order. *)
Definition message_texts (item : ResponseOutputItemUnion.t) : list string :=
  omap (fun c =>
          if String.eqb (ResponseOutputMessageContentUnion.Type_ c) "output_text"
          then if String.eqb (ResponseOutputMessageContentUnion.Text c) "" then None
               else Some (ResponseOutputMessageContentUnion.Text c)
          else Some (ResponseOutputMessageContentUnion.Refusal c))
    (ResponseOutputItemUnion.Content item).

(** The range of [int32]. *)
Definition in_int32 (n : Z) : Prop := - 2 ^ 31 <= n < 2 ^ 31.

(** ** Streams *)

(** The buffer key an event works on: the item identifier, with [default]
    for the empty identifier of a delta. *)
Definition event_key (evt : ResponseStreamEventUnion.t) : string :=
  if String.eqb (ResponseStreamEventUnion.Type_ evt) responseFunctionCallArgumentsDelta
     && String.eqb (ResponseStreamEventUnion.ItemID evt) ""
  then "default"
  else ResponseStreamEventUnion.ItemID evt.

(** The deltas of a list of events, one after the other. *)
Definition deltas_text (events : list ResponseStreamEventUnion.t) : string :=
  foldr (fun evt text => ResponseStreamEventUnion.Delta evt +:+ text) "" events.

(** A delta event of one of the three text kinds. *)
Definition text_delta (evt : ResponseStreamEventUnion.t) : Prop :=
  ResponseStreamEventUnion.Type_ evt = responseOutputTextDelta
  ∨ ResponseStreamEventUnion.Type_ evt = responseReasoningTextDelta
  ∨ ResponseStreamEventUnion.Type_ evt = responseReasoningSummaryTextDelta.

(** The micro-response of a text delta: a thought unless the event is an
    output-text delta. *)
Definition delta_response (evt : ResponseStreamEventUnion.t) : GenerateContentResponse.t :=
  micro_response
    (text_part (ResponseStreamEventUnion.Delta evt)
       (negb (String.eqb (ResponseStreamEventUnion.Type_ evt) responseOutputTextDelta))).

Section StreamOutputs.
Context `{Platform}.

(** The loop of [generateStream] as far as the translator goes, for a
    consumer that takes everything: the micro-responses handed to the
    aggregator, in order, and the error that ended the stream, if one
    did. *)
Fixpoint translate (t : streamTranslator) (events : list ResponseStreamEventUnion.t)
  : list GenerateContentResponse.t * option error :=
  match events with
  | [] => ([], None)
  | evt :: rest =>
      match process t evt with
      | (_, Err e) => ([], Some e)
      | (t1, Ok None) => translate t1 rest
      | (t1, Ok (Some genaiResp)) =>
          let '(responses, err) := translate t1 rest in (genaiResp :: responses, err)
      end
  end.

End StreamOutputs.

(** ** The agent tree (agent.go, runner.go)

    [findAgent] reads an agent through [Name] and [SubAgents] only, and
    writes nothing. For it an agent is modelled by these two, as a tree; an
    [agent.Agent] that may be nil is an [option]. *)

Module Agent.
Inductive t : Type := Build (name : string) (subAgents : list (option t)).
Definition Name (a : t) : string := match a with Build name _ => name end.
Definition SubAgents (a : t) : list (option t) :=
  match a with Build _ subAgents => subAgents end.
End Agent.

Fixpoint findAgent_in (curAgent : Agent.t) (targetName : string) : option Agent.t :=
  match curAgent with
  | Agent.Build name subAgents =>
      if String.eqb name targetName then Some curAgent
      else
        (fix range (subAgents : list (option Agent.t)) : option Agent.t :=
           match subAgents with
           | [] => None
           | subAgent :: rest =>
               match match subAgent with
                     | None => None
                     | Some subAgent => findAgent_in subAgent targetName
                     end with
               | Some agent => Some agent
               | None => range rest
               end
           end) subAgents
  end.

Definition findAgent (curAgent : option Agent.t) (targetName : string) : option Agent.t :=
  match curAgent with
  | None => None
  | Some curAgent => findAgent_in curAgent targetName
  end.

(** The agents of a tree, each before its sub-agents, the sub-agents in
    order. *)
Fixpoint agents_of (a : Agent.t) : list Agent.t :=
  match a with
  | Agent.Build _ subAgents =>
      a :: (fix range (subAgents : list (option Agent.t)) : list Agent.t :=
              match subAgents with
              | [] => []
              | subAgent :: rest =>
                  match subAgent with
                  | None => []
                  | Some subAgent => agents_of subAgent
                  end ++ range rest
              end) subAgents
  end.

(** ** agent.go: the agent structure and [New]

    [New] writes the parent pointer of agents that its caller, and other
    agents, also hold. Agents therefore live in a store, an [agent.Agent]
    is the address of its structure (nil: [None]), and [New] takes the
    store and returns it. The callbacks are values of types the model
    leaves open. *)

Definition addr : Type := positive.

(** A call either returns or panics (here: a nil dereference). *)
Inductive outcome (A : Type) : Type :=
| Returns (r : A)
| Panics.
Arguments Returns {A} r.
Arguments Panics {A}.

Module agent.
Record t {Callback RunFunc : Type} : Type := {
  name : string;
  description : string;
  subAgents : list (option addr);
  parent : option addr;
  beforeAgent : list Callback;
  run : RunFunc;
  afterAgent : list Callback
}.
Arguments t : clear implicits.
End agent.

Module Config.
Record t {Callback RunFunc : Type} : Type := {
  Name : string;
  Description : string;
  SubAgents : list (option addr);
  BeforeAgent : list Callback;
  Run : RunFunc;
  AfterAgent : list Callback
}.
Arguments t : clear implicits.
End Config.

(** The store: the agent structures by address. *)
Abbreviation store Callback RunFunc := (gmap addr (agent.t Callback RunFunc)).

Section AgentStore.
Context {Callback RunFunc : Type}.

(** [sa.parent = p]. *)
Definition set_parent (p : option addr) (sa : agent.t Callback RunFunc)
  : agent.t Callback RunFunc :=
  {| agent.name := agent.name sa;
     agent.description := agent.description sa;
     agent.subAgents := agent.subAgents sa;
     agent.parent := p;
     agent.beforeAgent := agent.beforeAgent sa;
     agent.run := agent.run sa;
     agent.afterAgent := agent.afterAgent sa |}.

(** [p.Name()] for the parent [p] of an agent. *)
Definition Name_at (h : store Callback RunFunc) (p : addr) : string :=
  from_option agent.name "" (h !! p).

(** The loop of [New] over the sub-agents; [a] is the new agent. *)
Fixpoint New_range (a : addr) (subAgents : list (option addr))
  (h : store Callback RunFunc)
  : store Callback RunFunc * outcome (result addr) :=
  match subAgents with
  | [] => (h, Returns (Ok a))
  | subAgent :: rest =>
      match subAgent with
      | None => (h, Panics)
      | Some sub =>
          match h !! sub with
          | None => (h, Panics)
          | Some sa =>
              match agent.parent sa with
              | Some p =>
                  (h, Returns (Err (Errorf "subAgent %v already has a parent %v"
                                      [OpString (agent.name sa); OpString (Name_at h p)])))
              | None => New_range a rest (<[sub := set_parent (Some a) sa]> h)
              end
          end
      end
  end.

(** The structure [New] allocates. *)
Definition new_agent (cfg : Config.t Callback RunFunc) : agent.t Callback RunFunc :=
  {| agent.name := Config.Name cfg;
     agent.description := Config.Description cfg;
     agent.subAgents := Config.SubAgents cfg;
     agent.parent := None;
     agent.beforeAgent := Config.BeforeAgent cfg;
     agent.run := Config.Run cfg;
     agent.afterAgent := Config.AfterAgent cfg |}.

Definition New (cfg : Config.t Callback RunFunc) (h : store Callback RunFunc)
  : store Callback RunFunc * outcome (result addr) :=
  let a := fresh (dom h) in
  New_range a (Config.SubAgents cfg) (<[a := new_agent cfg]> h).

(** The sub-agent is there and has no parent yet. *)
Definition adoptable (h : store Callback RunFunc) (subAgent : option addr) : Prop :=
  ∃ sub sa, subAgent = Some sub ∧ h !! sub = Some sa ∧ agent.parent sa = None.

(** The address points into the store (as every address of a Go program
    does). *)
Definition allocated (h : store Callback RunFunc) (subAgent : option addr) : Prop :=
  ∀ sub, subAgent = Some sub -> is_Some (h !! sub).

End AgentStore.

(** ** Further sample values *)

(** A part that holds a function response and nothing else. *)
Definition function_response_part (fr : FunctionResponse.t) : Part.t :=
  {| Part.Text := ""; Part.Thought := false;
     Part.InlineData := None; Part.FileData := None;
     Part.FunctionCall := None; Part.FunctionResponse := Some fr |}.

(** A question of the user, a call of the model and the answer of the
    user, call and answer without identifier. *)
Definition call_and_response_contents : list (option Content.t) :=
  [ Some {| Content.Role := RoleUser;
            Content.Parts := [Some (text_part "Weather in Paris?" false)] |};
    Some {| Content.Role := RoleModel;
            Content.Parts := [Some (function_call_part (lookup_call ""))] |};
    Some {| Content.Role := RoleUser;
            Content.Parts := [Some (function_response_part (lookup_response ""))] |} ].

(** Three contents of text parts; the one of the model is blank. *)
Definition greeting_contents : list Content.t :=
  [ {| Content.Role := RoleUser;
       Content.Parts := [Some (text_part "Hello" false); None;
                         Some (text_part "there" false)] |};
    {| Content.Role := RoleModel; Content.Parts := [Some (text_part "   " false)] |};
    {| Content.Role := "system"; Content.Parts := [Some (text_part "Be brief" false)] |} ].

(** A system instruction of two lines, and one with a part that is no
    text. *)
Definition two_line_instruction : Content.t :=
  {| Content.Role := "system";
     Content.Parts := [Some (text_part "Be brief" false);
                       Some (text_part "Answer in French" false)] |}.

Definition inline_data_instruction : Content.t :=
  {| Content.Role := "system";
     Content.Parts := [Some (text_part "Be brief" false); Some inline_data_part] |}.

(** The declaration of the function lookup, without parameters. *)
Definition lookup_declaration : FunctionDeclaration.t :=
  {| FunctionDeclaration.Name := "lookup";
     FunctionDeclaration.Description := "Looks a city up";
     FunctionDeclaration.Parameters := None;
     FunctionDeclaration.ParametersJsonSchema := AnyNil |}.

(** A tool that declares functions and nothing else. *)
Definition function_tool (decls : list (option FunctionDeclaration.t)) : Tool.t :=
  {| Tool.Retrieval := false; Tool.GoogleSearch := false;
     Tool.GoogleSearchRetrieval := false; Tool.GoogleMaps := false;
     Tool.EnterpriseWebSearch := false; Tool.URLContext := false;
     Tool.ComputerUse := false; Tool.CodeExecution := false;
     Tool.FunctionDeclarations := decls |}.

Section ToolSamples.
Context `{Platform}.

(** A configuration that sets nothing but its tools. *)
Definition tools_config (tools : list (option Tool.t)) : GenerateContentConfig.t :=
  {| GenerateContentConfig.Temperature := None;
     GenerateContentConfig.TopP := None;
     GenerateContentConfig.TopK := None;
     GenerateContentConfig.MaxOutputTokens := 0;
     GenerateContentConfig.StopSequences := [];
     GenerateContentConfig.CandidateCount := 0;
     GenerateContentConfig.FrequencyPenalty := None;
     GenerateContentConfig.PresencePenalty := None;
     GenerateContentConfig.ResponseLogprobs := false;
     GenerateContentConfig.Logprobs := None;
     GenerateContentConfig.SystemInstruction := None;
     GenerateContentConfig.ResponseMIMEType := "";
     GenerateContentConfig.ResponseSchema := None;
     GenerateContentConfig.ResponseJsonSchema := AnyNil;
     GenerateContentConfig.Labels := None;
     GenerateContentConfig.SafetySettings := None;
     GenerateContentConfig.Tools := tools;
     GenerateContentConfig.ToolConfig := None |}.

(** A request whose contents hold no part. *)
Definition partless_request : LLMRequest.t :=
  {| LLMRequest.Model := "";
     LLMRequest.Contents := [None; Some {| Content.Role := RoleUser; Content.Parts := [] |}];
     LLMRequest.Config := None |}.

End ToolSamples.

(** A usage whose reasoning count does not fit in an [int32]. *)
Definition large_usage : ResponseUsage.t :=
  {| ResponseUsage.InputTokens := 12; ResponseUsage.OutputTokens := 30;
     ResponseUsage.TotalTokens := 42; ResponseUsage.CachedTokens := 0;
     ResponseUsage.ReasoningTokens := 2 ^ 31 |}.

(** A vendor response cut short by the limit of output tokens. *)
Definition cut_short_response : Response.t :=
  {| Response.ID := "resp-2"; Response.Model := "gpt-test"; Response.Output := [];
     Response.Usage := empty_usage; Response.IncompleteReason := "max_output_tokens";
     Response.ErrorMessage := "" |}.

(** A message with a text, an empty text and a refusal. *)
Definition hello_message : ResponseOutputItemUnion.t :=
  {| ResponseOutputItemUnion.Type_ := "message";
     ResponseOutputItemUnion.Content :=
       [ {| ResponseOutputMessageContentUnion.Type_ := "output_text";
            ResponseOutputMessageContentUnion.Text := "Hello";
            ResponseOutputMessageContentUnion.Refusal := "" |};
         {| ResponseOutputMessageContentUnion.Type_ := "output_text";
            ResponseOutputMessageContentUnion.Text := "";
            ResponseOutputMessageContentUnion.Refusal := "" |};
         {| ResponseOutputMessageContentUnion.Type_ := "refusal";
            ResponseOutputMessageContentUnion.Text := "";
            ResponseOutputMessageContentUnion.Refusal := "I cannot say more" |} ];
     ResponseOutputItemUnion.Summary := [];
     ResponseOutputItemUnion.Arguments := "";
     ResponseOutputItemUnion.Name := "";
     ResponseOutputItemUnion.CallID := "" |}.

(** A text delta event of the kind [kind]. *)
Definition text_event (kind delta : string) : ResponseStreamEventUnion.t :=
  {| ResponseStreamEventUnion.Type_ := kind;
     ResponseStreamEventUnion.Delta := delta;
     ResponseStreamEventUnion.ItemID := "";
     ResponseStreamEventUnion.Arguments := "";
     ResponseStreamEventUnion.Name := "";
     ResponseStreamEventUnion.Message := "";
     ResponseStreamEventUnion.ResponseErrorMessage := "" |}.

(** A text in two deltas, a thought and an empty delta between them. *)
Definition greeting_events : list ResponseStreamEventUnion.t :=
  [ text_event responseOutputTextDelta "Hel";
    text_event responseReasoningTextDelta "greeting";
    text_event responseOutputTextDelta "";
    text_event responseOutputTextDelta "lo" ].

(** A failure event of the vendor. *)
Definition failed_event : ResponseStreamEventUnion.t :=
  {| ResponseStreamEventUnion.Type_ := "response.failed";
     ResponseStreamEventUnion.Delta := "";
     ResponseStreamEventUnion.ItemID := "";
     ResponseStreamEventUnion.Arguments := "";
     ResponseStreamEventUnion.Name := "";
     ResponseStreamEventUnion.Message := "";
     ResponseStreamEventUnion.ResponseErrorMessage := "quota exceeded" |}.

(** A function-call item of a response: a call of lookup without
    arguments, under the call identifier call-9. *)
Definition lookup_item : ResponseOutputItemUnion.t :=
  {| ResponseOutputItemUnion.Type_ := "function_call";
     ResponseOutputItemUnion.Content := [];
     ResponseOutputItemUnion.Summary := [];
     ResponseOutputItemUnion.Arguments := "";
     ResponseOutputItemUnion.Name := "lookup";
     ResponseOutputItemUnion.CallID := "call-9" |}.

(** An agent without sub-agents, parent or callbacks. *)
Definition leaf_agent (name : string) : agent.t unit unit :=
  {| agent.name := name; agent.description := "";
     agent.subAgents := []; agent.parent := None;
     agent.beforeAgent := []; agent.run := tt; agent.afterAgent := [] |}.

(** A store with two such agents. *)
Definition two_agents : gmap addr (agent.t unit unit) :=
  {[ 1%positive := leaf_agent "planner"; 2%positive := leaf_agent "writer" ]}.

(** The configuration of an agent named team with the given sub-agents. *)
Definition team_config (subAgents : list (option addr)) : Config.t unit unit :=
  {| Config.Name := "team"; Config.Description := "";
     Config.SubAgents := subAgents;
     Config.BeforeAgent := []; Config.Run := tt; Config.AfterAgent := [] |}.

(** A done event whose item identifier is the text default and that brings
    the empty object as its arguments. *)
Definition default_done_with_arguments : ResponseStreamEventUnion.t :=
  arguments_event responseFunctionCallArgumentsDone "default" "" "{}" "lookup".

(** * Properties *)

(** ** Strings and generated identifiers *)

Lemma eqb_empty_false (s : string) : s ≠ "" -> String.eqb s "" = false.
Proof. intros Hs. now apply String.eqb_neq. Qed.

Lemma append_empty_r (s : string) : s +:+ "" = s.
Proof.
  induction s as [|c s IH]; [reflexivity|].
  change (String c (s +:+ "") = String c s). f_equal. exact IH.
Qed.

Lemma append_assoc (s1 s2 s3 : string) : (s1 +:+ s2) +:+ s3 = s1 +:+ (s2 +:+ s3).
Proof.
  induction s1 as [|c s1 IH]; [reflexivity|].
  change (String c ((s1 +:+ s2) +:+ s3) = String c (s1 +:+ (s2 +:+ s3))).
  f_equal. exact IH.
Qed.

Lemma append_nonempty_r (s1 s2 : string) : s2 ≠ "" -> s1 +:+ s2 ≠ "".
Proof. destruct s1 as [|c s1]; [tauto | discriminate]. Qed.

Lemma format_int_inj (n m : Z) : format_int n = format_int m -> n = m.
Proof.
  unfold format_int. intros E.
  assert (E' : Some (Z.to_int n) = Some (Z.to_int m)).
  { rewrite <- !NilEmpty.isi. now rewrite E. }
  injection E' as E'. now apply DecimalZ.to_int_inj.
Qed.

Lemma append_inv_head (p s1 s2 : string) : p +:+ s1 = p +:+ s2 -> s1 = s2.
Proof.
  induction p as [|c p IH]; simpl; [easy|].
  intros E. injection E as E. auto.
Qed.

Lemma generated_call_id_inj (n m : Z) :
  generated_call_id n = generated_call_id m -> n = m.
Proof.
  unfold generated_call_id. intros E.
  apply format_int_inj. exact (append_inv_head _ _ _ E).
Qed.

(** ** The pending list *)

Lemma find_pending_absent (callID : string) (l : list string) (i : nat) :
  callID ∉ l -> find_pending callID l i = None.
Proof.
  revert i. induction l as [|p l IH]; intros i Hnot; simpl; [reflexivity|].
  apply not_elem_of_cons in Hnot as [Hne Hnot].
  destruct (String.eqb_spec p callID) as [->|_]; [congruence|].
  now apply IH.
Qed.

Lemma find_pending_first (callID : string) (before after : list string) (i : nat) :
  callID ∉ before ->
  find_pending callID (before ++ (callID :: after)) i = Some (i + length before)%nat.
Proof.
  revert i. induction before as [|p l IH]; intros i Hnot; simpl.
  - rewrite String.eqb_refl. f_equal. lia.
  - apply not_elem_of_cons in Hnot as [Hne Hnot].
    destruct (String.eqb_spec p callID) as [->|_]; [congruence|].
    rewrite IH by assumption. f_equal. lia.
Qed.

Lemma find_pending_found (callID : string) (l : list string) (i j : nat) :
  find_pending callID l i = Some j ->
  ∃ before after,
    l = before ++ (callID :: after) ∧ (callID ∉ before) ∧ j = (i + length before)%nat.
Proof.
  revert i. induction l as [|p l IH]; intros i; simpl; [discriminate|].
  destruct (String.eqb_spec p callID) as [->|Hne].
  - intros [= <-]. exists [], l. repeat split; [apply not_elem_of_nil | simpl; lia].
  - intros E. destruct (IH _ E) as (before & after & -> & Hnot & ->).
    exists (p :: before), after. repeat split.
    + apply not_elem_of_cons. split; [congruence | assumption].
    + simpl. lia.
Qed.

Lemma remove_at_middle {A} (before after : list A) (x : A) :
  take (length before) (before ++ x :: after)
  ++ drop (S (length before)) (before ++ x :: after) = before ++ after.
Proof.
  rewrite take_app_length.
  replace (S (length before)) with (length (before ++ [x])) by (rewrite length_app; simpl; lia).
  rewrite (cons_middle x before after), app_assoc, drop_app_length. reflexivity.
Qed.

Section TrackerProperties.
Context `{Platform}.

Lemma matchPending_oldest (t : callTracker) (fr : FunctionResponse.t)
  (oldest : string) (rest : list string) :
  FunctionResponse.ID fr = "" -> pending t = oldest :: rest ->
  matchPending t fr = ({| nextID := nextID t; pending := rest |}, Ok oldest).
Proof.
  intros Hid Hp. unfold matchPending. rewrite Hid, Hp. reflexivity.
Qed.

Lemma matchPending_explicit (t : callTracker) (fr : FunctionResponse.t)
  (before after : list string) :
  FunctionResponse.ID fr ≠ "" ->
  pending t = before ++ (FunctionResponse.ID fr :: after) ->
  FunctionResponse.ID fr ∉ before ->
  matchPending t fr
  = ({| nextID := nextID t; pending := before ++ after |}, Ok (FunctionResponse.ID fr)).
Proof.
  intros Hid Hp Hnot. unfold matchPending.
  rewrite (eqb_empty_false _ Hid), Hp, find_pending_first by assumption.
  simpl. rewrite remove_at_middle. reflexivity.
Qed.

Lemma matchPending_unknown (t : callTracker) (fr : FunctionResponse.t) :
  FunctionResponse.ID fr ≠ "" ->
  FunctionResponse.ID fr ∉ pending t ->
  matchPending t fr
  = (t, Err (Errorf
               "openai: received function response for unknown or already completed call id %q"
               [OpString (FunctionResponse.ID fr)])).
Proof.
  intros Hid Hnot. unfold matchPending.
  rewrite (eqb_empty_false _ Hid), find_pending_absent by assumption. reflexivity.
Qed.

(** What [newFunctionResponse] adds to [matchPending]: the tracker is the
    one [matchPending] leaves, and a returned item carries the identifier it
    settled. *)
Lemma newFunctionResponse_matchPending (t : callTracker) (fr : FunctionResponse.t) :
  (newFunctionResponse t fr).1 = (matchPending t fr).1
  ∧ ∀ p, (newFunctionResponse t fr).2 = Ok p ->
         (matchPending t fr).2 = Ok (ResponseInputItemFunctionCallOutputParam.CallID p).
Proof.
  unfold newFunctionResponse.
  destruct (matchPending t fr) as [t1 [callID|e]]; simpl.
  - destruct (json_Marshal _); simpl; split; try reflexivity.
    + intros p [= <-]. reflexivity.
    + intros p [=].
  - split; [reflexivity | intros p [=]].
Qed.

(** C1. Call-tracker correlation, in any state [t] of the tracker:
    - a function call (one with a name: a call without a name is refused
      before the tracker is touched) that carries no identifier is given the
      generated identifier [adk-openai-call-N], [N] the tracker's counter,
      and that identifier is appended to the pending list;
    - a function response without identifier takes the oldest pending entry
      off the list and answers it;
    - a function response with an identifier that is pending removes that
      entry (its first occurrence) and nothing else;
    - a function response with an identifier that is not pending is an
      error, and the tracker is left exactly as it was. *)
Theorem call_tracker_correlation (t : callTracker) :
  (∀ fc : FunctionCall.t,
     FunctionCall.Name fc ≠ "" -> FunctionCall.ID fc = "" ->
     pending (newFunctionCall t fc).1 = pending t ++ [generated_call_id (nextID t)]
     ∧ nextID (newFunctionCall t fc).1 = wrap_int (nextID t + 1)
     ∧ ∀ p, (newFunctionCall t fc).2 = Ok p ->
            ResponseFunctionToolCallParam.CallID p = generated_call_id (nextID t))
  ∧ (∀ (fr : FunctionResponse.t) oldest rest,
       FunctionResponse.ID fr = "" -> pending t = oldest :: rest ->
       (newFunctionResponse t fr).1 = {| nextID := nextID t; pending := rest |}
       ∧ ∀ p, (newFunctionResponse t fr).2 = Ok p ->
              ResponseInputItemFunctionCallOutputParam.CallID p = oldest)
  ∧ (∀ (fr : FunctionResponse.t) before after,
       FunctionResponse.ID fr ≠ "" ->
       pending t = before ++ (FunctionResponse.ID fr :: after) ->
       FunctionResponse.ID fr ∉ before ->
       (newFunctionResponse t fr).1 = {| nextID := nextID t; pending := before ++ after |}
       ∧ ∀ p, (newFunctionResponse t fr).2 = Ok p ->
              ResponseInputItemFunctionCallOutputParam.CallID p = FunctionResponse.ID fr)
  ∧ (∀ fr : FunctionResponse.t,
       FunctionResponse.ID fr ≠ "" -> FunctionResponse.ID fr ∉ pending t ->
       newFunctionResponse t fr
       = (t, Err (Errorf
                    "openai: received function response for unknown or already completed call id %q"
                    [OpString (FunctionResponse.ID fr)]))).
Proof.
  split; [|split; [|split]].
  - intros fc Hname Hid. unfold newFunctionCall.
    rewrite (eqb_empty_false _ Hname), Hid. simpl.
    destruct (json_Marshal _); simpl; repeat split; intros p [= <-]; reflexivity.
  - intros fr oldest rest Hid Hp.
    destruct (newFunctionResponse_matchPending t fr) as [-> Hcall].
    rewrite (matchPending_oldest t fr oldest rest) in * by assumption.
    split; [reflexivity|]. intros p Hok. specialize (Hcall p Hok).
    simpl in Hcall. congruence.
  - intros fr before after Hid Hp Hnot.
    destruct (newFunctionResponse_matchPending t fr) as [-> Hcall].
    rewrite (matchPending_explicit t fr before after) in * by assumption.
    split; [reflexivity|]. intros p Hok. specialize (Hcall p Hok).
    simpl in Hcall. congruence.
  - intros fr Hid Hnot. unfold newFunctionResponse.
    now rewrite matchPending_unknown.
Qed.

End TrackerProperties.

(** ** The pending-call registry *)

Lemma wrap_int_small (n : Z) : - 2 ^ 63 <= n < 2 ^ 63 -> wrap_int n = n.
Proof.
  intros Hn. unfold wrap_int.
  rewrite Z.mod_small by lia. lia.
Qed.

Section RegistryProperties.
Context `{Platform}.

Lemma matchPending_sublist (t : callTracker) (fr : FunctionResponse.t) :
  nextID (matchPending t fr).1 = nextID t
  ∧ pending (matchPending t fr).1 `sublist_of` pending t.
Proof.
  unfold matchPending.
  destruct (String.eqb _ ""); [destruct (pending t) as [|oldest rest] eqn:E|
                               destruct (find_pending _ _ _)]; simpl.
  - rewrite E. split; reflexivity.
  - split; [reflexivity | now apply sublist_cons].
  - split; [reflexivity|]. rewrite <- delete_take_drop. apply sublist_delete.
  - split; reflexivity.
Qed.

Lemma registry_ok_sublist (t t' : callTracker) :
  nextID t' = nextID t -> pending t' `sublist_of` pending t ->
  registry_ok t -> registry_ok t'.
Proof.
  intros Hn Hsub (Hnd & Hpos & Hgen). repeat split.
  - eapply sublist_NoDup; eassumption.
  - lia.
  - intros n Hle Hin. apply (Hgen n); [lia|]. eapply elem_of_sublist; eassumption.
Qed.

Lemma newFunctionCall_registered (t : callTracker) (fc : FunctionCall.t) :
  FunctionCall.Name fc ≠ "" ->
  (newFunctionCall t fc).1
  = if String.eqb (FunctionCall.ID fc) ""
    then {| nextID := wrap_int (nextID t + 1);
            pending := pending t ++ [generated_call_id (nextID t)] |}
    else {| nextID := nextID t; pending := pending t ++ [FunctionCall.ID fc] |}.
Proof.
  intros Hname. unfold newFunctionCall. rewrite (eqb_empty_false _ Hname).
  destruct (String.eqb (FunctionCall.ID fc) ""); simpl;
    destruct (json_Marshal _); reflexivity.
Qed.

Lemma newFunctionCall_nameless (t : callTracker) (fc : FunctionCall.t) :
  FunctionCall.Name fc = "" ->
  newFunctionCall t fc = (t, Err (Sentinel ErrFunctionCallMissingName)).
Proof. intros Hname. unfold newFunctionCall. now rewrite Hname. Qed.

(** One operation keeps the registry in order, and moves the counter by at
    most one. *)
Lemma apply_op_registry_ok (t : callTracker) (op : trackerOp) :
  registry_ok t -> nextID t + 1 < 2 ^ 63 -> fresh_explicit_id t op ->
  registry_ok (apply_op t op)
  ∧ nextID t <= nextID (apply_op t op) <= nextID t + 1.
Proof.
  intros Hok Hbound Hfresh. destruct op as [fc|fr]; simpl.
  - destruct (String.eqb_spec (FunctionCall.Name fc) "") as [Hname|Hname].
    { rewrite newFunctionCall_nameless by assumption. simpl. split; [assumption | lia]. }
    rewrite newFunctionCall_registered by assumption.
    destruct Hok as (Hnd & Hpos & Hgen). simpl in Hfresh.
    destruct (String.eqb_spec (FunctionCall.ID fc) "") as [Hid|Hid]; simpl.
    + rewrite wrap_int_small by lia. split; [|lia]. repeat split; simpl.
      * apply NoDup_app. repeat split; [assumption | | apply NoDup_singleton].
        intros x Hx Hx'. apply list_elem_of_singleton in Hx'. subst x.
        apply (Hgen (nextID t)); [lia | assumption].
      * lia.
      * intros n Hle Hin. apply elem_of_app in Hin as [Hin|Hin].
        -- apply (Hgen n); [lia | assumption].
        -- apply list_elem_of_singleton in Hin.
           apply generated_call_id_inj in Hin. lia.
    + destruct (Hfresh Hid) as [Hnot Hnogen]. split; [|lia]. repeat split; simpl.
      * apply NoDup_app. repeat split; [assumption | | apply NoDup_singleton].
        intros x Hx Hx'. apply list_elem_of_singleton in Hx'. now subst x.
      * assumption.
      * intros n Hle Hin. apply elem_of_app in Hin as [Hin|Hin].
        -- apply (Hgen n); [lia | assumption].
        -- apply list_elem_of_singleton in Hin. now apply (Hnogen n).
  - destruct (newFunctionResponse_matchPending t fr) as [-> _].
    destruct (matchPending_sublist t fr) as [Hn Hsub].
    split; [|lia]. eapply registry_ok_sublist; eassumption.
Qed.

(** C3, as the code has it. In every run of the tracker in which each call
    that brings its own identifier brings a new one (not pending at that
    moment, and not of the form the tracker generates), every identifier is
    in the pending list at most once after every operation: registering a
    call without identifier, and matching a response, never put an
    identifier in twice. (The counter is an [int]: the run is one of fewer
    than 2^63 operations beyond the counter's value.) *)
Theorem pending_registry_invariant (t : callTracker) (ops : list trackerOp) :
  registry_ok t ->
  nextID t + Z.of_nat (length ops) < 2 ^ 63 ->
  explicit_ids_fresh t ops ->
  NoDup (pending (run_ops t ops)).
Proof.
  intros Hok Hbound Hfresh.
  enough (Hrun : registry_ok (run_ops t ops)) by exact (proj1 Hrun).
  revert t Hok Hbound Hfresh.
  induction ops as [|op rest IH]; intros t Hok Hbound Hfresh; simpl.
  - assumption.
  - destruct Hfresh as [Hop Hrest]. simpl length in Hbound.
    destruct (apply_op_registry_ok t op Hok) as [Hok' Hnext]; [lia | assumption |].
    apply IH; [assumption | lia | assumption].
Qed.

End RegistryProperties.

(** ** Content conversion fails closed *)

Section ContentProperties.
Context `{Platform}.

Lemma convertContents_parts_unsupported (parts : list (option Part.t))
  (part : Part.t) (st : convertState) :
  Some part ∈ parts -> unsupported_kind part ->
  ∃ e, convertContents_parts parts st = Err e.
Proof.
  intros Hin (Htext & Hcall & Hresp). revert st.
  induction parts as [|p rest IH]; intros st; [now apply elem_of_nil in Hin|].
  apply elem_of_cons in Hin as [<-|Hin].
  - simpl. rewrite Htext, Hcall, Hresp. simpl. eauto.
  - specialize (IH Hin). destruct p as [p|]; simpl; [|apply IH].
    destruct (negb (String.eqb (Part.Text p) "")); [apply IH|].
    destruct (Part.FunctionCall p) as [fc|].
    + destruct (flushText st) as [st1|e]; simpl; [|eauto].
      destruct (newFunctionCall (tracker st1) fc) as [t [callParam|e]]; [apply IH | eauto].
    + destruct (Part.FunctionResponse p) as [fr|]; [|eauto].
      destruct (flushText st) as [st1|e]; simpl; [|eauto].
      destruct (newFunctionResponse (tracker st1) fr) as [t [respParam|e]];
        [apply IH | eauto].
Qed.

Lemma convertContents_loop_unsupported (contents : list (option Content.t))
  (content : Content.t) (part : Part.t) (st : convertState) :
  Some content ∈ contents -> Some part ∈ Content.Parts content ->
  unsupported_kind part ->
  ∃ e, convertContents_loop contents st = Err e.
Proof.
  intros Hin Hpart Hkind. revert st.
  induction contents as [|c rest IH]; intros st; [now apply elem_of_nil in Hin|].
  apply elem_of_cons in Hin as [<-|Hin].
  - simpl. destruct (Content.Parts content) as [|p ps] eqn:E;
      [now apply elem_of_nil in Hpart|].
    destruct (convertContents_parts_unsupported (p :: ps) part
                {| items := items st; tracker := tracker st;
                   textParts := textParts st; curRole := Content.Role content |}
                Hpart Hkind) as [e He].
    rewrite He. simpl. eauto.
  - specialize (IH Hin). destruct c as [c|]; simpl; [|apply IH].
    destruct (Content.Parts c) as [|p ps]; [apply IH|].
    destruct (convertContents_parts _ _) as [st1|e]; simpl; [|eauto].
    destruct (flushText st1) as [st2|e]; simpl; [apply IH | eauto].
Qed.

(** C4. Content conversion fails closed: when any content of the request
    holds a part that is neither text, nor a function call, nor a function
    response, [convertContents] returns an error, and so does the request
    builder; the part is never skipped. *)
Theorem unsupported_part_is_an_error (contents : list (option Content.t))
  (content : Content.t) (part : Part.t) :
  Some content ∈ contents -> Some part ∈ Content.Parts content ->
  unsupported_kind part ->
  (∃ e, convertContents contents = Err e)
  ∧ ∀ modelName (req : LLMRequest.t),
      LLMRequest.Contents req = contents ->
      ∃ e, buildOpenAIParams modelName (Some req) = Err e.
Proof.
  intros Hin Hpart Hkind.
  assert (Hconv : ∃ e, convertContents contents = Err e).
  { unfold convertContents.
    destruct (convertContents_loop_unsupported contents content part
                {| items := []; tracker := {| nextID := 0; pending := [] |};
                   textParts := []; curRole := RoleUser |} Hin Hpart Hkind) as [e He].
    rewrite He. simpl. eauto. }
  split; [assumption|].
  intros modelName req Hreq. destruct Hconv as [e He].
  unfold buildOpenAIParams. rewrite Hreq, He. simpl. eauto.
Qed.

End ContentProperties.

(** ** The response converter rejects a response without content *)

Lemma convertOutputItems_message_empty
  (content : list ResponseOutputMessageContentUnion.t) (parts parts' : list Part.t) :
  existsb (fun c =>
             String.eqb (ResponseOutputMessageContentUnion.Type_ c) "output_text"
             && negb (String.eqb (ResponseOutputMessageContentUnion.Text c) "")
             || String.eqb (ResponseOutputMessageContentUnion.Type_ c) "refusal")
    content = false ->
  convertOutputItems_message content parts = Ok parts' -> parts' = parts.
Proof.
  revert parts. induction content as [|c rest IH]; intros parts; simpl.
  - intros _ [= <-]. reflexivity.
  - intros Hnone. apply orb_false_elim in Hnone as [Hc Hrest].
    apply orb_false_elim in Hc as [Htext Hrefusal]. rewrite Hrefusal.
    destruct (String.eqb (ResponseOutputMessageContentUnion.Type_ c) "output_text").
    + simpl in Htext. rewrite Htext. now apply IH.
    + discriminate.
Qed.

Lemma convertOutputItems_reasoning_empty
  (content : list ResponseOutputMessageContentUnion.t) (parts : list Part.t) :
  existsb (fun c => negb (String.eqb (ResponseOutputMessageContentUnion.Text c) ""))
    content = false ->
  convertOutputItems_reasoning content parts = parts.
Proof.
  revert parts. induction content as [|c rest IH]; intros parts; simpl; [reflexivity|].
  intros Hnone. apply orb_false_elim in Hnone as [-> Hrest]. now apply IH.
Qed.

Lemma convertOutputItems_summary_empty (summaries : list Summary.t) (parts : list Part.t) :
  existsb (fun s => negb (String.eqb (Summary.Text s) "")) summaries = false ->
  convertOutputItems_summary summaries parts = parts.
Proof.
  revert parts. induction summaries as [|s rest IH]; intros parts; simpl; [reflexivity|].
  intros Hnone. apply orb_false_elim in Hnone as [-> Hrest]. now apply IH.
Qed.

Section ResponseProperties.
Context `{Platform}.

Lemma convertOutputItems_loop_empty (items : list ResponseOutputItemUnion.t)
  (parts parts' : list Part.t) :
  existsb carries_content items = false ->
  convertOutputItems_loop items parts = Ok parts' -> parts' = parts.
Proof.
  revert parts. induction items as [|item rest IH]; intros parts; simpl.
  - intros _ [= <-]. reflexivity.
  - intros Hnone. apply orb_false_elim in Hnone as [Hitem Hrest].
    unfold carries_content in Hitem.
    destruct (String.eqb (ResponseOutputItemUnion.Type_ item) "message").
    { destruct (convertOutputItems_message _ parts) as [parts1|e] eqn:E; simpl; [|discriminate].
      apply (convertOutputItems_message_empty _ _ _ Hitem) in E. subst parts1.
      now apply IH. }
    destruct (String.eqb (ResponseOutputItemUnion.Type_ item) "function_call");
      [discriminate|].
    destruct (String.eqb (ResponseOutputItemUnion.Type_ item) "reasoning"); [|discriminate].
    apply orb_false_elim in Hitem as [Hcontent Hsummary].
    rewrite convertOutputItems_reasoning_empty, convertOutputItems_summary_empty
      by assumption.
    now apply IH.
Qed.

(** C5. A vendor response without output items is an error, one whose
    output items carry no content (no non-empty text, no refusal, no
    function call, no non-empty reasoning text) is an error too, and in
    neither case does [convertResponse] produce a canonical response. *)
Theorem response_without_content_is_rejected :
  convertOutputItems [] = Err (Sentinel ErrNoOutputItems)
  ∧ (∀ items, existsb carries_content items = false ->
        ∃ e, convertOutputItems items = Err e)
  ∧ (∀ resp : Response.t,
        existsb carries_content (Response.Output resp) = false ->
        ∃ e, convertResponse (Some resp) = Err e).
Proof.
  assert (Hitems : ∀ items, existsb carries_content items = false ->
                     ∃ e, convertOutputItems items = Err e).
  { intros items Hnone. unfold convertOutputItems.
    destruct items as [|item rest]; [eauto|].
    destruct (convertOutputItems_loop (item :: rest) []) as [parts|e] eqn:E;
      simpl; [|eauto].
    apply (convertOutputItems_loop_empty _ _ _ Hnone) in E. subst parts. eauto. }
  split; [reflexivity|]. split; [exact Hitems|].
  intros resp Hnone. destruct (Hitems _ Hnone) as [e He].
  unfold convertResponse, buildCandidate. rewrite He. simpl. eauto.
Qed.

End ResponseProperties.

(** ** The name of the structured-output format *)

Section FormatProperties.
Context `{Platform}.

(** C6, as the code has it. Whenever a JSON response format is built, its
    name is the title of the native schema object when the configuration
    has one with a non-empty title, and [adk_response] otherwise; a title
    declared inside a raw JSON-schema value is not looked at. *)
Theorem schema_format_name (cfg : GenerateContentConfig.t)
  (format : ResponseFormatTextJSONSchemaConfigParam.t) :
  newJSONSchemaFormat cfg = Ok format ->
  ResponseFormatTextJSONSchemaConfigParam.Name format
  = match GenerateContentConfig.ResponseSchema cfg with
    | Some schema => if String.eqb (Title schema) "" then "adk_response" else Title schema
    | None => "adk_response"
    end.
Proof.
  unfold newJSONSchemaFormat.
  destruct (if negb (is_nil _) then _ else _) as [schema|e]; simpl; [|discriminate].
  intros [= <-]. simpl.
  destruct (GenerateContentConfig.ResponseSchema cfg) as [s|]; [|reflexivity].
  destruct (String.eqb (Title s) ""); reflexivity.
Qed.

End FormatProperties.

(** ** Tool-choice conversion *)

Lemma allowedToolParam_tools_named (names : list string) :
  allowedToolParam_tools names = allowed_tool <$> named names.
Proof.
  unfold named. induction names as [|name rest IH]; simpl; [reflexivity|].
  rewrite filter_cons.
  destruct (String.eqb_spec name "") as [->|Hne].
  - destruct (decide ("" ≠ "")) as [Hcontra|_]; [congruence | exact IH].
  - destruct (decide (name ≠ "")) as [_|Hcontra]; [|contradiction].
    rewrite fmap_cons, IH. reflexivity.
Qed.

Lemma allowedToolParam_named (names : list string) (mode : ToolChoiceAllowedMode) :
  allowedToolParam names mode
  = match named names with
    | [] => None
    | _ :: _ =>
        Some {| ToolChoiceAllowedParam.Mode := mode;
                ToolChoiceAllowedParam.Type_ := "allowed_tools";
                ToolChoiceAllowedParam.Tools := allowed_tool <$> named names |}
    end.
Proof.
  unfold allowedToolParam. rewrite allowedToolParam_tools_named.
  destruct (named names); reflexivity.
Qed.

Lemma is_auto_mode_dec (mode : string) : is_auto_mode mode ∨ ¬ is_auto_mode mode.
Proof.
  unfold is_auto_mode.
  destruct (decide (mode = "")); [tauto|].
  destruct (decide (mode = FunctionCallingConfigModeUnspecified)); [tauto|].
  destruct (decide (mode = FunctionCallingConfigModeAuto)); tauto.
Qed.

(** C7. Tool-choice conversion, for a function-calling configuration with
    mode [mode] and allowed names [names]:
    - unspecified or auto mode, no allowed names: no choice;
    - unspecified or auto mode, allowed names given: the allowed-tools
      constraint in auto mode over the names;
    - mode none: the option none;
    - mode any, no allowed names: the option required;
    - mode any, allowed names given: the allowed-tools constraint in
      required mode over the names;
    - any other mode: an error;
    - the constraint lists the non-empty names only, and when the list of
      allowed names holds empty names only, no constraint is built: no
      choice results in the modes that would build one, and in no mode does
      the result carry an allowed-tools constraint. *)
Theorem tool_choice_conversion (mode : string) (names : list string) :
  (is_auto_mode mode -> names = [] ->
   convertToolChoice (tool_config mode names) = Ok None)
  ∧ (is_auto_mode mode -> named names ≠ [] ->
     convertToolChoice (tool_config mode names)
     = Ok (Some (allowed_tools_choice ToolChoiceAllowedModeAuto names)))
  ∧ (mode = FunctionCallingConfigModeNone ->
     convertToolChoice (tool_config mode names)
     = Ok (Some (option_choice ToolChoiceOptionsNone)))
  ∧ (mode = FunctionCallingConfigModeAny -> names = [] ->
     convertToolChoice (tool_config mode names)
     = Ok (Some (option_choice ToolChoiceOptionsRequired)))
  ∧ (mode = FunctionCallingConfigModeAny -> named names ≠ [] ->
     convertToolChoice (tool_config mode names)
     = Ok (Some (allowed_tools_choice ToolChoiceAllowedModeRequired names)))
  ∧ (¬ is_auto_mode mode -> mode ≠ FunctionCallingConfigModeNone ->
     mode ≠ FunctionCallingConfigModeAny ->
     convertToolChoice (tool_config mode names) = Err (unsupported_mode mode))
  ∧ (names ≠ [] -> named names = [] ->
     is_auto_mode mode ∨ mode = FunctionCallingConfigModeAny ->
     convertToolChoice (tool_config mode names) = Ok None)
  ∧ (named names = [] ->
     ∀ choice, convertToolChoice (tool_config mode names) = Ok (Some choice) ->
               ResponseNewParamsToolChoiceUnion.OfAllowedTools choice = None).
Proof.
  assert (Hauto : is_auto_mode mode ->
            convertToolChoice (tool_config mode names)
            = match names with
              | [] => Ok None
              | _ :: _ =>
                  match named names with
                  | [] => Ok None
                  | _ :: _ => Ok (Some (allowed_tools_choice ToolChoiceAllowedModeAuto names))
                  end
              end).
  { intros [->|[->| ->]]; simpl; destruct names as [|n ns]; try reflexivity;
      rewrite allowedToolParam_named; unfold allowed_tools_choice;
      destruct (named (n :: ns)); reflexivity. }
  assert (Hany : mode = FunctionCallingConfigModeAny ->
            convertToolChoice (tool_config mode names)
            = match names with
              | [] => Ok (Some (option_choice ToolChoiceOptionsRequired))
              | _ :: _ =>
                  match named names with
                  | [] => Ok None
                  | _ :: _ =>
                      Ok (Some (allowed_tools_choice ToolChoiceAllowedModeRequired names))
                  end
              end).
  { intros ->. simpl. destruct names as [|n ns]; try reflexivity.
    rewrite allowedToolParam_named; unfold allowed_tools_choice;
      destruct (named (n :: ns)); reflexivity. }
  assert (Hother : ¬ is_auto_mode mode -> mode ≠ FunctionCallingConfigModeNone ->
            mode ≠ FunctionCallingConfigModeAny ->
            convertToolChoice (tool_config mode names) = Err (unsupported_mode mode)).
  { intros Hna Hnn Hny. unfold is_auto_mode in Hna. simpl.
    destruct (String.eqb_spec mode "") as [E|_]; [tauto|].
    destruct (String.eqb_spec mode FunctionCallingConfigModeUnspecified) as [E|_]; [tauto|].
    destruct (String.eqb_spec mode FunctionCallingConfigModeAuto) as [E|_]; [tauto|].
    destruct (String.eqb_spec mode FunctionCallingConfigModeNone) as [E|_]; [tauto|].
    destruct (String.eqb_spec mode FunctionCallingConfigModeAny) as [E|_]; [tauto|].
    reflexivity. }
  repeat apply conj.
  - intros Ha ->. now rewrite Hauto.
  - intros Ha Hn. rewrite Hauto by assumption.
    destruct names as [|n ns]; [now contradict Hn|].
    destruct (named (n :: ns)); [now contradict Hn | reflexivity].
  - intros ->. reflexivity.
  - intros Hm ->. now rewrite Hany.
  - intros Hm Hn. rewrite Hany by assumption.
    destruct names as [|n ns]; [now contradict Hn|].
    destruct (named (n :: ns)); [now contradict Hn | reflexivity].
  - exact Hother.
  - intros Hne Hn [Ha|Hm]; [rewrite Hauto by assumption | rewrite Hany by assumption];
      destruct names as [|n ns]; try congruence; now rewrite Hn.
  - intros Hn choice.
    destruct (String.eqb_spec mode FunctionCallingConfigModeNone) as [->|Hnn].
    { simpl. intros [= <-]. reflexivity. }
    destruct (String.eqb_spec mode FunctionCallingConfigModeAny) as [Hm|Hny].
    { rewrite Hany by assumption. destruct names as [|n ns].
      - intros [= <-]. reflexivity.
      - rewrite Hn. discriminate. }
    destruct (is_auto_mode_dec mode) as [Ha|Hna].
    + rewrite Hauto by assumption. destruct names as [|n ns]; [discriminate|].
      rewrite Hn. discriminate.
    + rewrite Hother by assumption. discriminate.
Qed.

(** ** Settings the vendor does not support are reported *)

Lemma is_set_Some {A} (p : option A) : is_Some p -> is_set p = true.
Proof. intros [a ->]. reflexivity. Qed.

Lemma is_set_None {A} (p : option A) : p = None -> is_set p = false.
Proof. intros ->. reflexivity. Qed.

Lemma nonempty_length {A} (l : list A) : l ≠ [] -> (0 <? length l)%nat = true.
Proof. destruct l; [congruence | reflexivity]. Qed.

Section GapProperties.
Context `{Platform}.

(** The last two checks of [applyGenerationConfig], once the first four
    have passed: the error of the system instruction, the MIME type or the
    schema if there is one, then labels, then safety settings. *)
Lemma applyGenerationConfig_tail (params : ResponseNewParams.t)
  (cfg : GenerateContentConfig.t) :
  sampling_supported cfg ->
  (applyGenerationConfig params (Some cfg)).2
  = match output_error cfg with
    | Some e => Some e
    | None =>
        if is_set (GenerateContentConfig.Labels cfg)
        then Some (Sentinel ErrLabelsNotSupported)
        else if is_set (GenerateContentConfig.SafetySettings cfg)
        then Some (Sentinel ErrSafetySettingsNotSupported)
        else None
    end.
Proof.
  intros (Htopk & Hstop & Hcount & Hfreq & Hpres).
  unfold applyGenerationConfig, output_error.
  rewrite Htopk, Hstop, Hfreq, Hpres. cbn [is_set length Nat.ltb Nat.leb orb].
  replace (1 <? GenerateContentConfig.CandidateCount cfg) with false
    by (symmetry; apply Z.ltb_ge; assumption).
  assert (Hrest : ∀ p : ResponseNewParams.t,
            (let mime := GenerateContentConfig.ResponseMIMEType cfg in
             if negb (String.eqb mime "") && negb (String.eqb mime "text/plain")
                && negb (String.eqb mime "application/json")
             then (p, Some (unsupported_mime_type mime))
             else
               match
                 if String.eqb mime "application/json"
                    || is_set (GenerateContentConfig.ResponseSchema cfg)
                    || negb (is_nil (GenerateContentConfig.ResponseJsonSchema cfg))
                 then
                   match newJSONSchemaFormat cfg with
                   | Err e => Err e
                   | Ok format => Ok (set_Text (Some format) p)
                   end
                 else Ok p
               with
               | Err e => (p, Some e)
               | Ok params0 =>
                   if is_set (GenerateContentConfig.Labels cfg)
                   then (params0, Some (Sentinel ErrLabelsNotSupported))
                   else if is_set (GenerateContentConfig.SafetySettings cfg)
                   then (params0, Some (Sentinel ErrSafetySettingsNotSupported))
                   else (params0, None)
               end).2
            = (let mime := GenerateContentConfig.ResponseMIMEType cfg in
               match
                 if negb (String.eqb mime "") && negb (String.eqb mime "text/plain")
                    && negb (String.eqb mime "application/json")
                 then Some (unsupported_mime_type mime)
                 else if String.eqb mime "application/json"
                         || is_set (GenerateContentConfig.ResponseSchema cfg)
                         || negb (is_nil (GenerateContentConfig.ResponseJsonSchema cfg))
                 then match newJSONSchemaFormat cfg with
                      | Err e => Some e
                      | Ok _ => None
                      end
                 else None
               with
               | Some e => Some e
               | None =>
                   if is_set (GenerateContentConfig.Labels cfg)
                   then Some (Sentinel ErrLabelsNotSupported)
                   else if is_set (GenerateContentConfig.SafetySettings cfg)
                   then Some (Sentinel ErrSafetySettingsNotSupported)
                   else None
               end)).
  { intros p. cbv zeta.
    destruct (negb (String.eqb _ "") && _ && _); [reflexivity|].
    destruct (String.eqb _ "application/json" || _ || _);
      [destruct (newJSONSchemaFormat cfg); [|reflexivity]|];
      (destruct (is_set (GenerateContentConfig.Labels cfg)); [reflexivity|];
       destruct (is_set (GenerateContentConfig.SafetySettings cfg)); reflexivity). }
  destruct (GenerateContentConfig.SystemInstruction cfg) as [content|];
    cbn [flattenContentText].
  - destruct (flattenContentText_loop _ _) as [inst|e]; [|reflexivity].
    destruct (negb (String.eqb inst "")); apply Hrest.
  - apply Hrest.
Qed.

(** The first four checks, in their order. *)
Lemma applyGenerationConfig_head (params : ResponseNewParams.t)
  (cfg : GenerateContentConfig.t) :
  (is_Some (GenerateContentConfig.TopK cfg) ->
   (applyGenerationConfig params (Some cfg)).2 = Some (Sentinel ErrTopKNotSupported))
  ∧ (GenerateContentConfig.TopK cfg = None ->
     GenerateContentConfig.StopSequences cfg ≠ [] ->
     (applyGenerationConfig params (Some cfg)).2
     = Some (Sentinel ErrStopSequencesNotSupported))
  ∧ (GenerateContentConfig.TopK cfg = None ->
     GenerateContentConfig.StopSequences cfg = [] ->
     1 < GenerateContentConfig.CandidateCount cfg ->
     (applyGenerationConfig params (Some cfg)).2
     = Some (Sentinel ErrMultipleCandidatesNotSupported))
  ∧ (GenerateContentConfig.TopK cfg = None ->
     GenerateContentConfig.StopSequences cfg = [] ->
     GenerateContentConfig.CandidateCount cfg <= 1 ->
     is_Some (GenerateContentConfig.FrequencyPenalty cfg)
     ∨ is_Some (GenerateContentConfig.PresencePenalty cfg) ->
     (applyGenerationConfig params (Some cfg)).2
     = Some (Sentinel ErrPenaltiesNotSupported)).
Proof.
  unfold applyGenerationConfig. repeat apply conj.
  - intros Htopk. rewrite (is_set_Some _ Htopk). reflexivity.
  - intros Htopk Hstop. rewrite Htopk. simpl.
    rewrite (nonempty_length _ Hstop). reflexivity.
  - intros Htopk Hstop Hcount. rewrite Htopk, Hstop. simpl.
    replace (1 <? GenerateContentConfig.CandidateCount cfg) with true
      by (symmetry; apply Z.ltb_lt; assumption).
    reflexivity.
  - intros Htopk Hstop Hcount Hpen. rewrite Htopk, Hstop. simpl.
    replace (1 <? GenerateContentConfig.CandidateCount cfg) with false
      by (symmetry; apply Z.ltb_ge; assumption).
    replace (is_set (GenerateContentConfig.FrequencyPenalty cfg)
             || is_set (GenerateContentConfig.PresencePenalty cfg)) with true.
    + reflexivity.
    + symmetry. apply orb_true_iff.
      destruct Hpen as [Hp|Hp]; [left | right]; now apply is_set_Some.
Qed.

(** Whatever unsupported setting is set, the result is an error. *)
Lemma applyGenerationConfig_reports (params : ResponseNewParams.t)
  (cfg : GenerateContentConfig.t) :
  sets_unsupported cfg -> is_Some (applyGenerationConfig params (Some cfg)).2.
Proof.
  intros Hset.
  destruct (applyGenerationConfig_head params cfg) as (Htopk & Hstop & Hcount & Hpen).
  destruct (GenerateContentConfig.TopK cfg) as [k|] eqn:Ek.
  { rewrite Htopk by eauto. eauto. }
  destruct (GenerateContentConfig.StopSequences cfg) as [|s ss] eqn:Es.
  2: { rewrite Hstop by easy. eauto. }
  destruct (Z.lt_ge_cases 1 (GenerateContentConfig.CandidateCount cfg)) as [Hc|Hc].
  { rewrite Hcount by easy. eauto. }
  destruct (GenerateContentConfig.FrequencyPenalty cfg) as [f|] eqn:Ef.
  { rewrite Hpen; eauto. }
  destruct (GenerateContentConfig.PresencePenalty cfg) as [q|] eqn:Ep.
  { rewrite Hpen; eauto. }
  rewrite applyGenerationConfig_tail by (repeat split; assumption).
  destruct (output_error cfg) as [e|]; [eauto|].
  destruct Hset as [[? ?]|[?|[?|[[? ?]|[[? ?]|[Hl|Hs]]]]]]; try congruence; try lia.
  - rewrite (is_set_Some _ Hl). eauto.
  - rewrite (is_set_Some _ Hs).
    destruct (is_set (GenerateContentConfig.Labels cfg)); eauto.
Qed.

End GapProperties.

Section GapTheorem.
Context `{Platform}.

(** C8, as the code has it. A generation configuration that sets top-k,
    stop sequences, more than one candidate, a frequency or presence
    penalty, labels or safety settings is never accepted:
    [applyGenerationConfig] returns an error, and so does the request
    builder. The checks are made in a fixed order and the first that fails
    decides the error: top-k, stop sequences, candidate count and penalties
    come first, in this order, and each returns its own error value when
    none before it is set; labels and safety settings come last, after the
    system instruction, the response MIME type and the response schema, and
    each returns its own error value when those three pass, their error
    otherwise. The error values of the six settings are distinct values
    with distinct texts (the two penalties share one). *)
Theorem capability_gaps_are_reported (params : ResponseNewParams.t)
  (cfg : GenerateContentConfig.t) :
  (sets_unsupported cfg -> is_Some (applyGenerationConfig params (Some cfg)).2)
  ∧ (sets_unsupported cfg ->
     ∀ modelName (req : LLMRequest.t),
       LLMRequest.Config req = Some cfg ->
       ∃ e, buildOpenAIParams modelName (Some req) = Err e)
  ∧ (is_Some (GenerateContentConfig.TopK cfg) ->
     (applyGenerationConfig params (Some cfg)).2 = Some (Sentinel ErrTopKNotSupported))
  ∧ (GenerateContentConfig.TopK cfg = None ->
     GenerateContentConfig.StopSequences cfg ≠ [] ->
     (applyGenerationConfig params (Some cfg)).2
     = Some (Sentinel ErrStopSequencesNotSupported))
  ∧ (GenerateContentConfig.TopK cfg = None ->
     GenerateContentConfig.StopSequences cfg = [] ->
     1 < GenerateContentConfig.CandidateCount cfg ->
     (applyGenerationConfig params (Some cfg)).2
     = Some (Sentinel ErrMultipleCandidatesNotSupported))
  ∧ (GenerateContentConfig.TopK cfg = None ->
     GenerateContentConfig.StopSequences cfg = [] ->
     GenerateContentConfig.CandidateCount cfg <= 1 ->
     is_Some (GenerateContentConfig.FrequencyPenalty cfg)
     ∨ is_Some (GenerateContentConfig.PresencePenalty cfg) ->
     (applyGenerationConfig params (Some cfg)).2
     = Some (Sentinel ErrPenaltiesNotSupported))
  ∧ (sampling_supported cfg -> is_Some (GenerateContentConfig.Labels cfg) ->
     (applyGenerationConfig params (Some cfg)).2
     = Some (default (Sentinel ErrLabelsNotSupported) (output_error cfg)))
  ∧ (sampling_supported cfg -> GenerateContentConfig.Labels cfg = None ->
     is_Some (GenerateContentConfig.SafetySettings cfg) ->
     (applyGenerationConfig params (Some cfg)).2
     = Some (default (Sentinel ErrSafetySettingsNotSupported) (output_error cfg)))
  ∧ NoDup gap_errors
  ∧ NoDup (sentinel_text <$> gap_errors).
Proof.
  destruct (applyGenerationConfig_head params cfg) as (Htopk & Hstop & Hcount & Hpen).
  split; [apply applyGenerationConfig_reports|].
  split.
  { intros Hset modelName req Hcfg. unfold buildOpenAIParams.
    destruct (convertContents (LLMRequest.Contents req)) as [input|e]; simpl; [|eauto].
    destruct input as [|item input]; [eauto|].
    rewrite Hcfg. cbv zeta.
    set (p0 := initial_params _ _).
    destruct (applyGenerationConfig_reports p0 cfg Hset) as [e He].
    destruct (applyGenerationConfig p0 (Some cfg)) as [p r].
    simpl in He. subst r. eauto. }
  split; [exact Htopk|]. split; [exact Hstop|]. split; [exact Hcount|].
  split; [exact Hpen|].
  split; [|split; [|split]].
  - intros Hs Hl. rewrite applyGenerationConfig_tail by assumption.
    rewrite (is_set_Some _ Hl). destruct (output_error cfg); reflexivity.
  - intros Hs Hl Hsafe. rewrite applyGenerationConfig_tail by assumption.
    rewrite (is_set_None _ Hl), (is_set_Some _ Hsafe).
    destruct (output_error cfg); reflexivity.
  - apply (bool_decide_unpack _). vm_compute. reflexivity.
  - apply (bool_decide_unpack _). vm_compute. reflexivity.
Qed.

End GapTheorem.

(** ** The streaming translator *)

Section StreamProperties.
Context `{Platform}.

(** C9. Forward compatibility: an event of a kind the translator does not
    name yields no output and no error, and leaves the translator, its
    buffers included, as it was. *)
Theorem unrecognized_event_is_ignored (t : streamTranslator)
  (evt : ResponseStreamEventUnion.t) :
  ResponseStreamEventUnion.Type_ evt ∉ recognized_event_kinds ->
  process t evt = (t, Ok None).
Proof.
  intros Hnot. unfold process. cbv zeta.
  repeat
    match goal with
    | |- context [String.eqb (ResponseStreamEventUnion.Type_ evt) ?kind] =>
        destruct (String.eqb_spec (ResponseStreamEventUnion.Type_ evt) kind) as [E|_];
        [ exfalso; apply Hnot; rewrite E; unfold recognized_event_kinds;
          apply list_elem_of_In; simpl; tauto | ]
    end.
  reflexivity.
Qed.

(** [emitFunctionCall] in one equation: the entry of the item is deleted,
    and the payload parsed is [done_payload]. *)
Lemma emitFunctionCall_payload (t : streamTranslator) (done : ResponseStreamEventUnion.t) :
  emitFunctionCall t done
  = ({| functionArgs := delete (ResponseStreamEventUnion.ItemID done) (functionArgs t) |},
     match json_Unmarshal (done_payload t done) None with
     | Err e => Err (Errorf "openai: parse streamed function args: %w" [OpError e])
     | Ok args =>
         Ok (function_call_part
               {| FunctionCall.Name := ResponseStreamEventUnion.Name done;
                  FunctionCall.ID := ResponseStreamEventUnion.ItemID done;
                  FunctionCall.Args := args |})
     end).
Proof.
  unfold emitFunctionCall, done_payload. cbv zeta.
  destruct (String.eqb (ResponseStreamEventUnion.Arguments done) "") eqn:Eargs; simpl.
  - destruct (functionArgs t !! ResponseStreamEventUnion.ItemID done) as [b|].
    + destruct (String.eqb b ""); simpl; destruct (json_Unmarshal _ None); reflexivity.
    + rewrite Eargs. destruct (json_Unmarshal _ None); reflexivity.
  - rewrite Eargs. destruct (json_Unmarshal _ None); reflexivity.
Qed.

(** The case of [process] for a done event. *)
Lemma process_done_case (t : streamTranslator) (evt : ResponseStreamEventUnion.t) :
  ResponseStreamEventUnion.Type_ evt = responseFunctionCallArgumentsDone ->
  process t evt
  = match emitFunctionCall t evt with
    | (t1, Err e) => (t1, Err e)
    | (t1, Ok part) => (t1, Ok (singlePartResponse (Some part)))
    end.
Proof.
  intros Hty. unfold process. cbv zeta. rewrite Hty. reflexivity.
Qed.


End StreamProperties.

(** ** Deltas and done events without item identifier *)

Lemma alter_append (m : gmap string string) (key text s : string) :
  m !! key = Some text ->
  alter (fun b => b +:+ s) key m = <[key := text +:+ s]> m.
Proof.
  intros Hk. apply map_eq. intros k.
  rewrite lookup_alter, lookup_insert.
  destruct (decide (key = k)) as [<-|_]; [now rewrite Hk | reflexivity].
Qed.

Section EmptyIdentifier.
Context `{Platform}.

(** What a delta event does to the buffers: the text is appended under the
    item identifier, under [default] when the identifier is empty. *)
Lemma process_delta (t : streamTranslator) (evt : ResponseStreamEventUnion.t) :
  ResponseStreamEventUnion.Type_ evt = responseFunctionCallArgumentsDelta ->
  ResponseStreamEventUnion.Delta evt ≠ "" ->
  process t evt
  = (let key := if String.eqb (ResponseStreamEventUnion.ItemID evt) "" then "default"
                else ResponseStreamEventUnion.ItemID evt in
     ({| functionArgs :=
           <[key := default "" (functionArgs t !! key)
                    +:+ ResponseStreamEventUnion.Delta evt]> (functionArgs t) |},
      Ok None)).
Proof.
  intros Hty Hdelta. unfold process. cbv zeta. rewrite Hty.
  cbn [String.eqb Ascii.eqb Bool.eqb]. rewrite (eqb_empty_false _ Hdelta).
  cbn [negb]. unfold buffer. cbv zeta.
  destruct (functionArgs t !! _) as [text|] eqn:E; unfold WriteString; simpl.
  - now rewrite (alter_append _ _ text).
  - rewrite (alter_append _ _ ""), insert_insert_eq; [reflexivity|].
    apply lookup_insert_eq.
Qed.

Lemma process_other (t : streamTranslator) (evt : ResponseStreamEventUnion.t) :
  ResponseStreamEventUnion.Type_ evt ≠ responseFunctionCallArgumentsDelta ->
  ResponseStreamEventUnion.Type_ evt ≠ responseFunctionCallArgumentsDone ->
  (process t evt).1 = t.
Proof.
  intros Hdelta Hdone. unfold process. cbv zeta.
  destruct (String.eqb_spec (ResponseStreamEventUnion.Type_ evt)
              responseFunctionCallArgumentsDelta) as [E|_]; [contradiction|].
  destruct (String.eqb_spec (ResponseStreamEventUnion.Type_ evt)
              responseFunctionCallArgumentsDone) as [E|_]; [contradiction|].
  repeat
    match goal with
    | |- context [if ?b then _ else _] => destruct b
    end; reflexivity.
Qed.

(** The buffers after any event, by the kind of the event. *)
Lemma process_functionArgs (t : streamTranslator) (evt : ResponseStreamEventUnion.t) :
  let key := if String.eqb (ResponseStreamEventUnion.ItemID evt) "" then "default"
             else ResponseStreamEventUnion.ItemID evt in
  functionArgs (process t evt).1 = functionArgs t
  ∨ functionArgs (process t evt).1
    = <[key := default "" (functionArgs t !! key)
               +:+ ResponseStreamEventUnion.Delta evt]> (functionArgs t)
  ∨ ResponseStreamEventUnion.Type_ evt = responseFunctionCallArgumentsDone
    ∧ functionArgs (process t evt).1
      = delete (ResponseStreamEventUnion.ItemID evt) (functionArgs t).
Proof.
  intros key.
  destruct (decide (ResponseStreamEventUnion.Type_ evt = responseFunctionCallArgumentsDone))
    as [Hdone|Hdone].
  { right. right. split; [assumption|].
    rewrite process_done_case, emitFunctionCall_payload by assumption.
    destruct (json_Unmarshal _ None); reflexivity. }
  destruct (decide (ResponseStreamEventUnion.Type_ evt = responseFunctionCallArgumentsDelta))
    as [Hdelta|Hdelta].
  - destruct (decide (ResponseStreamEventUnion.Delta evt = "")) as [Hempty|Hempty].
    + left. unfold process. cbv zeta. rewrite Hdelta, Hempty. reflexivity.
    + right. left. now rewrite process_delta.
  - left. now rewrite process_other.
Qed.

Lemma process_empty_key (t : streamTranslator) (evt : ResponseStreamEventUnion.t) :
  functionArgs t !! "" = None -> functionArgs (process t evt).1 !! "" = None.
Proof.
  intros Hnone.
  destruct (process_functionArgs t evt) as [-> | [-> | [_ ->]]].
  - assumption.
  - rewrite lookup_insert_ne; [assumption|].
    destruct (String.eqb_spec (ResponseStreamEventUnion.ItemID evt) ""); congruence.
  - apply lookup_delete_None. now right.
Qed.

Lemma process_all_empty_key (events : list ResponseStreamEventUnion.t)
  (t : streamTranslator) :
  functionArgs t !! "" = None -> functionArgs (process_all t events) !! "" = None.
Proof.
  revert t. induction events as [|evt rest IH]; intros t Hnone; simpl; [assumption|].
  pose proof (process_empty_key t evt Hnone) as Hstep.
  destruct (process t evt) as [t1 [r|e]]; simpl in Hstep; [now apply IH | assumption].
Qed.

Lemma process_keeps_entry (t : streamTranslator) (evt : ResponseStreamEventUnion.t)
  (key : string) :
  is_Some (functionArgs t !! key) ->
  (ResponseStreamEventUnion.Type_ evt = responseFunctionCallArgumentsDone ->
   ResponseStreamEventUnion.ItemID evt ≠ key) ->
  is_Some (functionArgs (process t evt).1 !! key).
Proof.
  intros Hsome Hother.
  destruct (process_functionArgs t evt) as [-> | [-> | [Hdone ->]]].
  - assumption.
  - apply lookup_insert_is_Some'. now right.
  - apply lookup_delete_is_Some. split; [now apply Hother | assumption].
Qed.

Lemma process_all_keeps_entry (events : list ResponseStreamEventUnion.t)
  (t : streamTranslator) (key : string) :
  is_Some (functionArgs t !! key) ->
  (∀ evt, evt ∈ events ->
          ResponseStreamEventUnion.Type_ evt = responseFunctionCallArgumentsDone ->
          ResponseStreamEventUnion.ItemID evt ≠ key) ->
  is_Some (functionArgs (process_all t events) !! key).
Proof.
  revert t. induction events as [|evt rest IH]; intros t Hsome Hother; simpl;
    [assumption|].
  assert (Hstep : is_Some (functionArgs (process t evt).1 !! key)).
  { apply process_keeps_entry; [assumption|]. apply Hother. apply elem_of_cons. now left. }
  destruct (process t evt) as [t1 [r|e]]; simpl in Hstep; [|assumption].
  apply IH; [assumption|]. intros e He. apply Hother. apply elem_of_cons. now right.
Qed.

(** What an event does to the buffers, with the text of a delta that
    changes them. *)
Lemma process_buffers (t : streamTranslator) (evt : ResponseStreamEventUnion.t) :
  functionArgs (process t evt).1 = functionArgs t
  ∨ (ResponseStreamEventUnion.Type_ evt = responseFunctionCallArgumentsDelta
     ∧ ResponseStreamEventUnion.Delta evt ≠ ""
     ∧ functionArgs (process t evt).1
       = <[event_key evt := default "" (functionArgs t !! event_key evt)
                            +:+ ResponseStreamEventUnion.Delta evt]> (functionArgs t))
  ∨ (ResponseStreamEventUnion.Type_ evt = responseFunctionCallArgumentsDone
     ∧ functionArgs (process t evt).1 = delete (event_key evt) (functionArgs t)).
Proof.
  destruct (decide (ResponseStreamEventUnion.Type_ evt = responseFunctionCallArgumentsDone))
    as [Hdone|Hdone].
  { right. right. split; [assumption|].
    unfold event_key. rewrite Hdone. cbn [String.eqb Ascii.eqb Bool.eqb andb].
    rewrite process_done_case, emitFunctionCall_payload by assumption.
    destruct (json_Unmarshal _ None); reflexivity. }
  destruct (decide (ResponseStreamEventUnion.Type_ evt = responseFunctionCallArgumentsDelta))
    as [Hdelta|Hdelta].
  - destruct (decide (ResponseStreamEventUnion.Delta evt = "")) as [Hempty|Hempty].
    + left. unfold process. cbv zeta. rewrite Hdelta, Hempty. reflexivity.
    + right. left. split; [assumption|]. split; [assumption|].
      rewrite process_delta by assumption.
      unfold event_key. rewrite Hdelta, String.eqb_refl. reflexivity.
  - left. now rewrite process_other.
Qed.

Lemma process_all_nonempty_buffers (events : list ResponseStreamEventUnion.t)
  (t : streamTranslator) :
  (∀ key text, functionArgs t !! key = Some text -> text ≠ "") ->
  ∀ key text, functionArgs (process_all t events) !! key = Some text -> text ≠ "".
Proof.
  revert t. induction events as [|evt rest IH]; intros t Hinv; [exact Hinv|].
  assert (Hstep : ∀ key text,
            functionArgs (process t evt).1 !! key = Some text -> text ≠ "").
  { intros key text.
    destruct (process_buffers t evt) as [-> | [(_ & Hdelta & ->) | [_ ->]]].
    - apply Hinv.
    - rewrite lookup_insert. destruct (decide (event_key evt = key)) as [_|_].
      + intros [= <-]. now apply append_nonempty_r.
      + apply Hinv.
    - rewrite lookup_delete. destruct (decide (event_key evt = key)); [discriminate|].
      apply Hinv. }
  simpl. destruct (process t evt) as [t1 [r|e]]; simpl in Hstep.
  - now apply IH.
  - exact Hstep.
Qed.

(** C10, as the code has it. At any point of a stream:
    - a function-call-arguments delta without item identifier appends its
      text to the buffer kept under [default];
    - a function-call-arguments done event without item identifier and
      without arguments of its own looks under the empty key, where nothing
      is ever kept: it emits a function call with an empty argument map,
      whatever the deltas brought, and leaves every buffer entry, [default]
      included, in place;
    - the entry under [default] then stays for as long as no done event
      arrives whose item identifier is [default] itself;
    - a done event whose item identifier is [default] removes the entry,
      whatever else it brings; its payload is the buffered text when it
      brings no arguments of its own, and its own arguments, the buffered
      text being dropped, when it brings some. *)
Theorem empty_item_identifier (events : list ResponseStreamEventUnion.t) :
  (∀ evt,
     ResponseStreamEventUnion.Type_ evt = responseFunctionCallArgumentsDelta ->
     ResponseStreamEventUnion.ItemID evt = "" ->
     ResponseStreamEventUnion.Delta evt ≠ "" ->
     process (after_events events) evt
     = ({| functionArgs :=
             <["default" :=
                 default "" (functionArgs (after_events events) !! "default")
                 +:+ ResponseStreamEventUnion.Delta evt]>
               (functionArgs (after_events events)) |},
        Ok None))
  ∧ (∀ evt,
       ResponseStreamEventUnion.Type_ evt = responseFunctionCallArgumentsDone ->
       ResponseStreamEventUnion.ItemID evt = "" ->
       ResponseStreamEventUnion.Arguments evt = "" ->
       process (after_events events) evt
       = (after_events events,
          Ok (Some (function_call_response "" (ResponseStreamEventUnion.Name evt)
                      (Some ∅)))))
  ∧ (∀ later,
       is_Some (functionArgs (after_events events) !! "default") ->
       (∀ evt, evt ∈ later ->
               ResponseStreamEventUnion.Type_ evt = responseFunctionCallArgumentsDone ->
               ResponseStreamEventUnion.ItemID evt ≠ "default") ->
       is_Some (functionArgs (process_all (after_events events) later) !! "default"))
  ∧ (∀ evt,
       ResponseStreamEventUnion.Type_ evt = responseFunctionCallArgumentsDone ->
       ResponseStreamEventUnion.ItemID evt = "default" ->
       functionArgs (process (after_events events) evt).1
       = delete "default" (functionArgs (after_events events))
       ∧ (ResponseStreamEventUnion.Arguments evt = "" ->
          ∀ text,
            functionArgs (after_events events) !! "default" = Some text ->
            (process (after_events events) evt).2
            = match json_Unmarshal text None with
              | Err e =>
                  Err (Errorf "openai: parse streamed function args: %w" [OpError e])
              | Ok args =>
                  Ok (Some (function_call_response "default"
                              (ResponseStreamEventUnion.Name evt) args))
              end)
       ∧ (ResponseStreamEventUnion.Arguments evt ≠ "" ->
          (process (after_events events) evt).2
          = match json_Unmarshal (ResponseStreamEventUnion.Arguments evt) None with
            | Err e =>
                Err (Errorf "openai: parse streamed function args: %w" [OpError e])
            | Ok args =>
                Ok (Some (function_call_response "default"
                            (ResponseStreamEventUnion.Name evt) args))
            end)).
Proof.
  assert (Hempty : functionArgs (after_events events) !! "" = None).
  { apply process_all_empty_key. reflexivity. }
  split; [|split; [|split]].
  - intros evt Hty Hid Hdelta. rewrite process_delta by assumption.
    rewrite Hid. reflexivity.
  - intros evt Hty Hid Hargs.
    rewrite process_done_case, emitFunctionCall_payload by assumption.
    unfold done_payload. rewrite Hid, Hargs, Hempty. simpl.
    rewrite json_Unmarshal_empty_object, delete_id by assumption.
    destruct (after_events events). reflexivity.
  - intros later Hsome Hother. now apply process_all_keeps_entry.
  - intros evt Hty Hid.
    rewrite process_done_case, emitFunctionCall_payload by assumption.
    rewrite Hid. split; [|split].
    + destruct (json_Unmarshal _ None); reflexivity.
    + intros Hargs text Htext.
      assert (Hfilled : text ≠ "").
      { apply (process_all_nonempty_buffers events newStreamTranslator) with "default";
          [|exact Htext].
        intros key b Hkey. unfold newStreamTranslator in Hkey. cbn [functionArgs] in Hkey.
        now rewrite lookup_empty in Hkey. }
      unfold done_payload. rewrite Hargs, Hid, Htext. cbn [String.eqb negb].
      rewrite (eqb_empty_false _ Hfilled). cbn [negb].
      destruct (json_Unmarshal text None); reflexivity.
    + intros Hargs. unfold done_payload. rewrite (eqb_empty_false _ Hargs). cbn [negb].
      destruct (json_Unmarshal _ None); reflexivity.
Qed.

End EmptyIdentifier.

(** * Further properties of the request builder *)

(** ** Calls and responses without identifiers *)

Section FifoProperties.
Context `{Platform}.

Lemma run_ops_app (t : callTracker) (ops1 ops2 : list trackerOp) :
  run_ops t (ops1 ++ ops2) = run_ops (run_ops t ops1) ops2.
Proof.
  revert t. induction ops1 as [|op rest IH]; intros t; simpl; [reflexivity | apply IH].
Qed.

(** The calls of a run of named calls without identifier are registered
    under consecutive generated identifiers. *)
Lemma run_ops_calls (calls : list FunctionCall.t) (t : callTracker) :
  Forall (fun fc => FunctionCall.Name fc ≠ "" ∧ FunctionCall.ID fc = "") calls ->
  0 <= nextID t -> nextID t + Z.of_nat (length calls) < 2 ^ 63 ->
  run_ops t (OpCall <$> calls)
  = {| nextID := nextID t + Z.of_nat (length calls);
       pending := pending t
                  ++ (generated_call_id <$> seqZ (nextID t) (Z.of_nat (length calls))) |}.
Proof.
  intros Hcalls. revert t.
  induction Hcalls as [|fc rest [Hname Hid] _ IH]; intros t Hpos Hbound.
  - simpl. rewrite Z.add_0_r, app_nil_r. destruct t; reflexivity.
  - cbn [fmap list_fmap run_ops apply_op]. simpl length in *.
    rewrite newFunctionCall_registered, Hid by assumption. cbn [String.eqb].
    rewrite wrap_int_small by lia.
    rewrite IH by (simpl; lia). simpl nextID. simpl pending.
    rewrite (seqZ_cons (nextID t) (Z.of_nat (S (length rest)))) by lia.
    rewrite fmap_cons, <- app_assoc. simpl.
    replace (Z.pred (Z.of_nat (S (length rest)))) with (Z.of_nat (length rest)) by lia.
    replace (Z.succ (nextID t)) with (nextID t + 1) by lia.
    f_equal. lia.
Qed.

(** Responses without identifier take the pending entries off in order. *)
Lemma run_ops_responses (frs : list FunctionResponse.t) (t : callTracker) :
  Forall (fun fr => FunctionResponse.ID fr = "") frs ->
  (length frs <= length (pending t))%nat ->
  run_ops t (OpResponse <$> frs)
  = {| nextID := nextID t; pending := drop (length frs) (pending t) |}.
Proof.
  intros Hfrs. revert t.
  induction Hfrs as [|fr rest Hid _ IH]; intros t Hlen.
  - simpl. destruct t; reflexivity.
  - cbn [fmap list_fmap run_ops apply_op].
    destruct (pending t) as [|oldest others] eqn:Hp; [simpl in Hlen; lia|].
    destruct (newFunctionResponse_matchPending t fr) as [-> _].
    rewrite (matchPending_oldest t fr oldest others) by assumption.
    cbn [fst]. rewrite IH by (simpl in *; lia). reflexivity.
Qed.

(** X1. First in, first out. From a tracker with nothing pending, after
    any number of named calls without identifier: the call number [i] got
    the generated identifier number [i] (counted from the tracker's
    counter), and once [i] responses without identifier have been matched,
    the next response without identifier is matched to the identifier of
    the call number [i]. *)
Theorem responses_answer_calls_in_order (t : callTracker)
  (calls : list FunctionCall.t) (frs : list FunctionResponse.t)
  (fr : FunctionResponse.t) :
  pending t = [] -> 0 <= nextID t ->
  nextID t + Z.of_nat (length calls) < 2 ^ 63 ->
  Forall (fun fc => FunctionCall.Name fc ≠ "" ∧ FunctionCall.ID fc = "") calls ->
  Forall (fun fr => FunctionResponse.ID fr = "") (fr :: frs) ->
  (length frs < length calls)%nat ->
  (∀ fc p, calls !! length frs = Some fc ->
     (newFunctionCall (run_ops t (OpCall <$> take (length frs) calls)) fc).2 = Ok p ->
     ResponseFunctionToolCallParam.CallID p
     = generated_call_id (nextID t + Z.of_nat (length frs)))
  ∧ (∀ p,
       (newFunctionResponse
          (run_ops t ((OpCall <$> calls) ++ (OpResponse <$> frs))) fr).2 = Ok p ->
       ResponseInputItemFunctionCallOutputParam.CallID p
       = generated_call_id (nextID t + Z.of_nat (length frs))).
Proof.
  intros Hp Hpos Hbound Hcalls Hfrs Hlen.
  apply Forall_cons in Hfrs as [Hfr Hfrs].
  split.
  - intros fc p Hfc Hok.
    assert (Htake : Forall (fun fc => FunctionCall.Name fc ≠ "" ∧ FunctionCall.ID fc = "")
                      (take (length frs) calls)) by now apply Forall_take.
    rewrite run_ops_calls in Hok by (try assumption; rewrite length_take; lia).
    rewrite length_take, Nat.min_l in Hok by lia.
    pose proof (proj1 (Forall_lookup _ _) Hcalls _ _ Hfc) as [Hname Hid].
    unfold newFunctionCall in Hok.
    rewrite (eqb_empty_false _ Hname), Hid in Hok. simpl in Hok.
    destruct (json_Marshal _); simpl in Hok; [|discriminate].
    injection Hok as <-. reflexivity.
  - intros p Hok.
    rewrite run_ops_app, run_ops_calls in Hok by assumption.
    rewrite run_ops_responses in Hok
      by (try assumption; simpl; rewrite Hp, length_app, length_fmap, length_seqZ; simpl; lia).
    destruct (newFunctionResponse_matchPending
                {| nextID := nextID t + Z.of_nat (length calls);
                   pending := drop (length frs)
                                (pending t
                                 ++ (generated_call_id
                                     <$> seqZ (nextID t) (Z.of_nat (length calls)))) |} fr)
      as [_ Hcall].
    specialize (Hcall p Hok). rewrite Hp in Hcall. simpl in Hcall.
    assert (Hdrop : ∃ rest,
              drop (length frs)
                (generated_call_id <$> seqZ (nextID t) (Z.of_nat (length calls)))
              = generated_call_id (nextID t + Z.of_nat (length frs)) :: rest).
    { assert (Hlook : (generated_call_id <$> seqZ (nextID t) (Z.of_nat (length calls)))
                      !! length frs
                      = Some (generated_call_id (nextID t + Z.of_nat (length frs)))).
      { rewrite list_lookup_fmap, lookup_seqZ_lt by lia. reflexivity. }
      eexists. apply drop_S. exact Hlook. }
    destruct Hdrop as [rest Hdrop].
    rewrite (matchPending_oldest _ fr _ rest) in Hcall by (try assumption; exact Hdrop).
    simpl in Hcall. congruence.
Qed.

End FifoProperties.

(** ** Outputs answer calls of the same request *)

Lemma issued_call_ids_app (l k : list ResponseInputItemUnionParam) :
  issued_call_ids (l ++ k) = issued_call_ids l ++ issued_call_ids k.
Proof. unfold issued_call_ids. apply omap_app. Qed.

Lemma outputs_answer_calls_snoc (items : list ResponseInputItemUnionParam)
  (item : ResponseInputItemUnionParam) :
  outputs_answer_calls items ->
  (∀ out, item = OfFunctionCallOutput out ->
          ResponseInputItemFunctionCallOutputParam.CallID out ∈ issued_call_ids items) ->
  outputs_answer_calls (items ++ [item]).
Proof.
  intros Hitems Hitem i out Hlook.
  destruct (decide (i < length items)%nat) as [Hlt|Hge].
  - rewrite lookup_app_l in Hlook by assumption.
    rewrite take_app_le by lia. now apply Hitems.
  - rewrite lookup_app_r in Hlook by lia.
    destruct (i - length items)%nat as [|n] eqn:E; simpl in Hlook; [|discriminate].
    injection Hlook as ->.
    replace i with (length items) by lia.
    rewrite take_app_length. now apply Hitem.
Qed.

Section AnswerProperties.
Context `{Platform}.

Lemma flushText_answers (st st' : convertState) :
  flushText st = Ok st' -> answers_so_far st -> answers_so_far st'.
Proof.
  unfold flushText. destruct (textParts st); [now intros [= <-]|].
  destruct (newMessage _ _) as [[msg|]|e]; simpl; try discriminate;
    intros [= <-] [Hout Hpend]; split; simpl; try assumption.
  - apply outputs_answer_calls_snoc; [assumption | discriminate].
  - intros id Hid. rewrite issued_call_ids_app. apply elem_of_app. left. now apply Hpend.
Qed.

Lemma newFunctionCall_issued (t t' : callTracker) (fc : FunctionCall.t)
  (call : ResponseFunctionToolCallParam.t) :
  newFunctionCall t fc = (t', Ok call) ->
  pending t' = pending t ++ [ResponseFunctionToolCallParam.CallID call].
Proof.
  unfold newFunctionCall.
  destruct (String.eqb (FunctionCall.Name fc) ""); [discriminate|].
  destruct (String.eqb (FunctionCall.ID fc) ""); simpl;
    destruct (json_Marshal _); simpl; intros [= <- <-]; reflexivity.
Qed.

Lemma matchPending_pending (t t' : callTracker) (fr : FunctionResponse.t) (id : string) :
  matchPending t fr = (t', Ok id) -> id ∈ pending t.
Proof.
  unfold matchPending.
  destruct (String.eqb (FunctionResponse.ID fr) "").
  - destruct (pending t) as [|oldest rest]; [discriminate|].
    intros [= _ <-]. apply list_elem_of_here.
  - destruct (find_pending _ _ _) as [i|] eqn:E; [|discriminate].
    intros [= _ <-].
    apply find_pending_found in E as (before & after & -> & _ & _).
    apply elem_of_app. right. apply list_elem_of_here.
Qed.

Lemma newFunctionResponse_pending (t t' : callTracker) (fr : FunctionResponse.t)
  (out : ResponseInputItemFunctionCallOutputParam.t) :
  newFunctionResponse t fr = (t', Ok out) ->
  ResponseInputItemFunctionCallOutputParam.CallID out ∈ pending t
  ∧ pending t' `sublist_of` pending t.
Proof.
  intros Hok.
  destruct (newFunctionResponse_matchPending t fr) as [Ht Hcall].
  rewrite Hok in Ht, Hcall. simpl in Ht, Hcall.
  specialize (Hcall out eq_refl).
  destruct (matchPending t fr) as [t1 r] eqn:E. simpl in *. subst.
  split.
  - eapply matchPending_pending. exact E.
  - pose proof (matchPending_sublist t fr) as [_ Hsub]. now rewrite E in Hsub.
Qed.

Lemma convertContents_parts_answers (parts : list (option Part.t))
  (st st' : convertState) :
  convertContents_parts parts st = Ok st' -> answers_so_far st -> answers_so_far st'.
Proof.
  revert st. induction parts as [|[part|] rest IH]; intros st; simpl.
  - now intros [= <-].
  - destruct (negb (String.eqb (Part.Text part) "")).
    { intros Hok Hst. apply (IH _ Hok). exact Hst. }
    destruct (Part.FunctionCall part) as [fc|].
    + destruct (flushText st) as [st1|e] eqn:Hflush; simpl; [|discriminate].
      destruct (newFunctionCall (tracker st1) fc) as [t [call|e]] eqn:Hcall; [|discriminate].
      intros Hok Hst. apply (IH _ Hok).
      apply (flushText_answers _ _ Hflush) in Hst as [Hout Hpend].
      apply newFunctionCall_issued in Hcall.
      split; simpl.
      * apply outputs_answer_calls_snoc; [assumption | discriminate].
      * intros id Hid. rewrite issued_call_ids_app. rewrite Hcall in Hid.
        apply elem_of_app in Hid as [Hid|Hid]; apply elem_of_app.
        -- left. now apply Hpend.
        -- right. exact Hid.
    + destruct (Part.FunctionResponse part) as [fr|]; [|discriminate].
      destruct (flushText st) as [st1|e] eqn:Hflush; simpl; [|discriminate].
      destruct (newFunctionResponse (tracker st1) fr) as [t [out|e]] eqn:Hresp;
        [|discriminate].
      intros Hok Hst. apply (IH _ Hok).
      apply (flushText_answers _ _ Hflush) in Hst as [Hout Hpend].
      apply newFunctionResponse_pending in Hresp as [Hin Hsub].
      split; simpl.
      * apply outputs_answer_calls_snoc; [assumption|].
        intros out' [= <-]. now apply Hpend.
      * intros id Hid. rewrite issued_call_ids_app. apply elem_of_app. left.
        apply Hpend. eapply elem_of_sublist; eassumption.
  - apply IH.
Qed.

Lemma convertContents_loop_answers (contents : list (option Content.t))
  (st st' : convertState) :
  convertContents_loop contents st = Ok st' -> answers_so_far st -> answers_so_far st'.
Proof.
  revert st. induction contents as [|[content|] rest IH]; intros st; simpl.
  - now intros [= <-].
  - destruct (Content.Parts content) as [|p ps]; [apply IH|].
    destruct (convertContents_parts _ _) as [st1|e] eqn:Hparts; simpl; [|discriminate].
    destruct (flushText st1) as [st2|e] eqn:Hflush; simpl; [|discriminate].
    intros Hok Hst. apply (IH _ Hok).
    apply (flushText_answers _ _ Hflush).
    apply (convertContents_parts_answers _ _ _ Hparts).
    exact Hst.
  - apply IH.
Qed.

(** X2. In the items of a converted request, every function-call output
    carries the call identifier of a function-call item that stands before
    it: a response is never sent for a call the same request did not
    issue. *)
Theorem outputs_answer_earlier_calls (contents : list (option Content.t))
  (items : list ResponseInputItemUnionParam) :
  convertContents contents = Ok items -> outputs_answer_calls items.
Proof.
  unfold convertContents.
  destruct (convertContents_loop contents _) as [st|e] eqn:Hloop; simpl; [|discriminate].
  intros [= <-].
  apply (convertContents_loop_answers _ _ _ Hloop).
  split; simpl.
  - intros i out Hlook. now rewrite lookup_nil in Hlook.
  - intros id Hid. now apply elem_of_nil in Hid.
Qed.

End AnswerProperties.

(** ** Text *)

Lemma newMessage_contentList_input_texts (texts : list string) :
  newMessage_contentList texts = input_texts texts.
Proof.
  unfold input_texts. induction texts as [|txt rest IH]; simpl; [reflexivity|].
  rewrite filter_cons.
  destruct (TrimSpace_is_empty txt) eqn:E.
  - destruct (decide (true = false)) as [Hcontra|_]; [discriminate | exact IH].
  - destruct (decide (false = false)) as [_|Hcontra]; [|congruence].
    rewrite fmap_cons, IH. reflexivity.
Qed.

Lemma part_texts_app (l k : list (option Part.t)) :
  part_texts (l ++ k) = part_texts l ++ part_texts k.
Proof. unfold part_texts. apply omap_app. Qed.

Section TextProperties.
Context `{Platform}.

(** Over text parts, the inner loop only collects the texts. *)
Lemma convertContents_parts_texts (parts : list (option Part.t)) (st : convertState) :
  (∀ part, Some part ∈ parts -> Part.Text part ≠ "") ->
  convertContents_parts parts st
  = Ok {| items := items st; tracker := tracker st;
          textParts := textParts st ++ part_texts parts;
          curRole := curRole st |}.
Proof.
  revert st. induction parts as [|[part|] rest IH]; intros st Htext; simpl.
  - rewrite app_nil_r. destruct st; reflexivity.
  - rewrite (eqb_empty_false (Part.Text part)) by (apply Htext; apply list_elem_of_here).
    simpl. rewrite IH by (intros p Hp; apply Htext; now apply list_elem_of_further).
    simpl. rewrite <- app_assoc. reflexivity.
  - rewrite IH by (intros p Hp; apply Htext; now apply list_elem_of_further).
    reflexivity.
Qed.

(** Flushing the texts of a content whose role is known (or that has no
    text): its message, if it has one, is appended. *)
Lemma flushText_text_message (st : convertState) (content : Content.t) :
  curRole st = Content.Role content ->
  textParts st = part_texts (Content.Parts content) ->
  (part_texts (Content.Parts content) ≠ [] ->
   ∃ role, normalizeRole (Content.Role content) = Ok role) ->
  flushText st
  = Ok {| items := items st ++ option_list (text_message content);
          tracker := tracker st; textParts := []; curRole := curRole st |}.
Proof.
  intros Hrole Htexts Hknown. unfold flushText, text_message.
  rewrite Htexts, Hrole.
  destruct (part_texts (Content.Parts content)) as [|txt txts] eqn:E.
  - unfold input_texts. simpl.
    destruct (normalizeRole (Content.Role content)); simpl; rewrite app_nil_r;
      destruct st; simpl in *; congruence.
  - destruct Hknown as [role Hknown]; [discriminate|].
    unfold newMessage. rewrite Hknown, newMessage_contentList_input_texts.
    destruct (input_texts (txt :: txts)); simpl; [rewrite app_nil_r|]; reflexivity.
Qed.

(** One content of a text-only request: its message, if it has one, is
    appended, and nothing else changes but the current role. *)
Lemma convertContents_loop_texts (contents : list Content.t) (st : convertState) :
  textParts st = [] ->
  Forall text_only contents ->
  Forall (fun c => part_texts (Content.Parts c) ≠ [] ->
                   ∃ role, normalizeRole (Content.Role c) = Ok role) contents ->
  ∃ role,
    convertContents_loop (Some <$> contents) st
    = Ok {| items := items st ++ omap text_message contents;
            tracker := tracker st; textParts := []; curRole := role |}.
Proof.
  intros Hempty Htext. revert st Hempty.
  induction Htext as [|c rest Hc _ IH]; intros st Hempty Hroles.
  - exists (curRole st). simpl. rewrite app_nil_r. destruct st; simpl in *; congruence.
  - apply Forall_cons in Hroles as [Hrole Hroles].
    assert (Hcons : ∀ l, l ++ omap text_message (c :: rest)
                         = (l ++ option_list (text_message c)) ++ omap text_message rest).
    { intros l. rewrite <- app_assoc. simpl. destruct (text_message c); reflexivity. }
    cbn [fmap list_fmap convertContents_loop].
    destruct (Content.Parts c) as [|p ps] eqn:Hparts.
    { destruct (IH st Hempty Hroles) as [role ->]. exists role.
      rewrite Hcons. unfold text_message at 2. rewrite Hparts.
      unfold input_texts. simpl.
      destruct (normalizeRole (Content.Role c)); simpl; rewrite app_nil_r; reflexivity. }
    rewrite <- Hparts in *.
    rewrite convertContents_parts_texts by exact Hc.
    cbn [mbind result_bind]. cbn [textParts items tracker curRole]. rewrite Hempty.
    cbn [app].
    rewrite (flushText_text_message _ c) by (try reflexivity; assumption).
    cbn [mbind result_bind items tracker curRole].
    edestruct IH as [role ->]; [| exact Hroles | exists role]; [reflexivity|].
    cbn [items tracker]. rewrite Hcons. reflexivity.
Qed.

(** X3. A request of text parts only, with roles the package knows: the
    items are the messages of the contents, in order, one per content that
    has a text that is not blank, each with the role of its content and its
    texts that are not blank, in order. No text is lost but blank ones,
    none is moved to another role. *)
Theorem text_only_contents (contents : list Content.t) :
  Forall text_only contents ->
  Forall (fun c => part_texts (Content.Parts c) ≠ [] ->
                   ∃ role, normalizeRole (Content.Role c) = Ok role) contents ->
  convertContents (Some <$> contents) = Ok (omap text_message contents).
Proof.
  intros Htext Hroles. unfold convertContents.
  destruct (convertContents_loop_texts contents
              {| items := []; tracker := {| nextID := 0; pending := [] |};
                 textParts := []; curRole := RoleUser |} eq_refl Htext Hroles)
    as [role ->].
  reflexivity.
Qed.

End TextProperties.

(** The loop of [flattenContentText] over text parts, from the text [b]. *)
Lemma flattenContentText_loop_lines (parts : list (option Part.t)) (b : string) :
  (∀ part, Some part ∈ parts -> Part.Text part ≠ "") ->
  flattenContentText_loop parts b
  = Ok (match part_texts parts with
        | [] => b
        | _ :: _ => if String.eqb b "" then join_lines (part_texts parts)
                    else b +:+ newline +:+ join_lines (part_texts parts)
        end).
Proof.
  revert b. induction parts as [|[part|] rest IH]; intros b Htext; simpl.
  - reflexivity.
  - assert (Hpart : Part.Text part ≠ "") by (apply Htext; apply list_elem_of_here).
    rewrite (eqb_empty_false _ Hpart).
    rewrite IH by (intros p Hp; apply Htext; now apply list_elem_of_further).
    unfold part_texts at 3 4. simpl omap. fold (part_texts rest).
    destruct (part_texts rest) as [|txt txts] eqn:Hrest.
    + destruct (String.eqb_spec b "") as [->|Hb]; cbn [negb];
        rewrite ?append_assoc; reflexivity.
    + assert (Hne : (if negb (String.eqb b "") then b +:+ newline else b)
                    +:+ Part.Text part ≠ "") by now apply append_nonempty_r.
      rewrite (eqb_empty_false _ Hne).
      destruct (String.eqb_spec b "") as [->|Hb]; cbn [negb];
        rewrite ?append_assoc; reflexivity.
  - apply IH. intros p Hp. apply Htext. now apply list_elem_of_further.
Qed.

Lemma flattenContentText_loop_non_text (parts : list (option Part.t)) (part : Part.t)
  (b : string) :
  Some part ∈ parts -> Part.Text part = "" ->
  flattenContentText_loop parts b = Err non_text_part.
Proof.
  intros Hin Hempty. revert b.
  induction parts as [|[p|] rest IH]; intros b.
  - now apply elem_of_nil in Hin.
  - simpl. destruct (String.eqb_spec (Part.Text p) "") as [_|Hp]; [reflexivity|].
    apply IH. apply elem_of_cons in Hin as [[= <-]|Hin]; [contradiction | assumption].
  - simpl. apply IH. apply elem_of_cons in Hin as [[=]|Hin]. assumption.
Qed.

(** X4. The system instruction is flattened to the texts of its parts, one
    per line, when each of its parts has a text; a part without text makes
    it an error, wherever it stands; and no instruction at all is the empty
    text. *)
Theorem flattened_instruction (content : Content.t) :
  ((∀ part, Some part ∈ Content.Parts content -> Part.Text part ≠ "") ->
   flattenContentText (Some content)
   = Ok (join_lines (part_texts (Content.Parts content))))
  ∧ (∀ part, Some part ∈ Content.Parts content -> Part.Text part = "" ->
     flattenContentText (Some content) = Err non_text_part)
  ∧ flattenContentText None = Ok "".
Proof.
  split; [|split; [|reflexivity]].
  - intros Htext. unfold flattenContentText.
    rewrite flattenContentText_loop_lines by assumption.
    destruct (part_texts (Content.Parts content)); reflexivity.
  - intros part Hin Hempty. unfold flattenContentText.
    now apply (flattenContentText_loop_non_text _ part).
Qed.

(** * Further properties of the generation configuration *)

Section ConfigProperties.
Context `{Platform}.

(** [applyGenerationConfig] never touches the model, the input, the
    tools or the tool choice of the parameters, whatever it returns. *)
Lemma applyGenerationConfig_frame (params : ResponseNewParams.t)
  (cfg : option GenerateContentConfig.t) :
  ResponseNewParams.Model (applyGenerationConfig params cfg).1
  = ResponseNewParams.Model params
  ∧ ResponseNewParams.Input (applyGenerationConfig params cfg).1
    = ResponseNewParams.Input params
  ∧ ResponseNewParams.Tools (applyGenerationConfig params cfg).1
    = ResponseNewParams.Tools params
  ∧ ResponseNewParams.ToolChoice (applyGenerationConfig params cfg).1
    = ResponseNewParams.ToolChoice params.
Proof.
  unfold applyGenerationConfig. destruct cfg as [cfg|]; [|repeat split].
  destruct (GenerateContentConfig.Temperature cfg), (GenerateContentConfig.TopP cfg),
    (is_set (GenerateContentConfig.TopK cfg)); try (repeat split; fail);
    destruct (0 <? GenerateContentConfig.MaxOutputTokens cfg),
      (0 <? length (GenerateContentConfig.StopSequences cfg))%nat;
    try (repeat split; fail);
    destruct (1 <? GenerateContentConfig.CandidateCount cfg); try (repeat split; fail);
    destruct (is_set (GenerateContentConfig.FrequencyPenalty cfg)
              || is_set (GenerateContentConfig.PresencePenalty cfg));
    try (repeat split; fail);
    destruct (GenerateContentConfig.ResponseLogprobs cfg),
      (GenerateContentConfig.Logprobs cfg),
      (GenerateContentConfig.SystemInstruction cfg);
    try destruct (flattenContentText _) as [inst|e];
    try destruct (negb (String.eqb inst ""));
    try (repeat split; fail);
    destruct (negb (String.eqb _ "") && _ && _); try (repeat split; fail);
    destruct (String.eqb _ "application/json" || _ || _);
    try destruct (newJSONSchemaFormat cfg);
    try (repeat split; fail);
    destruct (is_set (GenerateContentConfig.Labels cfg)); try (repeat split; fail);
    destruct (is_set (GenerateContentConfig.SafetySettings cfg)); repeat split.
Qed.

End ConfigProperties.

(** * What an accepted configuration becomes *)

Section AcceptedConfiguration.
Context `{Platform}.

(** X5. When [applyGenerationConfig] accepts a configuration, none of the
    settings the vendor lacks is set and the MIME type is one of the three
    the package knows; temperature and top-p are carried over when set;
    the limit of output tokens when positive; the number of log
    probabilities only when log probabilities are asked for, 1 when no
    number is given; the flattened system instruction when it is not
    empty; and the output format exactly when a structured output is asked
    for, by the MIME type or by a schema whatever the MIME type. What the
    configuration does not set is left as it was. *)
Theorem accepted_configuration (params params' : ResponseNewParams.t)
  (cfg : GenerateContentConfig.t) :
  applyGenerationConfig params (Some cfg) = (params', None) ->
  (sampling_supported cfg
   ∧ GenerateContentConfig.Labels cfg = None
   ∧ GenerateContentConfig.SafetySettings cfg = None
   ∧ (GenerateContentConfig.ResponseMIMEType cfg = ""
      ∨ GenerateContentConfig.ResponseMIMEType cfg = "text/plain"
      ∨ GenerateContentConfig.ResponseMIMEType cfg = "application/json"))
  ∧ ResponseNewParams.Temperature params'
    = match GenerateContentConfig.Temperature cfg with
      | Some v => Some (float64_of_float32 v)
      | None => ResponseNewParams.Temperature params
      end
  ∧ ResponseNewParams.TopP params'
    = match GenerateContentConfig.TopP cfg with
      | Some v => Some (float64_of_float32 v)
      | None => ResponseNewParams.TopP params
      end
  ∧ ResponseNewParams.MaxOutputTokens params'
    = (if 0 <? GenerateContentConfig.MaxOutputTokens cfg
       then Some (GenerateContentConfig.MaxOutputTokens cfg)
       else ResponseNewParams.MaxOutputTokens params)
  ∧ ResponseNewParams.TopLogprobs params'
    = (if GenerateContentConfig.ResponseLogprobs cfg
       then Some (default 1 (GenerateContentConfig.Logprobs cfg))
       else ResponseNewParams.TopLogprobs params)
  ∧ (∃ inst,
       flattenContentText (GenerateContentConfig.SystemInstruction cfg) = Ok inst
       ∧ ResponseNewParams.Instructions params'
         = if String.eqb inst "" then ResponseNewParams.Instructions params
           else Some inst)
  ∧ (if wants_format cfg
     then ∃ format, newJSONSchemaFormat cfg = Ok format
                    ∧ ResponseNewParams.Text params' = Some format
     else ResponseNewParams.Text params' = ResponseNewParams.Text params).
Proof.
  unfold applyGenerationConfig, sampling_supported, wants_format. cbv zeta.
  destruct (GenerateContentConfig.TopK cfg); cbn [is_set];
    [intros Hbad; discriminate Hbad|].
  destruct (GenerateContentConfig.StopSequences cfg); cbn [length Nat.ltb Nat.leb];
    [|intros Hbad; discriminate Hbad].
  destruct (Z.ltb_spec 1 (GenerateContentConfig.CandidateCount cfg)) as [_|Hcount];
    [intros Hbad; discriminate Hbad|].
  destruct (GenerateContentConfig.FrequencyPenalty cfg); cbn [is_set orb];
    [intros Hbad; discriminate Hbad|].
  destruct (GenerateContentConfig.PresencePenalty cfg); cbn [is_set orb];
    [intros Hbad; discriminate Hbad|].
  assert (Hmime : ∀ mime,
            negb (String.eqb mime "") && negb (String.eqb mime "text/plain")
            && negb (String.eqb mime "application/json") = false ->
            mime = "" ∨ mime = "text/plain" ∨ mime = "application/json").
  { intros mime.
    destruct (String.eqb_spec mime ""); [now left|].
    destruct (String.eqb_spec mime "text/plain"); [now right; left|].
    destruct (String.eqb_spec mime "application/json"); [now right; right | discriminate]. }
  specialize (Hmime (GenerateContentConfig.ResponseMIMEType cfg)).
  destruct (negb (String.eqb (GenerateContentConfig.ResponseMIMEType cfg) "") && _ && _).
  { destruct (GenerateContentConfig.SystemInstruction cfg);
      [destruct (flattenContentText _) as [inst|e]; [destruct (negb _)|]|];
      intros Hbad; discriminate Hbad. }
  specialize (Hmime eq_refl).
  destruct (GenerateContentConfig.SystemInstruction cfg) as [instruction|].
  - destruct (flattenContentText (Some instruction)) as [inst|e];
      [|intros Hbad; discriminate Hbad].
    destruct (String.eqb _ "application/json" || _ || _);
      [destruct (newJSONSchemaFormat cfg) as [format|e]|];
      destruct (String.eqb inst "") eqn:Hinst; cbn [negb];
      try (intros Hbad; discriminate Hbad);
      destruct (GenerateContentConfig.Labels cfg); cbn [is_set];
      try (intros Hbad; discriminate Hbad);
      destruct (GenerateContentConfig.SafetySettings cfg); cbn [is_set];
      try (intros Hbad; discriminate Hbad);
      intros [= <-];
      destruct (GenerateContentConfig.Temperature cfg), (GenerateContentConfig.TopP cfg),
        (0 <? GenerateContentConfig.MaxOutputTokens cfg),
        (GenerateContentConfig.ResponseLogprobs cfg), (GenerateContentConfig.Logprobs cfg);
      (split;
       [split;
        [split; [reflexivity | split; [reflexivity | split; [exact Hcount | split; reflexivity]]]
        |split; [reflexivity | split; [reflexivity | exact Hmime]]]|]);
      repeat (split; [reflexivity|]);
      (split; [eexists; split; [reflexivity | rewrite Hinst; reflexivity]|]); eauto.
  - destruct (String.eqb _ "application/json" || _ || _);
      [destruct (newJSONSchemaFormat cfg) as [format|e]|];
      try (intros Hbad; discriminate Hbad);
      destruct (GenerateContentConfig.Labels cfg); cbn [is_set];
      try (intros Hbad; discriminate Hbad);
      destruct (GenerateContentConfig.SafetySettings cfg); cbn [is_set];
      try (intros Hbad; discriminate Hbad);
      intros [= <-];
      destruct (GenerateContentConfig.Temperature cfg), (GenerateContentConfig.TopP cfg),
        (0 <? GenerateContentConfig.MaxOutputTokens cfg),
        (GenerateContentConfig.ResponseLogprobs cfg), (GenerateContentConfig.Logprobs cfg);
      (split;
       [split;
        [split; [reflexivity | split; [reflexivity | split; [exact Hcount | split; reflexivity]]]
        |split; [reflexivity | split; [reflexivity | exact Hmime]]]|]);
      repeat (split; [reflexivity|]);
      (split; [exists ""; split; reflexivity|]); eauto.
Qed.

End AcceptedConfiguration.

Section BuilderProperties.
Context `{Platform}.

(** X6. JSON output without a schema: a configuration that asks for the
    MIME type application/json and brings neither form of schema is
    refused with [ErrJSONResponseWithoutSchema], by
    [applyGenerationConfig] and by the request builder once the contents
    have been converted, provided nothing checked before fails (the
    settings checked first are supported and the system instruction
    flattens). *)
Theorem json_without_schema_is_refused (params : ResponseNewParams.t)
  (cfg : GenerateContentConfig.t) :
  sampling_supported cfg ->
  (∃ inst, flattenContentText (GenerateContentConfig.SystemInstruction cfg) = Ok inst) ->
  GenerateContentConfig.ResponseMIMEType cfg = "application/json" ->
  GenerateContentConfig.ResponseSchema cfg = None ->
  GenerateContentConfig.ResponseJsonSchema cfg = AnyNil ->
  (applyGenerationConfig params (Some cfg)).2
  = Some (Sentinel ErrJSONResponseWithoutSchema)
  ∧ ∀ modelName (req : LLMRequest.t) item items,
      LLMRequest.Config req = Some cfg ->
      convertContents (LLMRequest.Contents req) = Ok (item :: items) ->
      buildOpenAIParams modelName (Some req)
      = Err (Sentinel ErrJSONResponseWithoutSchema).
Proof.
  intros Hsampling [inst Hinst] Hmime Hschema Hjson.
  assert (Hout : output_error cfg = Some (Sentinel ErrJSONResponseWithoutSchema)).
  { unfold output_error, newJSONSchemaFormat.
    rewrite Hinst, Hmime, Hschema, Hjson. reflexivity. }
  assert (Happly : ∀ p, (applyGenerationConfig p (Some cfg)).2
                        = Some (Sentinel ErrJSONResponseWithoutSchema)).
  { intros p. rewrite applyGenerationConfig_tail by assumption. now rewrite Hout. }
  split; [apply Happly|].
  intros modelName req item items Hcfg Hconv.
  unfold buildOpenAIParams. rewrite Hconv, Hcfg. cbn [mbind result_bind]. cbv zeta.
  set (p0 := initial_params _ _).
  specialize (Happly p0).
  destruct (applyGenerationConfig p0 (Some cfg)) as [p r]. simpl in Happly.
  now subst r.
Qed.

(** X7. What a built request holds: the model is the one of the request
    when it names one, the given model name otherwise; the input is the
    converted contents, and it is not empty; the tools are the converted
    tools. And a request none of whose contents has a part is refused with
    [ErrNoContents], as is no request at all with [ErrRequestNil]. *)
Theorem built_request (modelName : string) :
  (∀ (req : LLMRequest.t) params,
     buildOpenAIParams modelName (Some req) = Ok params ->
     ResponseNewParams.Model params
     = (if String.eqb (LLMRequest.Model req) "" then modelName else LLMRequest.Model req)
     ∧ convertContents (LLMRequest.Contents req) = Ok (ResponseNewParams.Input params)
     ∧ ResponseNewParams.Input params ≠ []
     ∧ convertTools (LLMRequest.Config req) = Ok (ResponseNewParams.Tools params))
  ∧ (∀ req : LLMRequest.t,
       Forall (fun c => from_option Content.Parts [] c = []) (LLMRequest.Contents req) ->
       buildOpenAIParams modelName (Some req) = Err (Sentinel ErrNoContents))
  ∧ buildOpenAIParams modelName None = Err (Sentinel ErrRequestNil).
Proof.
  split; [|split; [|reflexivity]].
  - intros req params. unfold buildOpenAIParams.
    destruct (convertContents (LLMRequest.Contents req)) as [input|e]; [|discriminate].
    cbn [mbind result_bind]. destruct input as [|item input]; [discriminate|].
    cbv zeta. set (p0 := initial_params _ _).
    pose proof (applyGenerationConfig_frame p0 (LLMRequest.Config req))
      as (Hmodel & Hinput & Htools & Hchoice).
    destruct (applyGenerationConfig p0 (LLMRequest.Config req)) as [p [e|]];
      [discriminate|].
    simpl in Hmodel, Hinput, Htools, Hchoice.
    destruct (convertTools (LLMRequest.Config req)) as [tools|e]; [|discriminate].
    cbn [mbind result_bind].
    assert (Hfinal : ∀ q,
              ResponseNewParams.Model q = ResponseNewParams.Model p ->
              ResponseNewParams.Input q = ResponseNewParams.Input p ->
              ResponseNewParams.Tools q = tools ->
              ResponseNewParams.Model q
              = (if String.eqb (LLMRequest.Model req) "" then modelName
                 else LLMRequest.Model req)
              ∧ Ok (item :: input) = Ok (ResponseNewParams.Input q)
              ∧ ResponseNewParams.Input q ≠ []
              ∧ Ok tools = Ok (ResponseNewParams.Tools q)).
    { intros q Hm Hi Ht. rewrite Hm, Hi, Ht, Hmodel, Hinput. unfold p0. simpl.
      destruct (String.eqb (LLMRequest.Model req) ""); repeat split; discriminate. }
    assert (Hset : ResponseNewParams.Tools
                     match tools with [] => p | _ :: _ => set_Tools tools p end = tools).
    { destruct tools; [rewrite Htools; reflexivity | reflexivity]. }
    assert (Hsetm : ResponseNewParams.Model
                      match tools with [] => p | _ :: _ => set_Tools tools p end
                    = ResponseNewParams.Model p) by (destruct tools; reflexivity).
    assert (Hseti : ResponseNewParams.Input
                      match tools with [] => p | _ :: _ => set_Tools tools p end
                    = ResponseNewParams.Input p) by (destruct tools; reflexivity).
    destruct (LLMRequest.Config req) as [cfg|]; [|intros [= <-]; now apply Hfinal].
    destruct (GenerateContentConfig.ToolConfig cfg) as [tc|];
      [|intros [= <-]; now apply Hfinal].
    destruct (convertToolChoice (Some tc)) as [[c|]|e]; cbn [mbind result_bind];
      [| |discriminate]; intros [= <-]; now apply Hfinal.
  - intros req Hempty. unfold buildOpenAIParams.
    assert (Hloop : ∀ st, convertContents_loop (LLMRequest.Contents req) st = Ok st).
    { induction Hempty as [|[c|] rest Hc _ IH]; intros st; simpl; try apply IH;
        [reflexivity|]. simpl in Hc. rewrite Hc. apply IH. }
    unfold convertContents. rewrite Hloop. reflexivity.
Qed.

End BuilderProperties.

(** * Further properties of the tool converter *)

Section ToolProperties.
Context `{Platform}.

Lemma convertFunctionDeclaration_converts (decl : option FunctionDeclaration.t)
  (fn : FunctionToolParam.t) :
  convertFunctionDeclaration decl = Ok fn -> converts_declaration fn decl.
Proof.
  unfold convertFunctionDeclaration. destruct decl as [d|]; [|discriminate].
  destruct (String.eqb_spec (FunctionDeclaration.Name d) "") as [|Hname]; [discriminate|].
  destruct (schemaToMap _) as [m|e]; cbn [mbind result_bind]; [|discriminate].
  destruct (if is_nil_map m && _ then _ else _) as [m'|e]; cbn [mbind result_bind];
    [|discriminate].
  intros [= <-]. exists d. simpl. repeat split; try assumption.
  destruct m'; intros Hnil; discriminate Hnil.
Qed.

Lemma convertTools_decls_converts (decls : list (option FunctionDeclaration.t))
  (tools out : list FunctionToolParam.t) :
  convertTools_decls decls tools = Ok out ->
  ∃ new, out = tools ++ new ∧ Forall2 converts_declaration new decls.
Proof.
  revert tools. induction decls as [|decl rest IH]; intros tools; simpl.
  - intros [= <-]. exists []. rewrite app_nil_r. split; [reflexivity | constructor].
  - destruct (convertFunctionDeclaration decl) as [fn|e] eqn:Hfn; cbn [mbind result_bind];
      [|discriminate].
    intros Hok. destruct (IH _ Hok) as (new & -> & Hnew).
    exists (fn :: new). rewrite <- app_assoc. split; [reflexivity|].
    constructor; [now apply convertFunctionDeclaration_converts | assumption].
Qed.

Lemma ensureFunctionToolOnly_accepts (idx : Z) (tool : option Tool.t) :
  ensureFunctionToolOnly idx tool = None ->
  ∃ t, tool = Some t ∧ has_builtin t = false ∧ Tool.FunctionDeclarations t ≠ [].
Proof.
  unfold ensureFunctionToolOnly. destruct tool as [t|]; [|discriminate].
  fold (has_builtin t). destruct (has_builtin t) eqn:Hb; [discriminate|].
  destruct (Tool.FunctionDeclarations t) as [|decl decls] eqn:E; [discriminate|].
  intros _. exists t. split; [reflexivity|]. split; [exact Hb|].
  rewrite E. discriminate.
Qed.

Lemma convertTools_loop_converts (tools : list (option Tool.t)) (i : Z)
  (acc out : list FunctionToolParam.t) :
  convertTools_loop tools i acc = Ok out ->
  (∃ new, out = acc ++ new ∧ Forall2 converts_declaration new (all_declarations tools))
  ∧ Forall (fun tool => ∃ t, tool = Some t ∧ has_builtin t = false
                             ∧ Tool.FunctionDeclarations t ≠ []) tools.
Proof.
  revert i acc. induction tools as [|tool rest IH]; intros i acc; cbn [convertTools_loop].
  - intros [= <-]. split; [|constructor].
    exists []. rewrite app_nil_r. split; [reflexivity | constructor].
  - destruct (ensureFunctionToolOnly i tool) as [e|] eqn:Hensure; [discriminate|].
    destruct (convertTools_decls _ acc) as [acc1|e] eqn:Hdecls; cbn [mbind result_bind];
      [|discriminate].
    intros Hok. destruct (IH _ _ Hok) as [(new2 & -> & Hnew2) Hrest].
    apply convertTools_decls_converts in Hdecls as (new1 & -> & Hnew1).
    split.
    + exists (new1 ++ new2). rewrite <- app_assoc. split; [reflexivity|].
      change (all_declarations (tool :: rest))
        with (from_option Tool.FunctionDeclarations [] tool ++ all_declarations rest).
      now apply Forall2_app.
    + constructor; [now apply (ensureFunctionToolOnly_accepts i) | assumption].
Qed.

(** X8. The tools of a converted configuration are its function
    declarations, one function tool each, in the order of the tools and of
    their declarations: each with the name of its declaration, of type
    function, strict, with a parameter schema, and with the description
    when there is one. The conversion succeeds only when every tool is
    there, carries no built-in capability and declares a function, and
    every declaration is there and has a name. *)
Theorem converted_tools (cfg : GenerateContentConfig.t)
  (tools : list FunctionToolParam.t) :
  convertTools (Some cfg) = Ok tools ->
  Forall2 converts_declaration tools (all_declarations (GenerateContentConfig.Tools cfg))
  ∧ Forall (fun tool => ∃ t, tool = Some t ∧ has_builtin t = false
                             ∧ Tool.FunctionDeclarations t ≠ [])
      (GenerateContentConfig.Tools cfg).
Proof.
  unfold convertTools. intros Hok.
  destruct (convertTools_loop_converts _ _ _ _ Hok) as [(new & -> & Hnew) Htools].
  split; assumption.
Qed.

Lemma convertTools_loop_app (before after : list (option Tool.t)) (i : Z)
  (acc : list FunctionToolParam.t) :
  convertTools_loop (before ++ after) i acc
  = convertTools_loop before i acc
    ≫= convertTools_loop after (i + Z.of_nat (length before)).
Proof.
  revert i acc. induction before as [|tool rest IH]; intros i acc.
  - simpl. rewrite Z.add_0_r. reflexivity.
  - cbn [app convertTools_loop].
    destruct (ensureFunctionToolOnly i tool); [reflexivity|].
    destruct (convertTools_decls _ acc) as [acc1|e]; cbn [mbind result_bind];
      [|reflexivity].
    rewrite IH. simpl length.
    replace (i + 1 + Z.of_nat (length rest)) with (i + Z.of_nat (S (length rest))) by lia.
    reflexivity.
Qed.

(** X9. The first tool that is not a plain function tool decides the
    error, and the error names its position: when the tools before it
    convert, a nil tool, a tool with a built-in capability (also next to
    function declarations) and a tool without declarations are each
    refused with their own message and the index of the tool. *)
Theorem rejected_tool_is_named (cfg : GenerateContentConfig.t)
  (before after : list (option Tool.t)) (tool : option Tool.t)
  (converted : list FunctionToolParam.t) :
  GenerateContentConfig.Tools cfg = before ++ tool :: after ->
  convertTools_loop before 0 [] = Ok converted ->
  (tool = None ->
   convertTools (Some cfg)
   = Err (Errorf "openai: tool %d is nil" [OpInt (Z.of_nat (length before))]))
  ∧ (∀ t, tool = Some t -> has_builtin t = true ->
     convertTools (Some cfg)
     = Err (Errorf "openai: non-function tools are not supported (tool %d)"
              [OpInt (Z.of_nat (length before))]))
  ∧ (∀ t, tool = Some t -> has_builtin t = false -> Tool.FunctionDeclarations t = [] ->
     convertTools (Some cfg)
     = Err (Errorf "openai: tool %d does not declare any functions"
              [OpInt (Z.of_nat (length before))])).
Proof.
  intros Htools Hbefore. unfold convertTools.
  rewrite Htools, convertTools_loop_app, Hbefore. cbn [mbind result_bind].
  rewrite Z.add_0_l. cbn [convertTools_loop]. unfold ensureFunctionToolOnly.
  split; [|split].
  - intros ->. reflexivity.
  - intros t -> Hb. fold (has_builtin t). rewrite Hb. reflexivity.
  - intros t -> Hb Hd. fold (has_builtin t). rewrite Hb, Hd. reflexivity.
Qed.

End ToolProperties.

(** * Further properties of the response converter *)

Lemma int32_range (n : Z) : in_int32 (int32 n).
Proof.
  unfold in_int32, int32.
  pose proof (Z.mod_pos_bound (n + 2 ^ 31) (2 ^ 32) ltac:(lia)). lia.
Qed.

Lemma int32_small (n : Z) : in_int32 n -> int32 n = n.
Proof.
  unfold in_int32, int32. intros Hn. rewrite Z.mod_small by lia. lia.
Qed.

(** X10. Usage accounting: every count of the canonical usage is an
    [int32]; the counts of the vendor that fit in an [int32] are carried
    over unchanged, and the single text-modality entries repeat the prompt
    and candidate counts. (A count that does not fit wraps around.) *)
Theorem usage_counts (usage : ResponseUsage.t) :
  (in_int32 (UsageMetadata.PromptTokenCount (convertUsage usage))
   ∧ in_int32 (UsageMetadata.CandidatesTokenCount (convertUsage usage))
   ∧ in_int32 (UsageMetadata.TotalTokenCount (convertUsage usage))
   ∧ in_int32 (UsageMetadata.CachedContentTokenCount (convertUsage usage))
   ∧ in_int32 (UsageMetadata.ThoughtsTokenCount (convertUsage usage)))
  ∧ (in_int32 (ResponseUsage.InputTokens usage) ->
     UsageMetadata.PromptTokenCount (convertUsage usage) = ResponseUsage.InputTokens usage)
  ∧ (in_int32 (ResponseUsage.OutputTokens usage) ->
     UsageMetadata.CandidatesTokenCount (convertUsage usage)
     = ResponseUsage.OutputTokens usage)
  ∧ (in_int32 (ResponseUsage.TotalTokens usage) ->
     UsageMetadata.TotalTokenCount (convertUsage usage) = ResponseUsage.TotalTokens usage)
  ∧ (in_int32 (ResponseUsage.CachedTokens usage) ->
     UsageMetadata.CachedContentTokenCount (convertUsage usage)
     = ResponseUsage.CachedTokens usage)
  ∧ (in_int32 (ResponseUsage.ReasoningTokens usage) ->
     UsageMetadata.ThoughtsTokenCount (convertUsage usage)
     = ResponseUsage.ReasoningTokens usage)
  ∧ UsageMetadata.PromptTokensDetails (convertUsage usage)
    = [ {| ModalityTokenCount.Modality := MediaModalityText;
           ModalityTokenCount.TokenCount :=
             UsageMetadata.PromptTokenCount (convertUsage usage) |} ]
  ∧ UsageMetadata.CandidatesTokensDetails (convertUsage usage)
    = [ {| ModalityTokenCount.Modality := MediaModalityText;
           ModalityTokenCount.TokenCount :=
             UsageMetadata.CandidatesTokenCount (convertUsage usage) |} ].
Proof.
  unfold convertUsage. cbn [UsageMetadata.PromptTokenCount
    UsageMetadata.CandidatesTokenCount UsageMetadata.TotalTokenCount
    UsageMetadata.CachedContentTokenCount UsageMetadata.ThoughtsTokenCount
    UsageMetadata.PromptTokensDetails UsageMetadata.CandidatesTokensDetails].
  repeat apply conj; try apply int32_range; try apply int32_small; reflexivity.
Qed.

(** X11. Finish reason and prompt feedback agree: the finish reason of a
    response is stop exactly when the vendor gives no incomplete reason,
    which is exactly when there is no prompt feedback; it is never left
    unspecified; and the feedback repeats the vendor's reason as block
    reason and as message. *)
Theorem finish_reason_and_feedback (resp : Response.t) :
  (finishReason (Some resp) = FinishReasonStop <-> Response.IncompleteReason resp = "")
  ∧ (promptFeedback (Some resp) = None <-> Response.IncompleteReason resp = "")
  ∧ finishReason (Some resp) ≠ FinishReasonUnspecified
  ∧ (∀ feedback, promptFeedback (Some resp) = Some feedback ->
       PromptFeedback.BlockReason feedback = Response.IncompleteReason resp
       ∧ PromptFeedback.BlockReasonMessage feedback = Response.IncompleteReason resp).
Proof.
  unfold finishReason, promptFeedback.
  destruct (String.eqb_spec (Response.IncompleteReason resp) "") as [E|Hne].
  - rewrite E. cbn. split; [|split; [|split]].
    + split; reflexivity.
    + split; reflexivity.
    + discriminate.
    + intros feedback Hfb. discriminate Hfb.
  - assert (Hfinish :
      (if String.eqb (Response.IncompleteReason resp) "max_output_tokens"
       then FinishReasonMaxTokens
       else if String.eqb (Response.IncompleteReason resp) "content_filter"
       then FinishReasonSafety
       else if String.eqb (Response.IncompleteReason resp) "tool_calls_exhausted"
       then FinishReasonOther
       else if negb false then FinishReasonOther else FinishReasonStop)
      ≠ FinishReasonStop
      ∧ (if String.eqb (Response.IncompleteReason resp) "max_output_tokens"
         then FinishReasonMaxTokens
         else if String.eqb (Response.IncompleteReason resp) "content_filter"
         then FinishReasonSafety
         else if String.eqb (Response.IncompleteReason resp) "tool_calls_exhausted"
         then FinishReasonOther
         else if negb false then FinishReasonOther else FinishReasonStop)
        ≠ FinishReasonUnspecified).
    { destruct (String.eqb _ "max_output_tokens"); [split; discriminate|].
      destruct (String.eqb _ "content_filter"); [split; discriminate|].
      destruct (String.eqb _ "tool_calls_exhausted"); split; discriminate. }
    destruct Hfinish as [Hstop Hunspec].
    split; [|split; [|split]].
    + split; [intros Hs; now apply Hstop in Hs | intros Hr; contradiction].
    + split; [discriminate | intros Hr; contradiction].
    + exact Hunspec.
    + intros feedback [= <-]. split; reflexivity.
Qed.

Lemma convertOutputItems_message_parts
  (content : list ResponseOutputMessageContentUnion.t) (parts parts' : list Part.t) :
  convertOutputItems_message content parts = Ok parts' ->
  Forall output_part parts -> Forall output_part parts'.
Proof.
  revert parts. induction content as [|c rest IH]; intros parts; simpl.
  - now intros [= <-].
  - destruct (String.eqb _ "output_text").
    + destruct (negb (String.eqb _ "")); intros Hok Hparts; apply (IH _ Hok);
        [|assumption].
      apply Forall_app. split; [assumption|]. constructor; [|constructor].
      left. eauto.
    + destruct (String.eqb _ "refusal"); [|discriminate].
      intros Hok Hparts. apply (IH _ Hok).
      apply Forall_app. split; [assumption|]. constructor; [|constructor].
      left. eauto.
Qed.

Lemma convertOutputItems_reasoning_parts
  (content : list ResponseOutputMessageContentUnion.t) (parts : list Part.t) :
  Forall output_part parts -> Forall output_part (convertOutputItems_reasoning content parts).
Proof.
  revert parts. induction content as [|c rest IH]; intros parts Hparts; simpl;
    [assumption|].
  destruct (negb (String.eqb _ "")); apply IH; [|assumption].
  apply Forall_app. split; [assumption|]. constructor; [|constructor]. left. eauto.
Qed.

Lemma convertOutputItems_summary_parts (summaries : list Summary.t) (parts : list Part.t) :
  Forall output_part parts -> Forall output_part (convertOutputItems_summary summaries parts).
Proof.
  revert parts. induction summaries as [|s rest IH]; intros parts Hparts; simpl;
    [assumption|].
  destruct (negb (String.eqb _ "")); apply IH; [|assumption].
  apply Forall_app. split; [assumption|]. constructor; [|constructor]. left. eauto.
Qed.

Section ResponseShape.
Context `{Platform}.

Lemma convertOutputItems_loop_parts (items : list ResponseOutputItemUnion.t)
  (parts parts' : list Part.t) :
  convertOutputItems_loop items parts = Ok parts' ->
  Forall output_part parts -> Forall output_part parts'.
Proof.
  revert parts. induction items as [|item rest IH]; intros parts; simpl.
  - now intros [= <-].
  - destruct (String.eqb _ "message").
    { destruct (convertOutputItems_message _ parts) as [parts1|e] eqn:E;
        cbn [mbind result_bind]; [|discriminate].
      intros Hok Hparts. apply (IH _ Hok).
      now apply (convertOutputItems_message_parts _ _ _ E). }
    destruct (String.eqb _ "function_call").
    { destruct (convertFunctionCall item) as [part|e] eqn:E; cbn [mbind result_bind];
        [|discriminate].
      intros Hok Hparts. apply (IH _ Hok).
      apply Forall_app. split; [assumption|]. constructor; [|constructor].
      right. unfold convertFunctionCall in E.
      destruct (if negb _ then _ else _) as [args|e]; cbn [mbind result_bind] in E;
        [|discriminate].
      injection E as <-. eauto. }
    destruct (String.eqb _ "reasoning"); [|discriminate].
    intros Hok Hparts. apply (IH _ Hok).
    now apply convertOutputItems_summary_parts, convertOutputItems_reasoning_parts.
Qed.

(** X12. What a converted response holds: exactly one candidate, of the
    model's role, whose parts are the converted output items, at least one
    of them, each there (no nil part) and each a text part or a
    function-call part; the identifier and the model of the vendor's
    response; the converted usage. *)
Theorem converted_response (resp : Response.t) (r : GenerateContentResponse.t) :
  convertResponse (Some resp) = Ok r ->
  ∃ parts,
    convertOutputItems (Response.Output resp) = Ok parts
    ∧ parts ≠ []
    ∧ Forall output_part parts
    ∧ GenerateContentResponse.Candidates r
      = [ {| Candidate.Content :=
               {| Content.Role := RoleModel; Content.Parts := Some <$> parts |};
             Candidate.FinishReason_ := finishReason (Some resp) |} ]
    ∧ GenerateContentResponse.ResponseID r = Response.ID resp
    ∧ GenerateContentResponse.ModelVersion r = Response.Model resp
    ∧ GenerateContentResponse.UsageMetadata r = Some (convertUsage (Response.Usage resp))
    ∧ GenerateContentResponse.PromptFeedback r = promptFeedback (Some resp).
Proof.
  unfold convertResponse, buildCandidate.
  destruct (convertOutputItems (Response.Output resp)) as [parts|e] eqn:Hitems;
    cbn [mbind result_bind]; [|discriminate].
  intros [= <-]. exists parts. repeat split.
  - unfold convertOutputItems in Hitems.
    destruct (Response.Output resp); [discriminate|].
    destruct (convertOutputItems_loop _ _) as [[|p ps]|e]; cbn [mbind result_bind] in Hitems;
      try discriminate.
    injection Hitems as <-. discriminate.
  - unfold convertOutputItems in Hitems.
    destruct (Response.Output resp) as [|item items]; [discriminate|].
    destruct (convertOutputItems_loop (item :: items) []) as [parts1|e] eqn:Hloop;
      cbn [mbind result_bind] in Hitems; [|discriminate].
    apply convertOutputItems_loop_parts in Hloop; [|constructor].
    destruct parts1; [discriminate|]. now injection Hitems as <-.
Qed.

(** The loop over messages of output texts and refusals. *)
Lemma convertOutputItems_message_texts (item : ResponseOutputItemUnion.t)
  (parts : list Part.t) :
  Forall (fun c => ResponseOutputMessageContentUnion.Type_ c = "output_text"
                   ∨ ResponseOutputMessageContentUnion.Type_ c = "refusal")
    (ResponseOutputItemUnion.Content item) ->
  convertOutputItems_message (ResponseOutputItemUnion.Content item) parts
  = Ok (parts ++ ((fun text => text_part text false) <$> message_texts item)).
Proof.
  unfold message_texts.
  generalize (ResponseOutputItemUnion.Content item). intros content Hcontent. revert parts.
  induction Hcontent as [|c rest Hc _ IH]; intros parts; simpl.
  - now rewrite app_nil_r.
  - destruct Hc as [-> | ->]; cbn [String.eqb Ascii.eqb Bool.eqb].
    + destruct (String.eqb (ResponseOutputMessageContentUnion.Text c) ""); simpl.
      * apply IH.
      * rewrite IH, <- app_assoc. reflexivity.
    + rewrite IH, <- app_assoc. reflexivity.
Qed.

(** X13. A response of plain messages: its parts are the texts of the
    messages, output texts that are not empty and refusals alike, in order,
    as text parts that are no thoughts; when there is no such text the
    response is refused with [ErrNoTextOrToolContent]. *)
Theorem message_texts_are_kept (items : list ResponseOutputItemUnion.t) :
  items ≠ [] -> Forall plain_message items ->
  convertOutputItems items
  = match items ≫= message_texts with
    | [] => Err (Sentinel ErrNoTextOrToolContent)
    | texts => Ok ((fun text => text_part text false) <$> texts)
    end.
Proof.
  intros Hne Hplain.
  assert (Hloop : ∀ parts,
            convertOutputItems_loop items parts
            = Ok (parts ++ ((fun text => text_part text false)
                            <$> (items ≫= message_texts)))).
  { clear Hne. induction Hplain as [|item rest [Hty Hcontent] _ IH]; intros parts.
    - simpl. now rewrite app_nil_r.
    - cbn [convertOutputItems_loop]. cbv zeta. rewrite Hty.
      cbn [String.eqb Ascii.eqb Bool.eqb].
      rewrite convertOutputItems_message_texts by assumption.
      cbn [mbind result_bind]. rewrite IH, <- app_assoc.
      rewrite bind_cons, fmap_app. reflexivity. }
  unfold convertOutputItems. rewrite Hloop.
  generalize (items ≫= message_texts). intros texts.
  destruct items as [|item rest]; [contradiction|].
  cbn [mbind result_bind app].
  destruct texts; reflexivity.
Qed.

End ResponseShape.

(** * Further properties of the streaming translator *)

Section StreamShape.
Context `{Platform}.

(** X14. What one event can yield: an output is always a micro-response
    (one candidate, one part) whose part is a text part or a function-call
    part; an error comes only from a function-call-arguments done event,
    a failure event or an error event; and failure and error events always
    end in an error and leave the buffers alone. *)
Theorem event_outcomes (t : streamTranslator) (evt : ResponseStreamEventUnion.t) :
  (∀ r, (process t evt).2 = Ok (Some r) -> ∃ part, r = micro_response part ∧ output_part part)
  ∧ (∀ e, (process t evt).2 = Err e ->
       ResponseStreamEventUnion.Type_ evt = responseFunctionCallArgumentsDone
       ∨ ResponseStreamEventUnion.Type_ evt = "response.failed"
       ∨ ResponseStreamEventUnion.Type_ evt = "error")
  ∧ (ResponseStreamEventUnion.Type_ evt = "response.failed"
     ∨ ResponseStreamEventUnion.Type_ evt = "error" ->
     ∃ e, process t evt = (t, Err e)).
Proof.
  split; [|split].
  - intros r.
    destruct (decide (ResponseStreamEventUnion.Type_ evt = responseFunctionCallArgumentsDone))
      as [Hdone|Hdone].
    { rewrite process_done_case, emitFunctionCall_payload by assumption.
      destruct (json_Unmarshal _ None); cbn [snd singlePartResponse]; [|discriminate].
      intros [= <-]. eexists. split; [reflexivity | right; eauto]. }
    unfold process. cbv zeta.
    destruct (String.eqb_spec (ResponseStreamEventUnion.Type_ evt)
                responseFunctionCallArgumentsDone) as [E|_]; [contradiction|].
    repeat
      match goal with
      | |- context [String.eqb (ResponseStreamEventUnion.Type_ evt) ?kind] =>
          destruct (String.eqb (ResponseStreamEventUnion.Type_ evt) kind)
      end;
      repeat
        match goal with
        | |- context [buffer ?t ?id] => destruct (buffer t id)
        | |- context [if ?b then _ else _] => destruct b
        end;
      cbn [snd singlePartResponse orb]; try discriminate;
      intros [= <-]; eexists; (split; [reflexivity | left; eauto]).
  - intros e. unfold process. cbv zeta.
    destruct (String.eqb_spec (ResponseStreamEventUnion.Type_ evt)
                responseOutputTextDelta); [destruct (String.eqb _ ""); discriminate|].
    destruct (String.eqb_spec (ResponseStreamEventUnion.Type_ evt)
                responseReasoningTextDelta); [destruct (String.eqb _ ""); discriminate|].
    destruct (String.eqb_spec (ResponseStreamEventUnion.Type_ evt)
                responseReasoningSummaryTextDelta);
      [destruct (String.eqb _ ""); discriminate|].
    destruct (String.eqb_spec (ResponseStreamEventUnion.Type_ evt)
                responseFunctionCallArgumentsDelta).
    { destruct (negb _); [destruct (buffer _ _)|]; discriminate. }
    destruct (String.eqb_spec (ResponseStreamEventUnion.Type_ evt)
                responseFunctionCallArgumentsDone); [now left|].
    destruct (String.eqb_spec (ResponseStreamEventUnion.Type_ evt) "response.failed");
      [now right; left|].
    destruct (String.eqb_spec (ResponseStreamEventUnion.Type_ evt) "error");
      [now right; right|].
    destruct (_ || _); discriminate.
  - intros [Hty|Hty]; unfold process; cbv zeta; rewrite Hty; simpl; [eauto|].
    destruct (negb _); eauto.
Qed.

(** X15. Buffers are kept apart: an event changes no buffer but the one of
    its own key (its item identifier, or [default] for a delta without
    item identifier). *)
Theorem other_buffers_are_untouched (t : streamTranslator)
  (evt : ResponseStreamEventUnion.t) (key : string) :
  key ≠ event_key evt ->
  functionArgs (process t evt).1 !! key = functionArgs t !! key.
Proof.
  intros Hkey.
  destruct (process_buffers t evt) as [-> | [(_ & _ & ->) | [_ ->]]].
  - reflexivity.
  - now rewrite lookup_insert_ne.
  - now rewrite lookup_delete_ne.
Qed.

(** X16. What the buffers of a stream never hold: an entry under the empty
    key, and an empty text. So a done event finds under its item
    identifier either nothing or a text that is not empty. *)
Theorem buffers_of_a_stream (events : list ResponseStreamEventUnion.t) :
  functionArgs (after_events events) !! "" = None
  ∧ ∀ key text, functionArgs (after_events events) !! key = Some text -> text ≠ "".
Proof.
  split.
  - apply process_all_empty_key. reflexivity.
  - apply process_all_nonempty_buffers. intros key text Hlook.
    unfold newStreamTranslator in Hlook. cbn [functionArgs] in Hlook.
    now rewrite lookup_empty in Hlook.
Qed.

(** A run of deltas of one item. *)
Lemma process_all_deltas (deltas : list ResponseStreamEventUnion.t)
  (t : streamTranslator) (key : string) :
  Forall (fun evt => ResponseStreamEventUnion.Type_ evt = responseFunctionCallArgumentsDelta
                     ∧ event_key evt = key) deltas ->
  functionArgs (process_all t deltas)
  = if String.eqb (deltas_text deltas) "" then functionArgs t
    else <[key := default "" (functionArgs t !! key) +:+ deltas_text deltas]>
           (functionArgs t).
Proof.
  intros Hdeltas. revert t.
  induction Hdeltas as [|evt rest [Hty Hkey] _ IH]; intros t; [reflexivity|].
  cbn [process_all deltas_text foldr]. fold (deltas_text rest).
  destruct (decide (ResponseStreamEventUnion.Delta evt = "")) as [Hempty|Hempty].
  - assert (Hstep : process t evt = (t, Ok None)).
    { unfold process. cbv zeta. rewrite Hty, Hempty. reflexivity. }
    rewrite Hstep, IH, Hempty. reflexivity.
  - assert (Hstep : process t evt
                    = ({| functionArgs :=
                            <[key := default "" (functionArgs t !! key)
                                     +:+ ResponseStreamEventUnion.Delta evt]>
                              (functionArgs t) |}, Ok None)).
    { rewrite process_delta by assumption. cbv zeta.
      unfold event_key in Hkey. rewrite Hty, String.eqb_refl in Hkey.
      cbn [andb] in Hkey. rewrite Hkey. reflexivity. }
    rewrite Hstep, IH. cbn [functionArgs].
    rewrite lookup_insert_eq. cbn [default from_option]. unfold id.
    rewrite (eqb_empty_false (_ +:+ deltas_text rest))
      by (destruct (ResponseStreamEventUnion.Delta evt); [contradiction | discriminate]).
    destruct (String.eqb_spec (deltas_text rest) "") as [->|Hrest].
    + now rewrite append_empty_r.
    + now rewrite insert_insert_eq, append_assoc.
Qed.

(** X17. Streamed function-call arguments come back whole. From a
    translator without buffer for an item, after any run of
    function-call-arguments deltas of that item (some of them not empty), a
    done event of the item without arguments of its own parses the deltas
    put end to end, emits the function call with the parsed arguments, and
    leaves the translator as it was before the deltas. *)
Theorem streamed_arguments (t : streamTranslator)
  (deltas : list ResponseStreamEventUnion.t) (done : ResponseStreamEventUnion.t) :
  ResponseStreamEventUnion.ItemID done ≠ "" ->
  functionArgs t !! ResponseStreamEventUnion.ItemID done = None ->
  Forall (fun evt => ResponseStreamEventUnion.Type_ evt = responseFunctionCallArgumentsDelta
                     ∧ ResponseStreamEventUnion.ItemID evt
                       = ResponseStreamEventUnion.ItemID done) deltas ->
  deltas_text deltas ≠ "" ->
  ResponseStreamEventUnion.Type_ done = responseFunctionCallArgumentsDone ->
  ResponseStreamEventUnion.Arguments done = "" ->
  process (process_all t deltas) done
  = (t,
     match json_Unmarshal (deltas_text deltas) None with
     | Err e => Err (Errorf "openai: parse streamed function args: %w" [OpError e])
     | Ok args =>
         Ok (Some (micro_response
                     (function_call_part
                        {| FunctionCall.ID := ResponseStreamEventUnion.ItemID done;
                           FunctionCall.Name := ResponseStreamEventUnion.Name done;
                           FunctionCall.Args := args |})))
     end).
Proof.
  intros Hid Hnone Hdeltas Htext Hty Hargs.
  assert (Hbuf : functionArgs (process_all t deltas)
                 = <[ResponseStreamEventUnion.ItemID done := deltas_text deltas]>
                     (functionArgs t)).
  { rewrite (process_all_deltas deltas t (ResponseStreamEventUnion.ItemID done)).
    - rewrite (eqb_empty_false _ Htext), Hnone. reflexivity.
    - eapply Forall_impl; [exact Hdeltas|]. intros evt [Hevt Hitem].
      split; [assumption|]. unfold event_key.
      rewrite Hitem, (eqb_empty_false _ Hid), andb_false_r. reflexivity. }
  rewrite process_done_case, emitFunctionCall_payload by assumption.
  unfold done_payload. rewrite Hargs, Hbuf, lookup_insert_eq.
  cbn [String.eqb negb]. rewrite (eqb_empty_false _ Htext). cbn [negb].
  rewrite delete_insert_eq, delete_id by assumption.
  destruct t as [fa]. cbn [functionArgs].
  destruct (json_Unmarshal _ None); reflexivity.
Qed.

(** X18. Streamed text comes through whole and in order. Over a run of
    text deltas (output text, reasoning text, reasoning summary), the
    responses handed on are the micro-responses of the deltas that are not
    empty, in order, reasoning marked as thought; no error arises and the
    translator is unchanged. *)
Theorem streamed_text (t : streamTranslator) (events : list ResponseStreamEventUnion.t) :
  Forall text_delta events ->
  translate t events
  = (delta_response
     <$> filter (fun evt => ResponseStreamEventUnion.Delta evt ≠ "") events, None)
  ∧ process_all t events = t.
Proof.
  intros Hevents.
  induction Hevents as [|evt rest Hevt _ [IHt IHp]]; [split; reflexivity|].
  assert (Hstep : process t evt
                  = (t, Ok (if String.eqb (ResponseStreamEventUnion.Delta evt) "" then None
                            else Some (delta_response evt)))).
  { unfold process, delta_response. cbv zeta.
    destruct Hevt as [Hty|[Hty|Hty]]; rewrite Hty; cbn [String.eqb Ascii.eqb Bool.eqb];
      destruct (String.eqb (ResponseStreamEventUnion.Delta evt) ""); reflexivity. }
  cbn [translate process_all]. rewrite Hstep, filter_cons.
  destruct (String.eqb_spec (ResponseStreamEventUnion.Delta evt) "") as [Hempty|Hempty].
  - destruct (decide (ResponseStreamEventUnion.Delta evt ≠ "")); [contradiction|].
    split; assumption.
  - destruct (decide (ResponseStreamEventUnion.Delta evt ≠ "")); [|contradiction].
    rewrite IHt, fmap_cons. split; [reflexivity | assumption].
Qed.

End StreamShape.

(** * From a response back into a request *)

Lemma find_pending_member (callID : string) (l : list string) (i : nat) :
  callID ∈ l -> ∃ j, find_pending callID l i = Some j.
Proof.
  revert i. induction l as [|p l IH]; intros i Hin.
  - now apply elem_of_nil in Hin.
  - simpl. destruct (String.eqb_spec p callID) as [_|Hp]; [eauto|].
    apply elem_of_cons in Hin as [->|Hin]; [contradiction | now apply IH].
Qed.

Section RoundTrip.
Context `{Platform}.

(** X19. The call identifier of the vendor survives the round trip. A
    function-call item of a response that has a name and a call identifier
    becomes a function call which, sent back in a later request, is issued
    under the same name and the same call identifier, no identifier being
    generated; and a function response that brings this identifier is
    accepted and sent as the output of that call, which is then no longer
    pending. *)
Theorem call_identifier_round_trip (item : ResponseOutputItemUnion.t) (part : Part.t)
  (t : callTracker) (fr : FunctionResponse.t) :
  ResponseOutputItemUnion.Name item ≠ "" ->
  ResponseOutputItemUnion.CallID item ≠ "" ->
  convertFunctionCall item = Ok part ->
  FunctionResponse.ID fr = ResponseOutputItemUnion.CallID item ->
  ∃ fc,
    Part.FunctionCall part = Some fc
    ∧ (newFunctionCall t fc).1
      = {| nextID := nextID t;
           pending := pending t ++ [ResponseOutputItemUnion.CallID item] |}
    ∧ (∀ call, (newFunctionCall t fc).2 = Ok call ->
         ResponseFunctionToolCallParam.Name call = ResponseOutputItemUnion.Name item
         ∧ ResponseFunctionToolCallParam.CallID call = ResponseOutputItemUnion.CallID item)
    ∧ (newFunctionResponse (newFunctionCall t fc).1 fr).2
      = match json_Marshal (any_of_map (FunctionResponse.Response fr)) with
        | Err e => Err (Errorf "openai: marshal function response: %w" [OpError e])
        | Ok payload =>
            Ok {| ResponseInputItemFunctionCallOutputParam.CallID :=
                    ResponseOutputItemUnion.CallID item;
                  ResponseInputItemFunctionCallOutputParam.Output := payload;
                  ResponseInputItemFunctionCallOutputParam.Type_ :=
                    "function_call_output" |}
        end
    ∧ (ResponseOutputItemUnion.CallID item ∉ pending t ->
       (newFunctionResponse (newFunctionCall t fc).1 fr).1 = t).
Proof.
  intros Hname Hid Hpart Hfr.
  unfold convertFunctionCall in Hpart.
  destruct (if negb _ then _ else _) as [args|e]; [|discriminate].
  injection Hpart as <-. eexists. split; [reflexivity|].
  assert (Hcall : ∀ t0 : callTracker,
            (newFunctionCall t0
               {| FunctionCall.ID := ResponseOutputItemUnion.CallID item;
                  FunctionCall.Name := ResponseOutputItemUnion.Name item;
                  FunctionCall.Args := args |}).1
            = {| nextID := nextID t0;
                 pending := pending t0 ++ [ResponseOutputItemUnion.CallID item] |}).
  { intros t0. rewrite newFunctionCall_registered by exact Hname.
    cbn [FunctionCall.ID]. now rewrite (eqb_empty_false _ Hid). }
  split; [apply Hcall|]. split; [|split].
  - intros call. unfold newFunctionCall. cbn [FunctionCall.ID FunctionCall.Name].
    rewrite (eqb_empty_false _ Hname), (eqb_empty_false _ Hid).
    destruct (json_Marshal _); cbn [snd]; [|discriminate].
    intros [= <-]. split; reflexivity.
  - rewrite Hcall. unfold newFunctionResponse, matchPending. rewrite Hfr.
    rewrite (eqb_empty_false _ Hid). cbv zeta. cbn [pending].
    destruct (find_pending_member (ResponseOutputItemUnion.CallID item)
                (pending t ++ [ResponseOutputItemUnion.CallID item]) 0) as [j ->].
    { apply elem_of_app. right. apply list_elem_of_here. }
    destruct (json_Marshal _); reflexivity.
  - intros Hfresh. rewrite Hcall.
    destruct (newFunctionResponse_matchPending
                {| nextID := nextID t;
                   pending := pending t ++ [ResponseOutputItemUnion.CallID item] |} fr)
      as [-> _].
    rewrite (matchPending_explicit _ fr (pending t) []);
      [| rewrite Hfr; exact Hid | rewrite Hfr; reflexivity | rewrite Hfr; exact Hfresh].
    cbn [fst nextID]. rewrite app_nil_r. destruct t; reflexivity.
Qed.

End RoundTrip.

(** * Properties of the agent tree *)

Lemma head_filter_app {A} (P : A -> Prop) `{∀ x, Decision (P x)} (l k : list A) :
  head (filter P (l ++ k))
  = match head (filter P l) with Some x => Some x | None => head (filter P k) end.
Proof.
  rewrite filter_app. destruct (filter P l); reflexivity.
Qed.

Lemma findAgent_in_first (a : Agent.t) (targetName : string) :
  findAgent_in a targetName
  = head (filter (fun b => Agent.Name b = targetName) (agents_of a)).
Proof.
  revert a. fix IH 1. intros [name subAgents].
  cbn [findAgent_in agents_of]. rewrite filter_cons. cbn [Agent.Name].
  destruct (String.eqb_spec name targetName) as [Hname|Hname].
  - destruct (decide (name = targetName)); [reflexivity | contradiction].
  - destruct (decide (name = targetName)); [contradiction|].
    clear Hname n. revert subAgents. fix IHrange 1. intros [|[subAgent|] rest].
    + reflexivity.
    + rewrite head_filter_app, <- IH.
      destruct (findAgent_in subAgent targetName); [reflexivity | apply IHrange].
    + apply IHrange.
Qed.

(** X20. [findAgent] returns the first agent of the tree that has the
    target name, reading the tree agent before sub-agents and sub-agents in
    order, nil sub-agents skipped; and nil when no agent of the tree has
    the name. So an agent it returns has the name asked for, and a name
    borne by two agents always yields the one that comes first. *)
Theorem findAgent_first (curAgent : option Agent.t) (targetName : string) :
  findAgent curAgent targetName
  = head (filter (fun a => Agent.Name a = targetName)
            (from_option agents_of [] curAgent)).
Proof.
  destruct curAgent as [a|]; [apply findAgent_in_first | reflexivity].
Qed.

(** * Properties of [agent.New] *)

Section NewProperties.
Context {Callback RunFunc : Type}.
Implicit Types (h : store Callback RunFunc) (cfg : Config.t Callback RunFunc).

Lemma adoptable_insert h (sub : addr) (sa : agent.t Callback RunFunc)
  (subAgent : option addr) :
  subAgent ≠ Some sub ->
  adoptable (<[sub := sa]> h) subAgent <-> adoptable h subAgent.
Proof.
  intros Hne. unfold adoptable. split; intros (l & sl & -> & Hl & Hp);
    exists l, sl; (split; [reflexivity|]); (split; [|exact Hp]).
  - rewrite lookup_insert_ne in Hl; [exact Hl | congruence].
  - rewrite lookup_insert_ne; [exact Hl | congruence].
Qed.

(** The loop over sub-agents that can all be adopted. *)
Lemma New_range_adopts (a : addr) (subAgents : list (option addr)) h :
  NoDup subAgents -> Forall (adoptable h) subAgents ->
  ∃ h', New_range a subAgents h = (h', Returns (Ok a))
        ∧ (∀ sub, Some sub ∈ subAgents ->
             ∃ sa, h !! sub = Some sa ∧ h' !! sub = Some (set_parent (Some a) sa))
        ∧ (∀ l, Some l ∉ subAgents -> h' !! l = h !! l).
Proof.
  revert h. induction subAgents as [|subAgent rest IH]; intros h Hnd Hall.
  - exists h. split; [reflexivity|]. split; [|reflexivity].
    intros sub Hin. now apply elem_of_nil in Hin.
  - apply NoDup_cons in Hnd as [Hfirst Hnd].
    apply Forall_cons in Hall as [(sub & sa & -> & Hsub & Hparent) Hall].
    destruct (IH (<[sub := set_parent (Some a) sa]> h) Hnd) as (h' & Hrun & Hin & Hout).
    { apply Forall_forall. intros s Hs.
      apply adoptable_insert; [intros ->; contradiction|].
      exact (proj1 (Forall_forall _ _) Hall s Hs). }
    exists h'. cbn [New_range]. rewrite Hsub, Hparent. split; [exact Hrun|]. split.
    + intros l Hl. apply elem_of_cons in Hl as [[= ->]|Hl].
      * exists sa. split; [exact Hsub|]. rewrite (Hout sub Hfirst). apply lookup_insert_eq.
      * destruct (Hin l Hl) as (sl & Hsl & Hl').
        rewrite lookup_insert_ne in Hsl by (intros ->; contradiction). eauto.
    + intros l Hl. apply not_elem_of_cons in Hl as [Hne Hl].
      rewrite (Hout l Hl). apply lookup_insert_ne. congruence.
Qed.

(** The loop returns the new agent only when every sub-agent could be
    adopted. *)
Lemma New_range_returned (a : addr) (subAgents : list (option addr)) h h' (r : addr) :
  New_range a subAgents h = (h', Returns (Ok r)) ->
  NoDup subAgents ∧ Forall (adoptable h) subAgents.
Proof.
  revert h. induction subAgents as [|subAgent rest IH]; intros h Hrun.
  - split; constructor.
  - cbn [New_range] in Hrun. destruct subAgent as [sub|]; [|discriminate].
    destruct (h !! sub) as [sa|] eqn:Hsub; [|discriminate].
    destruct (agent.parent sa) eqn:Hparent; [discriminate|].
    destruct (IH _ Hrun) as [Hnd Hall].
    assert (Hfirst : Some sub ∉ rest).
    { intros Hin. destruct (proj1 (Forall_forall _ _) Hall _ Hin)
        as (l & sl & [= <-] & Hl & Hp).
      rewrite lookup_insert_eq in Hl. injection Hl as <-. discriminate Hp. }
    split.
    + apply NoDup_cons. split; assumption.
    + apply Forall_cons. split; [exists sub, sa; auto|].
      apply Forall_forall. intros s Hs.
      apply (adoptable_insert h sub (set_parent (Some a) sa)); [intros ->; contradiction|].
      exact (proj1 (Forall_forall _ _) Hall s Hs).
Qed.

Lemma New_range_app (a : addr) (before rest : list (option addr)) h :
  New_range a (before ++ rest) h
  = match New_range a before h with
    | (h1, Returns (Ok _)) => New_range a rest h1
    | stopped => stopped
    end.
Proof.
  revert h. induction before as [|subAgent before IH]; intros h; [reflexivity|].
  cbn [app New_range]. destruct subAgent as [sub|]; [|reflexivity].
  destruct (h !! sub) as [sa|]; [|reflexivity].
  destruct (agent.parent sa); [reflexivity | apply IH].
Qed.

(** The new agent is at an address the store did not hold, so it is none of
    the sub-agents the store holds. *)
Lemma fresh_address h : h !! fresh (dom h) = None.
Proof. apply not_elem_of_dom. apply is_fresh. Qed.

Lemma adoptable_fresh h (na : agent.t Callback RunFunc) (subAgent : option addr) :
  allocated h subAgent ->
  adoptable (<[fresh (dom h) := na]> h) subAgent <-> adoptable h subAgent.
Proof.
  intros Halloc. apply adoptable_insert. intros ->.
  destruct (Halloc _ eq_refl) as [sa Hsa]. rewrite fresh_address in Hsa. discriminate Hsa.
Qed.

Lemma adoptable_allocated h (subAgent : option addr) :
  adoptable h subAgent -> allocated h subAgent.
Proof. intros (sub & sa & -> & Hsub & _) l [= <-]. eauto. Qed.

(** X21. [New] returns an agent exactly when the sub-agents it is given
    are there (none is nil), are pairwise distinct and have no parent yet.
    The agent is then at a new address, holds what the configuration
    gives and has no parent; every sub-agent has it as parent and is
    otherwise unchanged; and no other agent of the store is touched. *)
Theorem New_adopts_sub_agents cfg h :
  Forall (allocated h) (Config.SubAgents cfg) ->
  ((∃ h' a, New cfg h = (h', Returns (Ok a)))
   <-> NoDup (Config.SubAgents cfg) ∧ Forall (adoptable h) (Config.SubAgents cfg))
  ∧ ∀ h' a,
      New cfg h = (h', Returns (Ok a)) ->
      h !! a = None
      ∧ h' !! a = Some (new_agent cfg)
      ∧ (∀ sub, Some sub ∈ Config.SubAgents cfg ->
           ∃ sa, h !! sub = Some sa ∧ h' !! sub = Some (set_parent (Some a) sa))
      ∧ (∀ l, l ≠ a -> Some l ∉ Config.SubAgents cfg -> h' !! l = h !! l).
Proof.
  intros Halloc.
  assert (Hadopt : Forall (adoptable (<[fresh (dom h) := new_agent cfg]> h))
                     (Config.SubAgents cfg)
                   <-> Forall (adoptable h) (Config.SubAgents cfg)).
  { rewrite !Forall_forall. split; intros Hall s Hs.
    - apply (adoptable_fresh h (new_agent cfg));
        [exact (proj1 (Forall_forall _ _) Halloc s Hs) | now apply Hall].
    - apply adoptable_fresh; [exact (proj1 (Forall_forall _ _) Halloc s Hs) | now apply Hall]. }
  assert (Hself : Some (fresh (dom h)) ∉ Config.SubAgents cfg).
  { intros Hin. destruct (proj1 (Forall_forall _ _) Halloc _ Hin _ eq_refl) as [sa Hsa].
    rewrite fresh_address in Hsa. discriminate Hsa. }
  split; [split|].
  - intros (h' & a & Hnew). unfold New in Hnew. cbv zeta in Hnew.
    apply New_range_returned in Hnew as [Hnd Hall]. split; [exact Hnd | now apply Hadopt].
  - intros [Hnd Hall]. apply Hadopt in Hall.
    destruct (New_range_adopts (fresh (dom h)) _ _ Hnd Hall) as (h' & Hrun & _).
    exists h', (fresh (dom h)). exact Hrun.
  - intros h' a Hnew. unfold New in Hnew. cbv zeta in Hnew.
    destruct (New_range_returned _ _ _ _ _ Hnew) as [Hnd Hall].
    destruct (New_range_adopts (fresh (dom h)) _ _ Hnd Hall) as (h'' & Hrun & Hin & Hout).
    rewrite Hrun in Hnew. injection Hnew as <- <-.
    split; [apply fresh_address|]. split; [|split].
    + rewrite (Hout _ Hself). apply lookup_insert_eq.
    + intros sub Hsub. destruct (Hin sub Hsub) as (sa & Hsa & Hsa').
      rewrite lookup_insert_ne in Hsa by (intros <-; contradiction). eauto.
    + intros l Hl Hnot. rewrite (Hout l Hnot). now apply lookup_insert_ne.
Qed.

(** X22. A refused [New] is not undone. When the sub-agents before the
    first one that cannot be adopted - because it has a parent already, or
    because it stands in the list a second time - are distinct and without
    parent, [New] returns an error, and yet each of them now has a parent:
    the agent at the new address, which [New] did not return. No later
    [New] that is given one of them returns an agent. *)
Theorem refused_New_keeps_parents cfg h
  (before after : list (option addr)) (sub : addr) :
  Config.SubAgents cfg = before ++ Some sub :: after ->
  NoDup before -> Forall (adoptable h) before ->
  (Some sub ∈ before ∨ ∃ sa p, h !! sub = Some sa ∧ agent.parent sa = Some p) ->
  ∃ h' e,
    New cfg h = (h', Returns (Err e))
    ∧ h !! fresh (dom h) = None
    ∧ (∀ b, Some b ∈ before ->
         ∃ sb, h !! b = Some sb
               ∧ agent.parent sb = None
               ∧ h' !! b = Some (set_parent (Some (fresh (dom h))) sb))
    ∧ ∀ cfg2 b h2 a2,
        Some b ∈ before -> Some b ∈ Config.SubAgents cfg2 ->
        New cfg2 h' ≠ (h2, Returns (Ok a2)).
Proof.
  intros Hsubs Hnd Hall Hsub.
  assert (Hall0 : Forall (adoptable (<[fresh (dom h) := new_agent cfg]> h)) before).
  { apply Forall_forall. intros s Hs.
    pose proof (proj1 (Forall_forall _ _) Hall s Hs) as Hs'.
    apply adoptable_fresh; [now apply adoptable_allocated | exact Hs']. }
  destruct (New_range_adopts (fresh (dom h)) _ _ Hnd Hall0) as (h1 & Hrun & Hin & Hout).
  assert (Hmarked : ∀ b, Some b ∈ before ->
            ∃ sb, h !! b = Some sb ∧ agent.parent sb = None
                  ∧ h1 !! b = Some (set_parent (Some (fresh (dom h))) sb)).
  { intros b Hb. destruct (Hin b Hb) as (sb & Hsb & Hsb').
    destruct (proj1 (Forall_forall _ _) Hall _ Hb) as (b' & sb' & [= <-] & Hb' & Hp).
    rewrite lookup_insert_ne in Hsb
      by (intros E; rewrite <- E, fresh_address in Hb'; discriminate Hb').
    rewrite Hsb in Hb'. injection Hb' as <-. eauto. }
  assert (Hstop : ∃ sa p, h1 !! sub = Some sa ∧ agent.parent sa = Some p).
  { destruct (decide (Some sub ∈ before)) as [Hdup|Hnew].
    - destruct (Hmarked sub Hdup) as (sb & _ & _ & Hsb). eauto.
    - destruct Hsub as [Hdup|(sa & p & Hsa & Hp)]; [contradiction|].
      exists sa, p. split; [|exact Hp]. rewrite (Hout sub Hnew).
      rewrite lookup_insert_ne; [exact Hsa|].
      intros E. rewrite <- E, fresh_address in Hsa. discriminate Hsa. }
  destruct Hstop as (sa & p & Hsa & Hp).
  exists h1. eexists. split; [|split; [apply fresh_address | split; [exact Hmarked|]]].
  - unfold New. cbv zeta. rewrite Hsubs, New_range_app, Hrun.
    cbn [New_range]. rewrite Hsa, Hp. reflexivity.
  - intros cfg2 b h2 a2 Hb Hb2 Hnew. unfold New in Hnew. cbv zeta in Hnew.
    apply New_range_returned in Hnew as [_ Hall2].
    destruct (proj1 (Forall_forall _ _) Hall2 _ Hb2) as (b' & sb' & [= <-] & Hb' & Hparent).
    destruct (Hmarked b Hb) as (sb & _ & _ & Hsb).
    rewrite lookup_insert_ne in Hb'
      by (intros E; rewrite <- E, fresh_address in Hsb; discriminate Hsb).
    rewrite Hsb in Hb'. injection Hb' as <-. discriminate Hparent.
Qed.

End NewProperties.

(** * The properties on concrete requests, responses and streams

    From here on the platform is [sample_platform]. *)

#[local] Existing Instance sample_platform.

(** C1 on a tracker with two pending calls; the last case is the test
    TestCallTrackerNewFunctionResponse_UnknownCallID of the package. *)
Lemma call_tracker_correlation_witness :
  pending (newFunctionCall two_pending (lookup_call "")).1
  = ["call-1"; "call-2"; "adk-openai-call-0"]
  ∧ (newFunctionResponse two_pending (lookup_response "")).1
    = {| nextID := 0; pending := ["call-2"] |}
  ∧ (newFunctionResponse two_pending (lookup_response "call-2")).1
    = {| nextID := 0; pending := ["call-1"] |}
  ∧ newFunctionResponse two_pending (lookup_response "call-missing")
    = (two_pending,
       Err (Errorf
              "openai: received function response for unknown or already completed call id %q"
              [OpString "call-missing"])).
Proof.
  destruct (call_tracker_correlation two_pending)
    as (Hcall & Holdest & Hexplicit & Hunknown).
  split; [|split; [|split]].
  - apply (Hcall (lookup_call "")); [discriminate | reflexivity].
  - apply (Holdest (lookup_response "") "call-1" ["call-2"]); reflexivity.
  - apply (Hexplicit (lookup_response "call-2") ["call-1"] []);
      [discriminate | reflexivity | absent].
  - apply (Hunknown (lookup_response "call-missing")); [discriminate | absent].
Defined.

(** Against C3 as stated: two calls that bring the same identifier leave it
    in the pending list twice. *)
Lemma duplicate_explicit_identifier :
  pending (run_ops fresh_tracker [OpCall (lookup_call "call-1"); OpCall (lookup_call "call-1")])
  = ["call-1"; "call-1"]
  ∧ ¬ NoDup ["call-1"; "call-1"].
Proof.
  split; [vm_compute; reflexivity|].
  intros Hnd. apply NoDup_cons in Hnd as [Hnot _]. apply Hnot. left.
Qed.

(** C3 on a run of four operations from the fresh tracker. *)
Lemma pending_registry_invariant_witness :
  NoDup (pending (run_ops fresh_tracker
                    [OpCall (lookup_call ""); OpCall (lookup_call "call-7");
                     OpResponse (lookup_response ""); OpCall (lookup_call "")])).
Proof.
  apply pending_registry_invariant.
  - repeat split; [apply NoDup_nil_2 | reflexivity | intros n _; apply not_elem_of_nil].
  - reflexivity.
  - cbn [explicit_ids_fresh fresh_explicit_id].
    assert (E1 : apply_op fresh_tracker (OpCall (lookup_call ""))
                 = {| nextID := 1; pending := ["adk-openai-call-0"] |})
      by (vm_compute; reflexivity).
    rewrite E1.
    assert (E2 : apply_op {| nextID := 1; pending := ["adk-openai-call-0"] |}
                   (OpCall (lookup_call "call-7"))
                 = {| nextID := 1; pending := ["adk-openai-call-0"; "call-7"] |})
      by (vm_compute; reflexivity).
    rewrite E2.
    split; [intros Hid; exfalso; apply Hid; reflexivity|].
    split; [intros _; split; [absent | intros n; discriminate]|].
    split; [exact I|].
    split; [intros Hid; exfalso; apply Hid; reflexivity | exact I].
Defined.

(** C4 on the request of TestBuildOpenAIParams_UnsupportedPart. *)
Lemma unsupported_part_is_an_error_witness :
  (∃ e, convertContents inline_data_contents = Err e)
  ∧ ∀ modelName (req : LLMRequest.t),
      LLMRequest.Contents req = inline_data_contents ->
      ∃ e, buildOpenAIParams modelName (Some req) = Err e.
Proof.
  apply (unsupported_part_is_an_error inline_data_contents
           {| Content.Role := RoleUser; Content.Parts := [Some inline_data_part] |}
           inline_data_part).
  - apply list_elem_of_here.
  - apply list_elem_of_here.
  - repeat split.
Defined.

(** C5 on the response of TestConvertResponse_NoOutput, and on a response
    whose only message is empty. *)
Lemma response_without_content_is_rejected_witness :
  (∃ e, convertResponse (Some (response_with [])) = Err e)
  ∧ (∃ e, convertResponse (Some (response_with [empty_message])) = Err e).
Proof.
  destruct response_without_content_is_rejected as (_ & _ & Hresp).
  split; apply Hresp; reflexivity.
Defined.

(** Against C6 as stated: a raw JSON schema that declares the title Report
    yields a format named [adk_response]. *)
Lemma raw_schema_title_is_not_used :
  titled_raw_schema !! "title" = Some (AnyString "Report")
  ∧ newJSONSchemaFormat
      (output_config "application/json" None (AnyMap titled_raw_schema) None)
    = Ok {| ResponseFormatTextJSONSchemaConfigParam.Name := "adk_response";
            ResponseFormatTextJSONSchemaConfigParam.Schema_ := Some titled_raw_schema;
            ResponseFormatTextJSONSchemaConfigParam.Type_ := "json_schema" |}.
Proof. split; reflexivity. Qed.

(** C6 on two configurations: a native schema titled Answer names the
    format Answer; the raw schema titled Report leaves it the default
    name. *)
Lemma schema_format_name_witness :
  ResponseFormatTextJSONSchemaConfigParam.Name
    {| ResponseFormatTextJSONSchemaConfigParam.Name := "Answer";
       ResponseFormatTextJSONSchemaConfigParam.Schema_ :=
         Some {[ "title" := AnyString "Answer"; "type" := AnyString "OBJECT" ]};
       ResponseFormatTextJSONSchemaConfigParam.Type_ := "json_schema" |}
  = "Answer"
  ∧ ResponseFormatTextJSONSchemaConfigParam.Name
      {| ResponseFormatTextJSONSchemaConfigParam.Name := "adk_response";
         ResponseFormatTextJSONSchemaConfigParam.Schema_ := Some titled_raw_schema;
         ResponseFormatTextJSONSchemaConfigParam.Type_ := "json_schema" |}
    = "adk_response".
Proof.
  split.
  - apply (schema_format_name
             (output_config "application/json" (Some answer_schema) AnyNil None)).
    vm_compute. reflexivity.
  - apply (schema_format_name
             (output_config "application/json" None (AnyMap titled_raw_schema) None)).
    reflexivity.
Defined.

(** C7 on the configuration of TestConvertToolChoice, on allowed names
    that are all empty, and on a mode the package does not know. *)
Lemma tool_choice_conversion_witness :
  convertToolChoice (tool_config FunctionCallingConfigModeAny ["lookup"])
  = Ok (Some (allowed_tools_choice ToolChoiceAllowedModeRequired ["lookup"]))
  ∧ convertToolChoice (tool_config FunctionCallingConfigModeAuto [""; ""]) = Ok None
  ∧ convertToolChoice (tool_config "VALIDATED" ["lookup"])
    = Err (unsupported_mode "VALIDATED").
Proof.
  split; [|split].
  - apply (tool_choice_conversion FunctionCallingConfigModeAny ["lookup"]);
      [reflexivity | discriminate].
  - apply (tool_choice_conversion FunctionCallingConfigModeAuto [""; ""]);
      [discriminate | reflexivity | left; right; right; reflexivity].
  - apply (tool_choice_conversion "VALIDATED" ["lookup"]);
      [intros [E|[E|E]]; discriminate E | discriminate | discriminate].
Defined.

(** Against C8 as stated: with labels set and an unsupported MIME type, the
    error returned is the one of the MIME type, which is none of the error
    values of the unsupported settings. *)
Lemma labels_behind_mime_type :
  is_Some (GenerateContentConfig.Labels labelled_png_config)
  ∧ (applyGenerationConfig (initial_params "gpt-4o-mini" []) (Some labelled_png_config)).2
    = Some (unsupported_mime_type "image/png")
  ∧ buildOpenAIParams "gpt-4o-mini" (Some (text_request "ping" labelled_png_config))
    = Err (unsupported_mime_type "image/png")
  ∧ unsupported_mime_type "image/png" ∉ (Sentinel <$> gap_errors).
Proof.
  split; [eexists; reflexivity|].
  split; [vm_compute; reflexivity|].
  split; [reflexivity|].
  unfold gap_errors. absent.
Qed.

(** C8 on two configurations with labels. *)
Lemma capability_gaps_are_reported_witness :
  (applyGenerationConfig (initial_params "gpt-4o-mini" []) (Some labelled_config)).2
  = Some (Sentinel ErrLabelsNotSupported)
  ∧ (applyGenerationConfig (initial_params "gpt-4o-mini" []) (Some labelled_png_config)).2
    = Some (unsupported_mime_type "image/png")
  ∧ ∃ e, buildOpenAIParams "gpt-4o-mini" (Some (text_request "ping" labelled_config)) = Err e.
Proof.
  assert (Hsampling : ∀ mime,
            sampling_supported
              (output_config mime None AnyNil (Some {[ "team" := "search" ]}))).
  { intros mime. repeat split. discriminate. }
  assert (Hlabels : ∀ mime,
            is_Some (GenerateContentConfig.Labels
                       (output_config mime None AnyNil (Some {[ "team" := "search" ]})))).
  { intros mime. eexists. reflexivity. }
  split; [|split].
  - destruct (capability_gaps_are_reported (initial_params "gpt-4o-mini" []) labelled_config)
      as (_ & _ & _ & _ & _ & _ & Hl & _).
    exact (Hl (Hsampling "text/plain") (Hlabels "text/plain")).
  - destruct (capability_gaps_are_reported (initial_params "gpt-4o-mini" [])
                labelled_png_config) as (_ & _ & _ & _ & _ & _ & Hl & _).
    exact (Hl (Hsampling "image/png") (Hlabels "image/png")).
  - destruct (capability_gaps_are_reported (initial_params "gpt-4o-mini" []) labelled_config)
      as (_ & Hbuild & _).
    apply (Hbuild ltac:(do 5 right; left; apply Hlabels) "gpt-4o-mini"
             (text_request "ping" labelled_config) eq_refl).
Defined.

(** C9 on a [response.created] event in the middle of a function call. *)
Lemma unrecognized_event_is_ignored_witness :
  process (after_events city_deltas) created_event = (after_events city_deltas, Ok None).
Proof.
  apply unrecognized_event_is_ignored. unfold recognized_event_kinds. absent.
Defined.



(** Against C10 as stated: after the deltas and the done event without
    item identifier, a done event whose item identifier is the text default
    uses the buffered text and removes the entry. *)
Lemma default_entry_is_removed :
  functionArgs (after_events (anonymous_deltas ++ [anonymous_done])) !! "default"
  = Some (city_head +:+ city_tail)
  ∧ process (after_events (anonymous_deltas ++ [anonymous_done])) default_done
    = (newStreamTranslator,
       Ok (Some (function_call_response "default" "lookup"
                   (Some {[ "city" := AnyString "Paris" ]}))))
  ∧ functionArgs (after_events (anonymous_deltas ++ [anonymous_done; default_done]))
    !! "default" = None.
Proof. repeat split; vm_compute; reflexivity. Qed.

(** C10 on two deltas without item identifier: the done event without
    item identifier, the entry that stays, and the two done events with the
    item identifier default, without and with arguments of their own. *)
Lemma empty_item_identifier_witness :
  process (after_events anonymous_deltas) anonymous_done
  = (after_events anonymous_deltas,
     Ok (Some (function_call_response "" "lookup" (Some ∅))))
  ∧ is_Some (functionArgs
               (process_all (after_events anonymous_deltas) [anonymous_done; created_event])
             !! "default")
  ∧ process (after_events anonymous_deltas) default_done
    = (newStreamTranslator,
       Ok (Some (function_call_response "default" "lookup"
                   (Some {[ "city" := AnyString "Paris" ]}))))
  ∧ process (after_events anonymous_deltas) default_done_with_arguments
    = (newStreamTranslator,
       Ok (Some (function_call_response "default" "lookup" (Some ∅)))).
Proof.
  destruct (empty_item_identifier anonymous_deltas) as (_ & Hdone & Hstays & Hdefault).
  split; [|split; [|split]].
  - apply (Hdone anonymous_done); reflexivity.
  - apply (Hstays [anonymous_done; created_event]).
    + eexists. vm_compute. reflexivity.
    + intros evt Hin Hty.
      apply elem_of_cons in Hin as [->|Hin]; [discriminate|].
      apply list_elem_of_singleton in Hin as ->. discriminate.
  - destruct (Hdefault default_done eq_refl eq_refl) as (Hgone & Hbuffered & _).
    specialize (Hbuffered eq_refl (city_head +:+ city_tail)
                  ltac:(vm_compute; reflexivity)).
    destruct (process (after_events anonymous_deltas) default_done) as [[buffers] r].
    cbn [fst snd functionArgs] in Hgone, Hbuffered. subst buffers r.
    vm_compute. reflexivity.
  - destruct (Hdefault default_done_with_arguments eq_refl eq_refl) as (Hgone & _ & Hown).
    specialize (Hown ltac:(discriminate)).
    destruct (process (after_events anonymous_deltas) default_done_with_arguments)
      as [[buffers] r].
    cbn [fst snd functionArgs] in Hgone, Hown. subst buffers r.
    vm_compute. reflexivity.
Defined.

(** X1 on two calls and two responses, none with an identifier: the second
    response is matched to the identifier generated for the second call. *)
Lemma responses_answer_calls_in_order_witness :
  ∃ p, (newFunctionResponse
          (run_ops fresh_tracker
             ((OpCall <$> [lookup_call ""; lookup_call ""])
              ++ (OpResponse <$> [lookup_response ""])))
          (lookup_response "")).2 = Ok p
       ∧ ResponseInputItemFunctionCallOutputParam.CallID p = "adk-openai-call-1".
Proof.
  eexists. split; [reflexivity|].
  apply (responses_answer_calls_in_order fresh_tracker
           [lookup_call ""; lookup_call ""] [lookup_response ""] (lookup_response "")).
  - reflexivity.
  - simpl. lia.
  - simpl. lia.
  - repeat constructor; discriminate.
  - repeat constructor.
  - simpl. lia.
  - reflexivity.
Defined.

(** X2 on a question, a call and its answer. *)
Lemma outputs_answer_earlier_calls_witness :
  ∃ items, convertContents call_and_response_contents = Ok items
           ∧ outputs_answer_calls items.
Proof.
  eexists. split; [reflexivity|].
  apply (outputs_answer_earlier_calls call_and_response_contents). reflexivity.
Defined.

(** X3 on three contents, one of them blank. *)
Lemma text_only_contents_witness :
  convertContents (Some <$> greeting_contents) = Ok (omap text_message greeting_contents).
Proof.
  apply (text_only_contents greeting_contents).
  - repeat constructor; intros part Hin;
      repeat (apply elem_of_cons in Hin as [Hin|Hin];
              [try discriminate Hin; injection Hin as ->; discriminate|]);
      exact (False_ind _ (proj1 (elem_of_nil _) Hin)).
  - repeat constructor; intros _; eexists; reflexivity.
Defined.

(** X4 on an instruction of two lines and on one with inline data. *)
Lemma flattened_instruction_witness :
  flattenContentText (Some two_line_instruction)
  = Ok ("Be brief" +:+ newline +:+ "Answer in French")
  ∧ flattenContentText (Some inline_data_instruction) = Err non_text_part.
Proof.
  split.
  - apply (proj1 (flattened_instruction two_line_instruction)).
    intros part Hin.
    repeat (apply elem_of_cons in Hin as [Hin|Hin];
            [injection Hin as ->; discriminate|]).
    exact (False_ind _ (proj1 (elem_of_nil _) Hin)).
  - apply (proj1 (proj2 (flattened_instruction inline_data_instruction)) inline_data_part).
    + apply list_elem_of_further, list_elem_of_here.
    + reflexivity.
Defined.

(** X6 on a text request that asks for JSON without a schema. *)
Lemma json_without_schema_is_refused_witness :
  buildOpenAIParams "gpt-test"
    (Some (text_request "Hello" (output_config "application/json" None AnyNil None)))
  = Err (Sentinel ErrJSONResponseWithoutSchema).
Proof.
  eapply (proj2 (json_without_schema_is_refused
                   (initial_params "gpt-test" [])
                   (output_config "application/json" None AnyNil None)
                   _ _ eq_refl eq_refl eq_refl)).
  - reflexivity.
  - reflexivity.
  Unshelve.
  + repeat split. simpl. lia.
  + exists "". reflexivity.
Defined.

(** X7 on a text request without configuration of note, and on a request
    without parts. *)
Lemma built_request_witness :
  (∃ params,
     buildOpenAIParams "gpt-test" (Some (text_request "Hello" (tools_config []))) = Ok params
     ∧ ResponseNewParams.Model params = "gpt-test"
     ∧ ResponseNewParams.Input params ≠ []
     ∧ convertTools (Some (tools_config [])) = Ok (ResponseNewParams.Tools params))
  ∧ buildOpenAIParams "gpt-test" (Some partless_request) = Err (Sentinel ErrNoContents).
Proof.
  destruct (built_request "gpt-test") as (Hok & Hnone & _).
  split.
  - eexists. split; [reflexivity|].
    destruct (Hok (text_request "Hello" (tools_config [])) _ eq_refl)
      as (Hmodel & _ & Hinput & Htools).
    split; [exact Hmodel|]. split; [exact Hinput | exact Htools].
  - apply Hnone. repeat constructor.
Defined.

(** X8 on a configuration with one tool that declares lookup. *)
Lemma converted_tools_witness :
  ∃ tools,
    convertTools (Some (tools_config [Some (function_tool [Some lookup_declaration])]))
    = Ok tools
    ∧ Forall2 converts_declaration tools [Some lookup_declaration].
Proof.
  eexists. split; [reflexivity|].
  apply (converted_tools (tools_config [Some (function_tool [Some lookup_declaration])])).
  reflexivity.
Defined.

(** X9 on a nil tool behind a function tool. *)
Lemma rejected_tool_is_named_witness :
  convertTools
    (Some (tools_config [Some (function_tool [Some lookup_declaration]); None]))
  = Err (Errorf "openai: tool %d is nil" [OpInt 1]).
Proof.
  assert (Hbefore : ∃ converted,
            convertTools_loop [Some (function_tool [Some lookup_declaration])] 0 []
            = Ok converted) by (eexists; reflexivity).
  destruct Hbefore as [converted Hbefore].
  exact (proj1 (rejected_tool_is_named
                  (tools_config [Some (function_tool [Some lookup_declaration]); None])
                  [Some (function_tool [Some lookup_declaration])] [] None converted
                  eq_refl Hbefore) eq_refl).
Defined.

(** X10 on a usage whose reasoning count is too large: the counts that fit
    are carried over, the one that does not is still an [int32]. *)
Lemma usage_counts_witness :
  UsageMetadata.PromptTokenCount (convertUsage large_usage) = 12
  ∧ UsageMetadata.TotalTokenCount (convertUsage large_usage) = 42
  ∧ in_int32 (UsageMetadata.ThoughtsTokenCount (convertUsage large_usage)).
Proof.
  destruct (usage_counts large_usage)
    as ((_ & _ & _ & _ & Hthoughts) & Hprompt & _ & Htotal & _).
  split; [|split].
  - apply Hprompt. unfold in_int32. simpl. lia.
  - apply Htotal. unfold in_int32. simpl. lia.
  - exact Hthoughts.
Defined.

(** X11 on a response cut short and on a complete one. *)
Lemma finish_reason_and_feedback_witness :
  (∃ feedback,
     promptFeedback (Some cut_short_response) = Some feedback
     ∧ PromptFeedback.BlockReason feedback = "max_output_tokens")
  ∧ finishReason (Some (response_with [])) = FinishReasonStop.
Proof.
  split.
  - eexists. split; [reflexivity|].
    destruct (finish_reason_and_feedback cut_short_response) as (_ & _ & _ & Hfeedback).
    apply (Hfeedback _ eq_refl).
  - destruct (finish_reason_and_feedback (response_with [])) as (Hstop & _).
    apply Hstop. reflexivity.
Defined.

(** X12 on a response with one message. *)
Lemma converted_response_witness :
  ∃ r, convertResponse (Some (response_with [hello_message])) = Ok r
       ∧ GenerateContentResponse.ResponseID r = "resp-1"
       ∧ GenerateContentResponse.ModelVersion r = "gpt-test".
Proof.
  eexists. split; [reflexivity|].
  destruct (converted_response (response_with [hello_message]) _ eq_refl)
    as (parts & _ & _ & _ & _ & Hid & Hmodel & _).
  split; [exact Hid | exact Hmodel].
Defined.

(** X13 on a message with a text, an empty text and a refusal. *)
Lemma message_texts_are_kept_witness :
  convertOutputItems [hello_message]
  = Ok [text_part "Hello" false; text_part "I cannot say more" false].
Proof.
  apply (message_texts_are_kept [hello_message]).
  - discriminate.
  - constructor; [|constructor]. split; [reflexivity|].
    constructor; [left; reflexivity|].
    constructor; [left; reflexivity|].
    constructor; [right; reflexivity | constructor].
Defined.

(** X14 on a failure event that arrives between deltas and done event: it
    ends in an error, and the buffers are as before. *)
Lemma event_outcomes_witness :
  ∃ e, process (after_events city_deltas) failed_event = (after_events city_deltas, Err e).
Proof.
  apply (event_outcomes (after_events city_deltas) failed_event).
  left. reflexivity.
Defined.

(** X15 on a delta of the item call-2 while the item call-1 has a
    buffer. *)
Lemma other_buffers_are_untouched_witness :
  functionArgs
    (process (after_events city_deltas)
       (arguments_event responseFunctionCallArgumentsDelta "call-2" city_head "" "")).1
  !! "call-1"
  = functionArgs (after_events city_deltas) !! "call-1".
Proof.
  apply (other_buffers_are_untouched (after_events city_deltas)
           (arguments_event responseFunctionCallArgumentsDelta "call-2" city_head "" "")
           "call-1").
  discriminate.
Defined.

(** X16 on the deltas without item identifier. *)
Lemma buffers_of_a_stream_witness :
  functionArgs (after_events anonymous_deltas) !! "" = None.
Proof. apply (buffers_of_a_stream anonymous_deltas). Defined.

(** X17 on the two deltas of the item call-1. *)
Lemma streamed_arguments_witness :
  process (process_all newStreamTranslator city_deltas)
    (arguments_event responseFunctionCallArgumentsDone "call-1" "" "" "lookup")
  = (newStreamTranslator,
     Ok (Some (micro_response
                 (function_call_part
                    {| FunctionCall.ID := "call-1";
                       FunctionCall.Name := "lookup";
                       FunctionCall.Args := Some {[ "city" := AnyString "Paris" ]} |})))).
Proof.
  rewrite (streamed_arguments newStreamTranslator city_deltas
             (arguments_event responseFunctionCallArgumentsDone "call-1" "" "" "lookup")).
  - vm_compute. reflexivity.
  - discriminate.
  - reflexivity.
  - repeat constructor.
  - discriminate.
  - reflexivity.
  - reflexivity.
Defined.

(** X18 on a text in two deltas with a thought and an empty delta
    between. *)
Lemma streamed_text_witness :
  translate newStreamTranslator greeting_events
  = ([micro_response (text_part "Hel" false);
      micro_response (text_part "greeting" true);
      micro_response (text_part "lo" false)], None).
Proof.
  apply (streamed_text newStreamTranslator greeting_events).
  constructor; [left; reflexivity|].
  constructor; [right; left; reflexivity|].
  constructor; [left; reflexivity|].
  constructor; [left; reflexivity | constructor].
Defined.

(** X19 on a call of lookup that comes back from the vendor and is
    answered. *)
Lemma call_identifier_round_trip_witness :
  ∃ fc,
    (newFunctionCall fresh_tracker fc).1 = {| nextID := 0; pending := ["call-9"] |}
    ∧ (newFunctionResponse (newFunctionCall fresh_tracker fc).1 (lookup_response "call-9")).1
      = fresh_tracker.
Proof.
  destruct (call_identifier_round_trip lookup_item
              (function_call_part
                 {| FunctionCall.ID := "call-9"; FunctionCall.Name := "lookup";
                    FunctionCall.Args := Some ∅ |})
              fresh_tracker (lookup_response "call-9"))
    as (fc & _ & Hcall & _ & _ & Hdone); [discriminate | discriminate | reflexivity.. |].
  exists fc. split; [exact Hcall|]. apply Hdone. apply not_elem_of_nil.
Defined.

(** X5 on a configuration that asks for JSON with a titled schema. *)
Lemma accepted_configuration_witness :
  ∃ params',
    applyGenerationConfig (initial_params "gpt-test" [])
      (Some (output_config "application/json" (Some answer_schema) AnyNil None))
    = (params', None)
    ∧ ∃ format,
        newJSONSchemaFormat (output_config "application/json" (Some answer_schema) AnyNil None)
        = Ok format
        ∧ ResponseNewParams.Text params' = Some format.
Proof.
  assert (Happ : ∃ params',
            applyGenerationConfig (initial_params "gpt-test" [])
              (Some (output_config "application/json" (Some answer_schema) AnyNil None))
            = (params', None)) by (eexists; reflexivity).
  destruct Happ as [params' Happ]. exists params'. split; [exact Happ|].
  destruct (accepted_configuration (initial_params "gpt-test" []) params'
              (output_config "application/json" (Some answer_schema) AnyNil None) Happ)
    as (_ & _ & _ & _ & _ & _ & Hformat).
  exact Hformat.
Defined.

(** X21 on a team of the two agents of the store. *)
Lemma New_adopts_sub_agents_witness :
  ∃ h' a,
    New (team_config [Some 1%positive; Some 2%positive]) two_agents = (h', Returns (Ok a)).
Proof.
  apply (proj1 (New_adopts_sub_agents
                  (team_config [Some 1%positive; Some 2%positive]) two_agents
                  ltac:(repeat constructor; intros sub [= <-]; eexists; reflexivity))).
  split.
  - apply NoDup_cons. split; [absent|]. apply NoDup_singleton.
  - constructor; [exists 1%positive, (leaf_agent "planner"); repeat split|].
    constructor; [exists 2%positive, (leaf_agent "writer"); repeat split | constructor].
Defined.

(** X22 on a team that lists the same agent twice: [New] fails, and the
    agent is left with a parent. *)
Lemma refused_New_keeps_parents_witness :
  ∃ h' e,
    New (team_config [Some 1%positive; Some 1%positive]) two_agents = (h', Returns (Err e))
    ∧ two_agents !! fresh (dom two_agents) = None
    ∧ (∀ b, Some b ∈ [Some 1%positive] ->
         ∃ sb, two_agents !! b = Some sb
               ∧ agent.parent sb = None
               ∧ h' !! b = Some (set_parent (Some (fresh (dom two_agents))) sb))
    ∧ ∀ (cfg2 : Config.t unit unit) b h2 a2,
        Some b ∈ [Some 1%positive] -> Some b ∈ Config.SubAgents cfg2 ->
        New cfg2 h' ≠ (h2, Returns (Ok a2)).
Proof.
  apply (refused_New_keeps_parents (team_config [Some 1%positive; Some 1%positive])
           two_agents [Some 1%positive] [] 1%positive).
  - reflexivity.
  - apply NoDup_singleton.
  - constructor; [exists 1%positive, (leaf_agent "planner"); repeat split | constructor].
  - left. apply list_elem_of_here.
Defined.
